(** * openml.flows.flow : a shallow embedding of [OpenMLFlow]

    The development follows [src/openml/flows/flow.py].  Python values are
    embedded as the inductive type [pyval]; a flow object is a value of
    [OpenMLFlow] whose seventeen attributes are the ones [__init__] sets.
    Code that can raise returns an [outcome]; code that talks to the
    registry threads the list of transport calls made so far. *)

From Stdlib Require Import ZArith String Ascii List Bool Arith Lia.
Import ListNotations.
Open Scope string_scope.
Open Scope Z_scope.

(** ** Python values *)

(** [VDict ordered items] is a [dict] ([ordered = false]) or a
    [collections.OrderedDict] ([ordered = true]); [items] lists the entries in
    insertion order.  An item list stands for a Python mapping when its keys
    are hashable and pairwise distinct (see [wf_items] below).  [VObj id] is an
    object without special methods (a model); it is compared by identity.
    The three mapping attributes of a flow are stored as their item lists:
    [__init__] admits nothing but an [OrderedDict] there. *)
#[warnings="-register-all"]
Inductive pyval : Type :=
| VNone
| VInt (z : Z)
| VStr (s : string)
| VList (xs : list pyval)
| VDict (ordered : bool) (items : list (pyval * pyval))
| VObj (id : nat)
| VFlow (f : OpenMLFlow)
with OpenMLFlow : Type :=
| mkFlow (name description model : pyval)
         (components parameters parameters_meta_info : list (pyval * pyval))
         (external_version tags language dependencies : pyval)
         (binary_url binary_format binary_md5 : pyval)
         (uploader upload_date flow_id version : pyval).

Definition items := list (pyval * pyval).

Module Attr.
Definition name (f : OpenMLFlow) : pyval :=
  let 'mkFlow x _ _ _ _ _ _ _ _ _ _ _ _ _ _ _ _ := f in x.
Definition description (f : OpenMLFlow) : pyval :=
  let 'mkFlow _ x _ _ _ _ _ _ _ _ _ _ _ _ _ _ _ := f in x.
Definition model (f : OpenMLFlow) : pyval :=
  let 'mkFlow _ _ x _ _ _ _ _ _ _ _ _ _ _ _ _ _ := f in x.
Definition components (f : OpenMLFlow) : items :=
  let 'mkFlow _ _ _ x _ _ _ _ _ _ _ _ _ _ _ _ _ := f in x.
Definition parameters (f : OpenMLFlow) : items :=
  let 'mkFlow _ _ _ _ x _ _ _ _ _ _ _ _ _ _ _ _ := f in x.
Definition parameters_meta_info (f : OpenMLFlow) : items :=
  let 'mkFlow _ _ _ _ _ x _ _ _ _ _ _ _ _ _ _ _ := f in x.
Definition external_version (f : OpenMLFlow) : pyval :=
  let 'mkFlow _ _ _ _ _ _ x _ _ _ _ _ _ _ _ _ _ := f in x.
Definition tags (f : OpenMLFlow) : pyval :=
  let 'mkFlow _ _ _ _ _ _ _ x _ _ _ _ _ _ _ _ _ := f in x.
Definition language (f : OpenMLFlow) : pyval :=
  let 'mkFlow _ _ _ _ _ _ _ _ x _ _ _ _ _ _ _ _ := f in x.
Definition dependencies (f : OpenMLFlow) : pyval :=
  let 'mkFlow _ _ _ _ _ _ _ _ _ x _ _ _ _ _ _ _ := f in x.
Definition binary_url (f : OpenMLFlow) : pyval :=
  let 'mkFlow _ _ _ _ _ _ _ _ _ _ x _ _ _ _ _ _ := f in x.
Definition binary_format (f : OpenMLFlow) : pyval :=
  let 'mkFlow _ _ _ _ _ _ _ _ _ _ _ x _ _ _ _ _ := f in x.
Definition binary_md5 (f : OpenMLFlow) : pyval :=
  let 'mkFlow _ _ _ _ _ _ _ _ _ _ _ _ x _ _ _ _ := f in x.
Definition uploader (f : OpenMLFlow) : pyval :=
  let 'mkFlow _ _ _ _ _ _ _ _ _ _ _ _ _ x _ _ _ := f in x.
Definition upload_date (f : OpenMLFlow) : pyval :=
  let 'mkFlow _ _ _ _ _ _ _ _ _ _ _ _ _ _ x _ _ := f in x.
Definition flow_id (f : OpenMLFlow) : pyval :=
  let 'mkFlow _ _ _ _ _ _ _ _ _ _ _ _ _ _ _ x _ := f in x.
Definition version (f : OpenMLFlow) : pyval :=
  let 'mkFlow _ _ _ _ _ _ _ _ _ _ _ _ _ _ _ _ x := f in x.

(** [self.flow_id = v] *)
Definition set_flow_id (f : OpenMLFlow) (v : pyval) : OpenMLFlow :=
  let 'mkFlow a b c d e g h i j k l m n o p _ r := f in
  mkFlow a b c d e g h i j k l m n o p v r.
End Attr.

(** ** Exceptions and outcomes *)

(** The text of an exception, kept as the format the source uses together
    with the values substituted into it. *)
Inductive message : Type :=
| MustBeOrderedDict (variable_name : string) (variable : pyval)
| OnlyInParameters (keys : list pyval)
| OnlyInParametersMetaInfo (keys : list pyval)
| ParameterNameNotSerializable (key_ : pyval)
| ParameterValueNotSerializable (value : pyval)
| ShouldBeNonEmptyString (argument : string)
| ApiCallFailed (xml_response : string)
| MissingArguments (names : list string)
| UnexpectedKeyword (name : string)
| NotSubscriptable (v : pyval)
| BadIndex (v : pyval)
| NotIterable (v : pyval)
| Unhashable (v : pyval)
| NotAnInteger (v : pyval)
| WrongUnpackLength (n : nat)
| NotAString (v : pyval).

Inductive exn : Type :=
| TypeError (m : message)
| ValueError (m : message)
| KeyError (key : pyval)
| IndexError (index : Z)
| AttributeError (attribute : string)
| RecursionError
| CollaboratorError (what : string).

Inductive outcome (A : Type) : Type :=
| Return (a : A)
| Raise (e : exn).
Arguments Return {A} a.
Arguments Raise {A} e.

Definition bind {A B} (m : outcome A) (k : A -> outcome B) : outcome B :=
  match m with
  | Return a => k a
  | Raise e => Raise e
  end.

Declare Scope py_scope.
Delimit Scope py_scope with py.
Notation "x <- m ;; k" := (bind m (fun x => k))
  (at level 61, m at next level, right associativity) : py_scope.
Notation "' p <- m ;; k" := (bind m (fun x => let p := x in k))
  (at level 61, p pattern, m at next level, right associativity) : py_scope.
Open Scope py_scope.

(** A [for] loop that threads an accumulator and stops at the first raise. *)
Fixpoint for_fold {A S} (xs : list A) (s : S) (body : S -> A -> outcome S)
  : outcome S :=
  match xs with
  | [] => Return s
  | x :: rest => s' <- body s x ;; for_fold rest s' body
  end.

(** ** Equality ([==]) *)

(** The comparisons of the built-in containers, over an equality [eq] on
    their elements. *)
Section ContainerEquality.
Variable eq : pyval -> pyval -> bool.

(** [list.__eq__] *)
Fixpoint list_eq_with (xs ys : list pyval) : bool :=
  match xs, ys with
  | [], [] => true
  | x :: xs', y :: ys' => eq x y && list_eq_with xs' ys'
  | _, _ => false
  end.

(** [d[k]] as a search of the item list *)
Fixpoint lookup_with (k : pyval) (d : items) : option pyval :=
  match d with
  | [] => None
  | (k', v') :: rest => if eq k k' then Some v' else lookup_with k rest
  end.

(** [k in d] *)
Definition mem_with (k : pyval) (d : items) : bool :=
  match lookup_with k d with Some _ => true | None => false end.

(** [a.keys() == b.keys()]: key views compare as sets *)
Definition keys_eq_with (a b : items) : bool :=
  Nat.eqb (length a) (length b) &&
  forallb (fun kv => mem_with (fst kv) b) a.

(** [all([x == y for x, y in zip(a.values(), b.values())])]; [zip] stops at
    the shorter of the two *)
Fixpoint zip_values_all_with (a b : items) : bool :=
  match a, b with
  | (_, x) :: a', (_, y) :: b' => eq x y && zip_values_all_with a' b'
  | _, _ => true
  end.

(** [dict.__eq__]: same length, and every key of [a] is a key of [b] with
    an equal value *)
Definition dict_eq_with (a b : items) : bool :=
  Nat.eqb (length a) (length b) &&
  forallb (fun kv =>
             match lookup_with (fst kv) b with
             | Some v' => eq (snd kv) v'
             | None => false
             end) a.

(** [all(map(_eq, self, other))] of [OrderedDict.__eq__]: the keys agree
    position by position *)
Fixpoint zip_keys_all_with (a b : items) : bool :=
  match a, b with
  | (x, _) :: a', (y, _) :: b' => eq x y && zip_keys_all_with a' b'
  | _, _ => true
  end.

(** [OrderedDict.__eq__] against another [OrderedDict] *)
Definition odict_eq_with (a b : items) : bool :=
  dict_eq_with a b && zip_keys_all_with a b.
End ContainerEquality.

(** Helper function. Can be mocked for testing. *)
Definition _get_name (self : OpenMLFlow) : pyval := Attr.name self.

(** [py_eq a b] is [a == b].  A flow compares through [OpenMLFlow.__eq__];
    when that answers [NotImplemented] ([None] here) Python falls back to
    identity, which is [False] for two different values.

    [__eq__] follows the source: [this_dict] and [other_dict] are the two
    instance dictionaries without [parameters], [components], [model] and the
    fields of [generated_by_the_server]; what is left in both is
    [description], [parameters_meta_info], [external_version], [tags],
    [language] and [dependencies] (lemma [equal_is_dict_comparison]). *)
Fixpoint py_eq (a b : pyval) {struct a} : bool :=
  match a, b with
  | VNone, VNone => true
  | VInt x, VInt y => Z.eqb x y
  | VStr s, VStr t => String.eqb s t
  | VList xs, VList ys => list_eq_with py_eq xs ys
  | VDict oa ia, VDict ob ib =>
      if oa && ob then odict_eq_with py_eq ia ib else dict_eq_with py_eq ia ib
  | VObj i, VObj j => Nat.eqb i j
  | VFlow self, _ =>
      match __eq__ self b with
      | Some r => r
      | None => false
      end
  | _, _ => false
  end
with __eq__ (self : OpenMLFlow) (other : pyval) {struct self} : option bool :=
  match other with
  | VFlow other =>
      let this_parameters := Attr.parameters self in
      let this_components := Attr.components self in
      let other_parameters := Attr.parameters other in
      let other_components := Attr.components other in
      let equal :=
        py_eq (Attr.description self) (Attr.description other)
        && odict_eq_with py_eq (Attr.parameters_meta_info self)
                               (Attr.parameters_meta_info other)
        && py_eq (Attr.external_version self) (Attr.external_version other)
        && py_eq (Attr.tags self) (Attr.tags other)
        && py_eq (Attr.language self) (Attr.language other)
        && py_eq (Attr.dependencies self) (Attr.dependencies other) in
      let equal_name := py_eq (_get_name self) (_get_name other) in
      let parameters_equal :=
        keys_eq_with py_eq this_parameters other_parameters
        && zip_values_all_with py_eq this_parameters other_parameters in
      let components_equal :=
        keys_eq_with py_eq this_components other_components
        && zip_values_all_with py_eq this_components other_components in
      Some (parameters_equal && components_equal && equal && equal_name)
  | _ => None
  end.

(** The four local results of [__eq__], named as in the source. *)
Definition parameters_equal (self other : OpenMLFlow) : bool :=
  keys_eq_with py_eq (Attr.parameters self) (Attr.parameters other)
  && zip_values_all_with py_eq (Attr.parameters self) (Attr.parameters other).

Definition components_equal (self other : OpenMLFlow) : bool :=
  keys_eq_with py_eq (Attr.components self) (Attr.components other)
  && zip_values_all_with py_eq (Attr.components self) (Attr.components other).

Definition equal (self other : OpenMLFlow) : bool :=
  py_eq (Attr.description self) (Attr.description other)
  && odict_eq_with py_eq (Attr.parameters_meta_info self)
                         (Attr.parameters_meta_info other)
  && py_eq (Attr.external_version self) (Attr.external_version other)
  && py_eq (Attr.tags self) (Attr.tags other)
  && py_eq (Attr.language self) (Attr.language other)
  && py_eq (Attr.dependencies self) (Attr.dependencies other).

Definition equal_name (self other : OpenMLFlow) : bool :=
  py_eq (_get_name self) (_get_name other).

(** ** Built-in operations *)

Definition is_None (v : pyval) : bool :=
  match v with VNone => true | _ => false end.

(** [isinstance(v, six.string_types)] *)
Definition isinstance_str (v : pyval) : bool :=
  match v with VStr _ => true | _ => false end.

(** [isinstance(v, dict)]; an [OrderedDict] is a [dict] *)
Definition isinstance_dict (v : pyval) : bool :=
  match v with VDict _ _ => true | _ => false end.

(** [isinstance(v, OrderedDict)] *)
Definition isinstance_OrderedDict (v : pyval) : bool :=
  match v with VDict true _ => true | _ => false end.

(** Values with a [__hash__]: a list or a dict has none, and a class that
    defines [__eq__] alone (as [OpenMLFlow] does) loses it. *)
Definition hashable (v : pyval) : bool :=
  match v with
  | VNone | VInt _ | VStr _ | VObj _ => true
  | VList _ | VDict _ _ | VFlow _ => false
  end.

Definition lookup (k : pyval) (d : items) : option pyval := lookup_with py_eq k d.

Definition chars (s : string) : list pyval :=
  map (fun c => VStr (String c EmptyString)) (list_ascii_of_string s).

(** Indexing a sequence with an integer; a negative index counts from the
    end. *)
Definition sequence_index (xs : list pyval) (i : Z) : outcome pyval :=
  let n := Z.of_nat (length xs) in
  let j := if i <? 0 then i + n else i in
  if (j <? 0) || (n <=? j) then Raise (IndexError i)
  else match nth_error xs (Z.to_nat j) with
       | Some v => Return v
       | None => Raise (IndexError i)
       end.

(** [obj[key]] *)
Definition getitem (obj key : pyval) : outcome pyval :=
  match obj with
  | VDict _ d =>
      if hashable key then
        match lookup key d with
        | Some v => Return v
        | None => Raise (KeyError key)
        end
      else Raise (TypeError (Unhashable key))
  | VList xs =>
      match key with
      | VInt i => sequence_index xs i
      | _ => Raise (TypeError (BadIndex key))
      end
  | VStr s =>
      match key with
      | VInt i => sequence_index (chars s) i
      | _ => Raise (TypeError (BadIndex key))
      end
  | _ => Raise (TypeError (NotSubscriptable obj))
  end.

(** [obj.get(key)] *)
Definition get (obj key : pyval) : outcome pyval :=
  match obj with
  | VDict _ d =>
      if hashable key then
        match lookup key d with
        | Some v => Return v
        | None => Return VNone
        end
      else Raise (TypeError (Unhashable key))
  | _ => Raise (AttributeError "get")
  end.

Fixpoint is_substring (p s : string) : bool :=
  String.prefix p s ||
  match s with
  | EmptyString => false
  | String _ s' => is_substring p s'
  end.

(** [x in container] *)
Definition contains (container x : pyval) : outcome bool :=
  match container with
  | VDict _ d =>
      if hashable x then Return (mem_with py_eq x d)
      else Raise (TypeError (Unhashable x))
  | VList xs => Return (existsb (fun item => py_eq item x) xs)
  | VStr s =>
      match x with
      | VStr p => Return (is_substring p s)
      | _ => Raise (TypeError (NotAString x))
      end
  | _ => Raise (TypeError (NotIterable container))
  end.

(** [d[k] = v] on an item list: an existing key keeps its place, a new one
    goes to the end. *)
Fixpoint set_item (d : items) (k v : pyval) : items :=
  match d with
  | [] => [(k, v)]
  | (k', v') :: rest =>
      if py_eq k k' then (k', v) :: rest else (k', v') :: set_item rest k v
  end.

Definition setitem (d : items) (k v : pyval) : outcome items :=
  if hashable k then Return (set_item d k v)
  else Raise (TypeError (Unhashable k)).

(** [for x in v] *)
Definition py_iter (v : pyval) : outcome (list pyval) :=
  match v with
  | VList xs => Return xs
  | VStr s => Return (chars s)
  | VDict _ d => Return (map fst d)
  | _ => Raise (TypeError (NotIterable v))
  end.

(** [int(s)] for a string: optional surrounding ASCII white space, an
    optional sign and a non-empty run of ASCII decimal digits.  (Digit
    separators and non-ASCII digits, which Python 3 also accepts, are left
    out.) *)
Definition is_space (c : ascii) : bool :=
  let n := nat_of_ascii c in
  (Nat.eqb n 32) || ((9 <=? n)%nat && (n <=? 13)%nat).

Fixpoint lstrip (s : string) : string :=
  match s with
  | EmptyString => EmptyString
  | String c s' => if is_space c then lstrip s' else s
  end.

Fixpoint rstrip (s : string) : string :=
  match s with
  | EmptyString => EmptyString
  | String c s' =>
      match rstrip s' with
      | EmptyString => if is_space c then EmptyString else String c EmptyString
      | r => String c r
      end
  end.

Definition digit_of (c : ascii) : option Z :=
  let n := nat_of_ascii c in
  if (48 <=? n)%nat && (n <=? 57)%nat then Some (Z.of_nat (n - 48)) else None.

Fixpoint digits (s : string) (acc : Z) : option Z :=
  match s with
  | EmptyString => Some acc
  | String c s' =>
      match digit_of c with
      | Some d => digits s' (10 * acc + d)
      | None => None
      end
  end.

Definition unsigned (s : string) : option Z :=
  match s with
  | EmptyString => None
  | _ => digits s 0
  end.

Definition int_of_string (s : string) : option Z :=
  match rstrip (lstrip s) with
  | String "-" r => option_map Z.opp (unsigned r)
  | String "+" r => unsigned r
  | t => unsigned t
  end.

(** [int(v)] *)
Definition py_int (v : pyval) : outcome Z :=
  match v with
  | VInt z => Return z
  | VStr s =>
      match int_of_string s with
      | Some z => Return z
      | None => Raise (ValueError (NotAnInteger v))
      end
  | _ => Raise (TypeError (NotAnInteger v))
  end.

(** [a, b = v] *)
Definition unpack2 (v : pyval) : outcome (pyval * pyval) :=
  xs <- py_iter v ;;
  match xs with
  | [a; b] => Return (a, b)
  | _ => Raise (ValueError (WrongUnpackLength (length xs)))
  end.

(** ** The constructor *)

(** [set(d.keys())], and [a.difference(b)] on such sets *)
Definition keys (d : items) : list pyval := map fst d.

Definition difference (a b : list pyval) : list pyval :=
  filter (fun k => negb (existsb (py_eq k) b)) a.

Definition odict_items (v : pyval) : items :=
  match v with
  | VDict _ d => d
  | _ => []
  end.

Definition __init__
  (name description model components parameters parameters_meta_info
   external_version tags language dependencies
   binary_url binary_format binary_md5 uploader upload_date flow_id version
   : pyval) : outcome OpenMLFlow :=
  _ <- for_fold [(components, "components");
                 (parameters, "parameters");
                 (parameters_meta_info, "parameters_meta_info")] tt
         (fun _ '(variable, variable_name) =>
            if negb (isinstance_OrderedDict variable)
            then Raise (TypeError (MustBeOrderedDict variable_name variable))
            else Return tt) ;;
  let keys_parameters := keys (odict_items parameters) in
  let keys_parameters_meta_info := keys (odict_items parameters_meta_info) in
  if (0 <? length (difference keys_parameters keys_parameters_meta_info))%nat
  then Raise (ValueError (OnlyInParameters
                (difference keys_parameters keys_parameters_meta_info)))
  else
  if (0 <? length (difference keys_parameters_meta_info keys_parameters))%nat
  then Raise (ValueError (OnlyInParametersMetaInfo
                (difference keys_parameters_meta_info keys_parameters)))
  else
  Return (mkFlow name description model
            (odict_items components) (odict_items parameters)
            (odict_items parameters_meta_info)
            external_version
            (if negb (is_None tags) then tags else VList [])
            language dependencies binary_url binary_format binary_md5
            uploader upload_date flow_id version).

(** *** Calling the class with the entries of [arguments] as keywords *)

Definition kwargs := list (string * pyval).

Fixpoint set_arg (arguments : kwargs) (key : string) (v : pyval) : kwargs :=
  match arguments with
  | [] => [(key, v)]
  | (k', v') :: rest =>
      if String.eqb key k' then (k', v) :: rest
      else (k', v') :: set_arg rest key v
  end.

Fixpoint get_arg (arguments : kwargs) (key : string) : option pyval :=
  match arguments with
  | [] => None
  | (k', v') :: rest => if String.eqb key k' then Some v' else get_arg rest key
  end.

(** The parameters of [__init__] after [self], each with its default if it
    has one. *)
Definition init_signature : list (string * option pyval) :=
  [("name", None); ("description", None); ("model", None);
   ("components", None); ("parameters", None);
   ("parameters_meta_info", None); ("external_version", None);
   ("tags", None); ("language", None); ("dependencies", None);
   ("binary_url", Some VNone); ("binary_format", Some VNone);
   ("binary_md5", Some VNone); ("uploader", Some VNone);
   ("upload_date", Some VNone); ("flow_id", Some VNone);
   ("version", Some VNone)].

Definition unexpected (signature : list (string * option pyval))
  (arguments : kwargs) : option string :=
  option_map fst
    (find (fun kv => negb (existsb (String.eqb (fst kv)) (map fst signature)))
          arguments).

Definition missing (signature : list (string * option pyval))
  (arguments : kwargs) : list string :=
  map fst
    (filter (fun p => match snd p, get_arg arguments (fst p) with
                      | None, None => true
                      | _, _ => false
                      end) signature).

(** The value a parameter is bound to once the call is known to be
    well-formed. *)
Definition bound (signature : list (string * option pyval))
  (arguments : kwargs) (key : string) : pyval :=
  match get_arg arguments key with
  | Some v => v
  | None =>
      match find (fun p => String.eqb key (fst p)) signature with
      | Some (_, Some default) => default
      | _ => VNone
      end
  end.

(** The call of [OpenMLFlow] on unpacked [arguments]: Python rejects an unknown keyword, then a
    parameter without default that received no value, and only then runs
    the body of [__init__]. *)
Definition OpenMLFlow_call (arguments : kwargs) : outcome OpenMLFlow :=
  match unexpected init_signature arguments with
  | Some k => Raise (TypeError (UnexpectedKeyword k))
  | None =>
      match missing init_signature arguments with
      | (_ :: _) as names => Raise (TypeError (MissingArguments names))
      | [] =>
          let arg := bound init_signature arguments in
          __init__ (arg "name") (arg "description") (arg "model")
            (arg "components") (arg "parameters")
            (arg "parameters_meta_info") (arg "external_version")
            (arg "tags") (arg "language") (arg "dependencies")
            (arg "binary_url") (arg "binary_format") (arg "binary_md5")
            (arg "uploader") (arg "upload_date") (arg "flow_id")
            (arg "version")
      end
  end.

(** ** Serialization: [_to_dict] *)

(** [if v is not None: d[k] = v] *)
Definition set_item_if_not_None (d : items) (k v : pyval) : items :=
  if negb (is_None v) then set_item d k v else d.

(** The body of the loop over [self.parameters] (lines 176-198): the
    [param_dict] of one parameter, or the error of its check. *)
Definition param_dict_of (self : OpenMLFlow) (key : pyval) : outcome items :=
  let parameters_meta_info := VDict true (Attr.parameters_meta_info self) in
  let parameters := VDict true (Attr.parameters self) in
  let param_dict := [] in
  let param_dict := set_item param_dict (VStr "oml:name") key in
  meta <- getitem parameters_meta_info key ;;
  data_type <- getitem meta (VStr "data_type") ;;
  param_dict <-
    (if negb (is_None data_type)
     then v <- get meta (VStr "data_type") ;;
          Return (set_item param_dict (VStr "oml:data_type") v)
     else Return param_dict) ;;
  default_value <- getitem parameters key ;;
  let param_dict := set_item param_dict (VStr "oml:default_value") default_value in
  meta <- getitem parameters_meta_info key ;;
  description <- getitem meta (VStr "description") ;;
  param_dict <-
    (if negb (is_None description)
     then v <- get meta (VStr "description") ;;
          Return (set_item param_dict (VStr "oml:description") v)
     else Return param_dict) ;;
  _ <- for_fold param_dict tt
         (fun _ '(key_, value) =>
            if negb (is_None key_) && negb (isinstance_str key_)
            then Raise (ValueError (ParameterNameNotSerializable key_))
            else
            if negb (is_None value) && negb (isinstance_str value)
            then Raise (ValueError (ParameterValueNotSerializable value))
            else Return tt) ;;
  Return param_dict.

(** Lines 174-198: [flow_parameters], one [param_dict] per key of
    [self.parameters], in the order of iteration. *)
Definition flow_parameters_of (self : OpenMLFlow) : outcome (list pyval) :=
  for_fold (keys (Attr.parameters self)) []
    (fun flow_parameters key =>
       param_dict <- param_dict_of self key ;;
       Return (flow_parameters ++ [VDict true param_dict])%list).

(** The loop over [self.components] (lines 203-217), over a function
    [to_dict] for the nested call.  The loop runs over the items: for a
    mapping, [self.components[key]] is the value stored with [key]
    (lemma [getitem_of_item]). *)
Section ComponentLoop.
Variable to_dict : OpenMLFlow -> outcome pyval.

Fixpoint components_of (cs : items) (components : list pyval)
  : outcome (list pyval) :=
  match cs with
  | [] => Return components
  | (key, child) :: rest =>
      let component_dict := [] in
      let component_dict := set_item component_dict (VStr "oml:identifier") key in
      child_dict <-
        match child with
        | VFlow c => to_dict c
        | _ => Raise (AttributeError "_to_dict")
        end ;;
      child_flow <- getitem child_dict (VStr "oml:flow") ;;
      let component_dict := set_item component_dict (VStr "oml:flow") child_flow in
      _ <- for_fold (keys component_dict) tt
             (fun _ key_ =>
                if negb (is_None key_) && negb (isinstance_str key_)
                then Raise (ValueError (ParameterNameNotSerializable key_))
                else Return tt) ;;
      components_of rest (components ++ [VDict true component_dict])%list
  end.
End ComponentLoop.

Fixpoint _to_dict (self : OpenMLFlow) : outcome pyval :=
  let flow := [] in
  let flow := set_item flow (VStr "@xmlns:oml") (VStr "http://openml.org/openml") in
  let flow := set_item_if_not_None flow (VStr "oml:id") (Attr.flow_id self) in
  let flow := set_item_if_not_None flow (VStr "oml:uploader") (Attr.uploader self) in
  let flow := set_item flow (VStr "oml:name") (_get_name self) in
  let flow := set_item_if_not_None flow (VStr "oml:version") (Attr.version self) in
  let flow := set_item flow (VStr "oml:external_version") (Attr.external_version self) in
  let flow := set_item flow (VStr "oml:description") (Attr.description self) in
  let flow := set_item_if_not_None flow (VStr "oml:upload_date") (Attr.upload_date self) in
  let flow := set_item_if_not_None flow (VStr "oml:language") (Attr.language self) in
  let flow := set_item_if_not_None flow (VStr "oml:dependencies") (Attr.dependencies self) in
  flow_parameters <- flow_parameters_of self ;;
  let flow := set_item flow (VStr "oml:parameter") (VList flow_parameters) in
  components <- components_of _to_dict (Attr.components self) [] ;;
  let flow := set_item flow (VStr "oml:component") (VList components) in
  let flow := set_item flow (VStr "oml:tag") (Attr.tags self) in
  let flow := set_item_if_not_None flow (VStr "oml:binary_url") (Attr.binary_url self) in
  let flow := set_item_if_not_None flow (VStr "oml:binary_format") (Attr.binary_format self) in
  let flow := set_item_if_not_None flow (VStr "oml:binary_md5") (Attr.binary_md5 self) in
  Return (VDict true [(VStr "oml:flow", VDict true flow)]).

(** ** Deserialization: [_from_xml] *)

(** The nesting depth of a document: how many containers enclose its
    innermost value.  A call of [_from_xml] recurses into components of the
    document it is given, so its recursion is no deeper than this. *)
Fixpoint nesting (v : pyval) : nat :=
  match v with
  | VList xs => S (fold_right (fun x m => Nat.max (nesting x) m) O xs)
  | VDict _ d =>
      S (fold_right
           (fun kv m => Nat.max (Nat.max (nesting (fst kv)) (nesting (snd kv))) m)
           O d)
  | _ => O
  end.

(** Lines 246-317 of [_from_xml]: the keyword arguments read from the
    document.  [nested] stands for the call [OpenMLFlow._from_xml(component)]
    of line 303. *)
Definition from_xml_arguments (nested : pyval -> outcome OpenMLFlow)
  (xml_dict : pyval) : outcome kwargs :=
  let arguments : kwargs := [] in
  dic <- getitem xml_dict (VStr "oml:flow") ;;
  (* Mandatory parts in the xml file *)
  arguments <-
    for_fold ["name"; "external_version"] arguments
      (fun arguments key =>
         v <- getitem dic (VStr ("oml:" ++ key)) ;;
         Return (set_arg arguments key v)) ;;
  (* non-mandatory parts in the xml file *)
  arguments <-
    for_fold ["uploader"; "description"; "upload_date"; "language";
              "dependencies"; "version"; "binary_url"; "binary_format";
              "binary_md5"] arguments
      (fun arguments key =>
         v <- get dic (VStr ("oml:" ++ key)) ;;
         Return (set_arg arguments key v)) ;;
  has_id <- contains dic (VStr "oml:id") ;;
  flow_id <-
    (if has_id
     then raw <- getitem dic (VStr "oml:id") ;;
          z <- py_int raw ;;
          Return (VInt z)
     else Return VNone) ;;
  let arguments := set_arg arguments "flow_id" flow_id in
  (* parameters *)
  let parameters : items := [] in
  let parameters_meta_info : items := [] in
  has_parameter <- contains dic (VStr "oml:parameter") ;;
  '(parameters, parameters_meta_info) <-
    (if has_parameter
     then
       p <- getitem dic (VStr "oml:parameter") ;;
       oml_parameters <-
         (if isinstance_dict p
          then p <- getitem dic (VStr "oml:parameter") ;; Return (VList [p])
          else getitem dic (VStr "oml:parameter")) ;;
       each <- py_iter oml_parameters ;;
       for_fold each (parameters, parameters_meta_info)
         (fun '(parameters, parameters_meta_info) oml_parameter =>
            parameter_name <- getitem oml_parameter (VStr "oml:name") ;;
            default_value <- getitem oml_parameter (VStr "oml:default_value") ;;
            parameters <- setitem parameters parameter_name default_value ;;
            let meta_info := [] in
            d <- get oml_parameter (VStr "oml:description") ;;
            let meta_info := set_item meta_info (VStr "description") d in
            t <- get oml_parameter (VStr "oml:data_type") ;;
            let meta_info := set_item meta_info (VStr "data_type") t in
            parameters_meta_info <-
              setitem parameters_meta_info parameter_name (VDict true meta_info) ;;
            Return (parameters, parameters_meta_info))
     else Return (parameters, parameters_meta_info)) ;;
  let arguments := set_arg arguments "parameters" (VDict true parameters) in
  let arguments :=
    set_arg arguments "parameters_meta_info" (VDict true parameters_meta_info) in
  (* components *)
  let components : items := [] in
  has_component <- contains dic (VStr "oml:component") ;;
  components <-
    (if has_component
     then
       c <- getitem dic (VStr "oml:component") ;;
       oml_components <-
         (if isinstance_dict c
          then c <- getitem dic (VStr "oml:component") ;; Return (VList [c])
          else getitem dic (VStr "oml:component")) ;;
       each <- py_iter oml_components ;;
       for_fold each components
         (fun components component =>
            flow <- nested component ;;
            identifier <- getitem component (VStr "oml:identifier") ;;
            setitem components identifier (VFlow flow))
     else Return components) ;;
  let arguments := set_arg arguments "components" (VDict true components) in
  (* tags *)
  let tags : list pyval := [] in
  has_tag <- contains dic (VStr "oml:tag") ;;
  tag_is_set <-
    (if has_tag
     then t <- getitem dic (VStr "oml:tag") ;; Return (negb (is_None t))
     else Return false) ;;
  tags <-
    (if tag_is_set
     then
       t <- getitem dic (VStr "oml:tag") ;;
       oml_tags <-
         (if isinstance_dict t
          then t <- getitem dic (VStr "oml:tag") ;; Return (VList [t])
          else getitem dic (VStr "oml:tag")) ;;
       each <- py_iter oml_tags ;;
       for_fold each tags (fun tags tag => Return (tags ++ [tag])%list)
     else Return tags) ;;
  let arguments := set_arg arguments "tags" (VList tags) in
  Return arguments.

(** [from_xml_rec limit cls xml_dict] is the classmethod [_from_xml] called
    on class [cls] with [limit] stack frames left; it ends in line 319, the
    call of [cls] on the unpacked [arguments].  The nested calls are made on
    [OpenMLFlow] itself, as in the source.  Python raises [RecursionError]
    when the frames run out. *)
Fixpoint from_xml_rec (limit : nat) (cls : kwargs -> outcome OpenMLFlow)
  (xml_dict : pyval) {struct limit} : outcome OpenMLFlow :=
  match limit with
  | O => Raise RecursionError
  | S limit' =>
      arguments <-
        from_xml_arguments (from_xml_rec limit' OpenMLFlow_call) xml_dict ;;
      cls arguments
  end.

(** [cls._from_xml(xml_dict)], with frames enough for the whole document
    (lemma [from_xml_rec_enough]: more frames change nothing). *)
Definition _from_xml_of (cls : kwargs -> outcome OpenMLFlow) (xml_dict : pyval)
  : outcome OpenMLFlow :=
  from_xml_rec (S (nesting xml_dict)) cls xml_dict.

(** [OpenMLFlow._from_xml(xml_dict)] *)
Definition _from_xml (xml_dict : pyval) : outcome OpenMLFlow :=
  _from_xml_of OpenMLFlow_call xml_dict.

(** ** Registry operations *)

(** One call of the transport collaborator: [_perform_api_call(path)] or
    [_perform_api_call(path, file_elements=...)]. *)
Record api_call : Type := mk_api_call {
  path : string;
  file_elements : option (list (string * string))
}.

(** Code that reaches the registry: it sees the calls made so far, and
    leaves the calls it made, whether it returns or raises. *)
Definition registry (A : Type) : Type :=
  list api_call -> outcome A * list api_call.

Definition ret {A} (a : A) : registry A := fun log => (Return a, log).

Definition raise {A} (e : exn) : registry A := fun log => (Raise e, log).

Definition lift {A} (m : outcome A) : registry A := fun log => (m, log).

Definition bindR {A B} (m : registry A) (k : A -> registry B) : registry B :=
  fun log =>
    match m log with
    | (Return a, log') => k a log'
    | (Raise e, log') => (Raise e, log')
    end.

Notation "x <~ m ;; k" := (bindR m (fun x => k))
  (at level 61, m at next level, right associativity) : py_scope.
Notation "' p <~ m ;; k" := (bindR m (fun x => let p := x in k))
  (at level 61, p pattern, m at next level, right associativity) : py_scope.

Definition newline : ascii := ascii_of_nat 10.

Fixpoint after_first_newline (s : string) : option string :=
  match s with
  | EmptyString => None
  | String c s' => if Ascii.eqb c newline then Some s' else after_first_newline s'
  end.

(** [s.split('\n', 1)[-1]] *)
Definition split_newline_last (s : string) : string :=
  match after_first_newline s with
  | Some rest => rest
  | None => s
  end.

Definition str_of (v : pyval) : string :=
  match v with
  | VStr s => s
  | _ => EmptyString
  end.

(** [type(v) is str and len(v) > 0] *)
Definition is_nonempty_str (v : pyval) : bool :=
  match v with
  | VStr s => (0 <? String.length s)%nat
  | _ => false
  end.

Section Registry.
(** The collaborators: the transport (which may answer differently as
    calls accumulate), the two functions of [xmltodict], and
    [sklearn.__version__]. *)
Variable _perform_api_call : list api_call -> api_call -> outcome (Z * string).
Variable xmltodict_parse : string -> outcome pyval.
Variable xmltodict_unparse : pyval -> outcome string.
Variable sklearn_version : string.

Definition perform (c : api_call) : registry (Z * string) :=
  fun log => (_perform_api_call log c, (log ++ [c])%list).

(** [xmltodict.parse(v)] on a value: the library wants text. *)
Definition parse (v : pyval) : outcome pyval :=
  match v with
  | VStr s => xmltodict_parse s
  | _ => Raise (TypeError (NotAString v))
  end.

Definition _to_xml (self : OpenMLFlow) : outcome string :=
  flow_dict <- _to_dict self ;;
  flow_xml <- xmltodict_unparse flow_dict ;;
  let flow_xml := split_newline_last flow_xml in
  Return flow_xml.

Definition publish (self : OpenMLFlow) : registry OpenMLFlow :=
  xml_description <~ lift (_to_xml self) ;;
  let file_elements := [("description", xml_description)] in
  '(return_code, return_value) <~
     perform (mk_api_call "flow/" (Some file_elements)) ;;
  flow_id <~ lift (d <- xmltodict_parse return_value ;;
                   u <- getitem d (VStr "oml:upload_flow") ;;
                   i <- getitem u (VStr "oml:id") ;;
                   py_int i) ;;
  let self := Attr.set_flow_id self (VInt flow_id) in
  ret self.

Definition _check_flow_exists (name version : pyval)
  : registry (Z * string * pyval) :=
  if negb (is_nonempty_str name)
  then raise (ValueError (ShouldBeNonEmptyString "name"))
  else
  if negb (is_nonempty_str version)
  then raise (ValueError (ShouldBeNonEmptyString "version"))
  else
  '(return_code, xml_response) <~
     perform (mk_api_call
                ("flow/exists/" ++ str_of name ++ "/" ++ str_of version) None) ;;
  if negb (return_code =? 200)
  then raise (ValueError (ApiCallFailed xml_response))
  else
  flow_id <~ lift (xml_dict <- xmltodict_parse xml_response ;;
                   e <- getitem xml_dict (VStr "oml:flow_exists") ;;
                   getitem e (VStr "oml:id")) ;;
  ret (return_code, xml_response, flow_id).

Definition _ensure_flow_exists (self : OpenMLFlow) : registry Z :=
  let flow_version := "sklearn_" ++ sklearn_version in
  '(_, _, flow_id) <~ _check_flow_exists (_get_name self) (VStr flow_version) ;;
  n <~ lift (py_int flow_id) ;;
  if n =? -1
  then
    published <~ publish self ;;
    '(return_code, response_xml) <~ lift (unpack2 (VFlow published)) ;;
    response_dict <~ lift (parse response_xml) ;;
    flow_id <~ lift (u <- getitem response_dict (VStr "oml:upload_flow") ;;
                     getitem u (VStr "oml:id")) ;;
    n <~ lift (py_int flow_id) ;;
    ret n
  else
    n <~ lift (py_int flow_id) ;;
    ret n.
End Registry.

(** * Examples *)

Definition meta_info (data_type description : pyval) : pyval :=
  VDict false [(VStr "data_type", data_type); (VStr "description", description)].

(** A flow without components, with one parameter. *)
Definition tree_flow : OpenMLFlow :=
  mkFlow (VStr "tree") (VStr "a tree") (VObj 2) []
    [(VStr "depth", VStr "3")]
    [(VStr "depth", meta_info (VStr "int") VNone)]
    (VStr "sklearn_0.18") (VList []) (VStr "English") (VStr "sklearn")
    VNone VNone VNone VNone VNone VNone VNone.

(** A flow with the component [C] and the parameters [b], [a], [c],
    inserted in this order. *)
Definition boost_flow : OpenMLFlow :=
  mkFlow (VStr "boost") (VStr "boosting") (VObj 1)
    [(VStr "C", VFlow tree_flow)]
    [(VStr "b", VStr "1"); (VStr "a", VStr "2"); (VStr "c", VStr "3")]
    [(VStr "b", meta_info (VStr "int") (VStr "bee"));
     (VStr "a", meta_info VNone VNone);
     (VStr "c", meta_info VNone VNone)]
    (VStr "sklearn_0.18") (VList []) (VStr "English") (VStr "sklearn")
    VNone VNone VNone VNone VNone VNone VNone.

(** What [_to_dict] makes of [tree_flow]. *)
Definition tree_document : pyval :=
  VDict true
    [(VStr "oml:flow",
      VDict true
        [(VStr "@xmlns:oml", VStr "http://openml.org/openml");
         (VStr "oml:name", VStr "tree");
         (VStr "oml:external_version", VStr "sklearn_0.18");
         (VStr "oml:description", VStr "a tree");
         (VStr "oml:language", VStr "English");
         (VStr "oml:dependencies", VStr "sklearn");
         (VStr "oml:parameter",
          VList [VDict true [(VStr "oml:name", VStr "depth");
                             (VStr "oml:data_type", VStr "int");
                             (VStr "oml:default_value", VStr "3")]]);
         (VStr "oml:component", VList []);
         (VStr "oml:tag", VList [])])].

(** Documents as [xmltodict] hands them over: one [oml:parameter] element
    is a mapping, two are a list of mappings. *)
Definition parameter_element (name value : string) : pyval :=
  VDict true [(VStr "oml:name", VStr name); (VStr "oml:default_value", VStr value)].

Definition document_with (fields : items) : pyval :=
  VDict true
    [(VStr "oml:flow",
      VDict true
        ((VStr "oml:name", VStr "tree")
           :: (VStr "oml:external_version", VStr "sklearn_0.18") :: fields))].

Definition one_parameter_document : pyval :=
  document_with [(VStr "oml:parameter", parameter_element "depth" "3")].

Definition two_parameter_document : pyval :=
  document_with
    [(VStr "oml:parameter",
      VList [parameter_element "depth" "3"; parameter_element "leaves" "8"])].

(** Test doubles for the collaborators: the existence check answers with
    the id [existing], an upload with the id [99]; the parser reads these
    two answers. *)
Definition stub_transport (existing : string)
  : list api_call -> api_call -> outcome (Z * string) :=
  fun _ c =>
    if String.prefix "flow/exists/" (path c)
    then Return (200, "exists " ++ existing)
    else Return (200, "upload 99").

Definition stub_parse (body : string) : outcome pyval :=
  let id := VStr (substring 7 (String.length body - 7) body) in
  if String.prefix "exists " body
  then Return (VDict true [(VStr "oml:flow_exists", VDict true [(VStr "oml:id", id)])])
  else if String.prefix "upload " body
  then Return (VDict true [(VStr "oml:upload_flow", VDict true [(VStr "oml:id", id)])])
  else Raise (CollaboratorError "ExpatError").

Definition stub_unparse (d : pyval) : outcome string :=
  Return ("<?xml?>" ++ String newline "<oml:flow/>").

(** A value that is a string with at least one character. *)
Definition nonempty_string (v : pyval) : Prop :=
  exists s, v = VStr s /\ s <> EmptyString.

(** The two calls the registry operations make for a flow named [boost]
    when [sklearn.__version__] is [0.18]. *)
Definition exists_call : api_call :=
  mk_api_call "flow/exists/boost/sklearn_0.18" None.

Definition upload_call : api_call :=
  mk_api_call "flow/" (Some [("description", "<oml:flow/>")]).

(** ** Mappings and well-formed values *)

Definition values (d : items) : list pyval := map snd d.

(** No two keys of the list are equal. *)
Fixpoint distinct (ks : list pyval) : bool :=
  match ks with
  | [] => true
  | k :: rest => negb (existsb (py_eq k) rest) && distinct rest
  end.

(** An item list that is the content of a Python mapping: the keys are
    hashable and no key occurs twice. *)
Definition wf_items (d : items) : bool :=
  forallb hashable (keys d) && distinct (keys d).

(** [wf v]: every [dict] inside [v] is a mapping.  For a flow this is asked
    of the attributes [__eq__] looks at; [model] and the fields the server
    sets are free. *)
Fixpoint wf (v : pyval) : bool :=
  match v with
  | VList xs => forallb wf xs
  | VDict _ d => wf_items d && forallb (fun kv => wf (fst kv) && wf (snd kv)) d
  | VFlow f => wf_flow f
  | _ => true
  end
with wf_flow (f : OpenMLFlow) : bool :=
  wf (Attr.name f) && wf (Attr.description f)
  && wf (Attr.external_version f) && wf (Attr.tags f)
  && wf (Attr.language f) && wf (Attr.dependencies f)
  && (wf_items (Attr.components f)
      && forallb (fun kv => wf (fst kv) && wf (snd kv)) (Attr.components f))
  && (wf_items (Attr.parameters f)
      && forallb (fun kv => wf (fst kv) && wf (snd kv)) (Attr.parameters f))
  && (wf_items (Attr.parameters_meta_info f)
      && forallb (fun kv => wf (fst kv) && wf (snd kv)) (Attr.parameters_meta_info f)).

(** Induction over values and flows together. *)
Section ValueInduction.
Variable P : pyval -> Prop.
Variable Q : OpenMLFlow -> Prop.
Hypothesis HNone : P VNone.
Hypothesis HInt : forall z, P (VInt z).
Hypothesis HStr : forall s, P (VStr s).
Hypothesis HList : forall xs, Forall P xs -> P (VList xs).
Hypothesis HDict : forall o d,
  Forall (fun kv => P (fst kv) /\ P (snd kv)) d -> P (VDict o d).
Hypothesis HObj : forall id, P (VObj id).
Hypothesis HFlow : forall f, Q f -> P (VFlow f).
Hypothesis HmkFlow :
  forall name description model components parameters parameters_meta_info
         external_version tags language dependencies
         binary_url binary_format binary_md5 uploader upload_date flow_id version,
    P name -> P description -> P external_version -> P tags -> P language ->
    P dependencies ->
    Forall (fun kv => P (fst kv) /\ P (snd kv)) components ->
    Forall (fun kv => P (fst kv) /\ P (snd kv)) parameters ->
    Forall (fun kv => P (fst kv) /\ P (snd kv)) parameters_meta_info ->
    Q (mkFlow name description model components parameters parameters_meta_info
         external_version tags language dependencies
         binary_url binary_format binary_md5 uploader upload_date flow_id version).

Fixpoint pyval_flow_ind (v : pyval) : P v :=
  match v with
  | VNone => HNone
  | VInt z => HInt z
  | VStr s => HStr s
  | VList xs =>
      HList xs
        ((fix each (xs : list pyval) : Forall P xs :=
            match xs with
            | [] => Forall_nil _
            | x :: rest => Forall_cons x (pyval_flow_ind x) (each rest)
            end) xs)
  | VDict o d =>
      HDict o d
        ((fix each (d : items) : Forall (fun kv => P (fst kv) /\ P (snd kv)) d :=
            match d with
            | [] => Forall_nil _
            | (k, x) :: rest =>
                Forall_cons (k, x) (conj (pyval_flow_ind k) (pyval_flow_ind x))
                  (each rest)
            end) d)
  | VObj id => HObj id
  | VFlow f => HFlow f (flow_pyval_ind f)
  end
with flow_pyval_ind (f : OpenMLFlow) : Q f :=
  match f with
  | mkFlow name description model components parameters parameters_meta_info
           external_version tags language dependencies
           binary_url binary_format binary_md5 uploader upload_date flow_id version =>
      let each :=
        fix each (d : items) : Forall (fun kv => P (fst kv) /\ P (snd kv)) d :=
          match d with
          | [] => Forall_nil _
          | (k, x) :: rest =>
              Forall_cons (k, x) (conj (pyval_flow_ind k) (pyval_flow_ind x))
                (each rest)
          end in
      HmkFlow name description model components parameters parameters_meta_info
        external_version tags language dependencies
        binary_url binary_format binary_md5 uploader upload_date flow_id version
        (pyval_flow_ind name) (pyval_flow_ind description)
        (pyval_flow_ind external_version) (pyval_flow_ind tags)
        (pyval_flow_ind language) (pyval_flow_ind dependencies)
        (each components) (each parameters) (each parameters_meta_info)
  end.
End ValueInduction.

(** ** Notions used in the statements *)

(** [k] is a key of [a] and not of [b]. *)
Definition only_in (a b : items) (k : pyval) : Prop :=
  In k (keys a) /\ ~ In k (keys b).

(** [f] and [g] agree on every attribute [__eq__] looks at; they may differ
    in [model], [flow_id], [uploader], [version], [upload_date] and the three
    binary fields. *)
Definition same_compared_attributes (f g : OpenMLFlow) : Prop :=
  Attr.name f = Attr.name g
  /\ Attr.description f = Attr.description g
  /\ Attr.components f = Attr.components g
  /\ Attr.parameters f = Attr.parameters g
  /\ Attr.parameters_meta_info f = Attr.parameters_meta_info g
  /\ Attr.external_version f = Attr.external_version g
  /\ Attr.tags f = Attr.tags g
  /\ Attr.language f = Attr.language g
  /\ Attr.dependencies f = Attr.dependencies g.

(** The instance dictionary [self.__dict__], in the order [__init__] assigns
    the attributes, and the deletions [__eq__] makes in its copy. *)
Definition __dict__ (self : OpenMLFlow) : items :=
  [(VStr "name", Attr.name self);
   (VStr "description", Attr.description self);
   (VStr "model", Attr.model self);
   (VStr "components", VDict true (Attr.components self));
   (VStr "parameters", VDict true (Attr.parameters self));
   (VStr "parameters_meta_info", VDict true (Attr.parameters_meta_info self));
   (VStr "external_version", Attr.external_version self);
   (VStr "uploader", Attr.uploader self);
   (VStr "tags", Attr.tags self);
   (VStr "binary_url", Attr.binary_url self);
   (VStr "binary_format", Attr.binary_format self);
   (VStr "binary_md5", Attr.binary_md5 self);
   (VStr "version", Attr.version self);
   (VStr "upload_date", Attr.upload_date self);
   (VStr "language", Attr.language self);
   (VStr "dependencies", Attr.dependencies self);
   (VStr "flow_id", Attr.flow_id self)].

(** [del d[k]] for a key that is there, and [if k in d: del d[k]] *)
Definition del_item (d : items) (k : pyval) : items :=
  filter (fun kv => negb (py_eq k (fst kv))) d.

Definition generated_by_the_server : list string :=
  ["name"; "flow_id"; "uploader"; "version"; "upload_date"; "source_url";
   "binary_url"; "source_format"; "binary_format"; "source_md5"; "binary_md5"].

Definition compared_dict (self : OpenMLFlow) : items :=
  let this_dict := __dict__ self in
  let this_dict := del_item this_dict (VStr "parameters") in
  let this_dict := del_item this_dict (VStr "components") in
  let this_dict := del_item this_dict (VStr "model") in
  fold_left (fun d field => del_item d (VStr field)) generated_by_the_server this_dict.

(** A value the check of [_to_dict] lets through: [None] or a string. *)
Definition passes_check (v : pyval) : bool :=
  is_None v || isinstance_str v.

(** Every parameter has a meta-info mapping with the two required entries
    [data_type] and [description]. *)
Definition meta_info_complete (self : OpenMLFlow) : Prop :=
  forall key, In key (keys (Attr.parameters self)) ->
    exists meta data_type description,
      getitem (VDict true (Attr.parameters_meta_info self)) key = Return meta
      /\ getitem meta (VStr "data_type") = Return data_type
      /\ getitem meta (VStr "description") = Return description.

(** The statement that the comparison of [parameters] does not depend on
    the order of insertion: same key sets and equal values under every key
    are enough. *)
Definition parameters_compared_by_key : Prop :=
  forall f g : OpenMLFlow,
    equal f g = true -> equal_name f g = true -> components_equal f g = true ->
    (forall k, In k (keys (Attr.parameters f)) <-> In k (keys (Attr.parameters g))) ->
    (forall k v w,
        lookup k (Attr.parameters f) = Some v ->
        lookup k (Attr.parameters g) = Some w -> py_eq v w = true) ->
    parameters_equal f g = true.

(** Two flows with the same two parameters, inserted in opposite orders. *)
Definition ab_flow : OpenMLFlow :=
  mkFlow (VStr "boost") (VStr "boosting") (VObj 1) []
    [(VStr "a", VStr "1"); (VStr "b", VStr "2")]
    [(VStr "a", meta_info VNone VNone); (VStr "b", meta_info VNone VNone)]
    (VStr "sklearn_0.18") (VList []) (VStr "English") (VStr "sklearn")
    VNone VNone VNone VNone VNone VNone VNone.

Definition ba_flow : OpenMLFlow :=
  mkFlow (VStr "boost") (VStr "boosting") (VObj 1) []
    [(VStr "b", VStr "2"); (VStr "a", VStr "1")]
    [(VStr "a", meta_info VNone VNone); (VStr "b", meta_info VNone VNone)]
    (VStr "sklearn_0.18") (VList []) (VStr "English") (VStr "sklearn")
    VNone VNone VNone VNone VNone VNone VNone.

(** A flow whose parameter [seed] has the value [None], and one whose
    parameter has the integer [3]. *)
Definition none_flow : OpenMLFlow :=
  mkFlow (VStr "tree") (VStr "a tree") (VObj 2) []
    [(VStr "seed", VNone)]
    [(VStr "seed", meta_info (VStr "int") VNone)]
    (VStr "sklearn_0.18") (VList []) (VStr "English") (VStr "sklearn")
    VNone VNone VNone VNone VNone VNone VNone.

Definition int_flow : OpenMLFlow :=
  mkFlow (VStr "tree") (VStr "a tree") (VObj 2) []
    [(VStr "depth", VInt 3)]
    [(VStr "depth", meta_info (VStr "int") VNone)]
    (VStr "sklearn_0.18") (VList []) (VStr "English") (VStr "sklearn")
    VNone VNone VNone VNone VNone VNone VNone.

(** The entry [k: v] of a document when [v] is not [None], and nothing
    otherwise. *)
Definition optional_item (k : string) (v : pyval) : items :=
  if is_None v then [] else [(VStr k, v)].

(** The [param_dict] of the parameter [key] with the value [value] and the
    meta-information [data_type] and [description]. *)
Definition parameter_block (key data_type value description : pyval) : pyval :=
  VDict true
    ((VStr "oml:name", key) :: optional_item "oml:data_type" data_type
       ++ (VStr "oml:default_value", value)
       :: optional_item "oml:description" description).

(** What [_to_dict] needs of the parameter [key] with the value [value]:
    meta-information with the entries [data_type] and [description], and
    nothing but strings and [None] among the four values. *)
Definition parameter_serializable (self : OpenMLFlow) (key value : pyval) : Prop :=
  exists meta data_type description,
    getitem (VDict true (Attr.parameters_meta_info self)) key = Return meta
    /\ getitem meta (VStr "data_type") = Return data_type
    /\ getitem meta (VStr "description") = Return description
    /\ passes_check key = true /\ passes_check data_type = true
    /\ passes_check value = true /\ passes_check description = true.

(** The entry of [oml:component] for the identifier [key] and the
    serialized sub-flow [child]. *)
Definition component_block (key child : pyval) : pyval :=
  VDict true [(VStr "oml:identifier", key); (VStr "oml:flow", child)].

(** The entries of [oml:flow] in the order of the schema, and the document
    around them. *)
Definition flow_entries (self : OpenMLFlow) (flow_parameters components : list pyval)
  : items :=
  (VStr "@xmlns:oml", VStr "http://openml.org/openml")
    :: optional_item "oml:id" (Attr.flow_id self)
    ++ optional_item "oml:uploader" (Attr.uploader self)
    ++ (VStr "oml:name", Attr.name self)
    :: optional_item "oml:version" (Attr.version self)
    ++ (VStr "oml:external_version", Attr.external_version self)
    :: (VStr "oml:description", Attr.description self)
    :: optional_item "oml:upload_date" (Attr.upload_date self)
    ++ optional_item "oml:language" (Attr.language self)
    ++ optional_item "oml:dependencies" (Attr.dependencies self)
    ++ (VStr "oml:parameter", VList flow_parameters)
    :: (VStr "oml:component", VList components)
    :: (VStr "oml:tag", Attr.tags self)
    :: optional_item "oml:binary_url" (Attr.binary_url self)
    ++ optional_item "oml:binary_format" (Attr.binary_format self)
    ++ optional_item "oml:binary_md5" (Attr.binary_md5 self).

Definition flow_document (self : OpenMLFlow) (flow_parameters components : list pyval)
  : pyval :=
  VDict true [(VStr "oml:flow", VDict true (flow_entries self flow_parameters components))].
(** ** What [_from_xml] reads back from a serialized flow *)

(** The entry [field] of the meta-information of the parameter [key], or
    [None] when there is none. *)
Definition meta_field (self : OpenMLFlow) (key : pyval) (field : string) : pyval :=
  match getitem (VDict true (Attr.parameters_meta_info self)) key with
  | Return meta =>
      match getitem meta (VStr field) with
      | Return v => v
      | Raise _ => VNone
      end
  | Raise _ => VNone
  end.

(** The meta-information as lines 286-289 rebuild it: one [OrderedDict] per
    parameter, in the order of the parameters, with [description] before
    [data_type]. *)
Definition read_back_meta_info (self : OpenMLFlow) : items :=
  map (fun kv =>
         (fst kv,
          VDict true [(VStr "description", meta_field self (fst kv) "description");
                      (VStr "data_type", meta_field self (fst kv) "data_type")]))
      (Attr.parameters self).

(** The keyword arguments, in the order lines 246-317 set them. *)
Definition read_back_arguments (self : OpenMLFlow) : kwargs :=
  [("name", Attr.name self);
   ("external_version", Attr.external_version self);
   ("uploader", Attr.uploader self);
   ("description", Attr.description self);
   ("upload_date", Attr.upload_date self);
   ("language", Attr.language self);
   ("dependencies", Attr.dependencies self);
   ("version", Attr.version self);
   ("binary_url", Attr.binary_url self);
   ("binary_format", Attr.binary_format self);
   ("binary_md5", Attr.binary_md5 self);
   ("flow_id", Attr.flow_id self);
   ("parameters", VDict true (Attr.parameters self));
   ("parameters_meta_info", VDict true (read_back_meta_info self));
   ("components", VDict true (Attr.components self));
   ("tags", Attr.tags self)].
(** ** [create_flow_from_model] *)




(** * Properties *)

(** ** The examples, evaluated *)

Example int_of_minus_one : py_int (VStr "-1") = Return (-1).
Proof. reflexivity. Qed.

Example int_of_17 : py_int (VStr " 17 ") = Return 17.
Proof. reflexivity. Qed.

Example int_of_text : py_int (VStr "1x") = Raise (ValueError (NotAnInteger (VStr "1x"))).
Proof. reflexivity. Qed.

Example tree_flow_constructed :
  __init__ (VStr "tree") (VStr "a tree") (VObj 2) (VDict true [])
    (VDict true [(VStr "depth", VStr "3")])
    (VDict true [(VStr "depth", meta_info (VStr "int") VNone)])
    (VStr "sklearn_0.18") VNone (VStr "English") (VStr "sklearn")
    VNone VNone VNone VNone VNone VNone VNone
  = Return tree_flow.
Proof. reflexivity. Qed.

Example boost_flow_constructed :
  __init__ (VStr "boost") (VStr "boosting") (VObj 1)
    (VDict true [(VStr "C", VFlow tree_flow)])
    (VDict true [(VStr "b", VStr "1"); (VStr "a", VStr "2"); (VStr "c", VStr "3")])
    (VDict true [(VStr "b", meta_info (VStr "int") (VStr "bee"));
                 (VStr "a", meta_info VNone VNone);
                 (VStr "c", meta_info VNone VNone)])
    (VStr "sklearn_0.18") VNone (VStr "English") (VStr "sklearn")
    VNone VNone VNone VNone VNone VNone VNone
  = Return boost_flow.
Proof. reflexivity. Qed.

Example tree_flow_serialized : _to_dict tree_flow = Return tree_document.
Proof. reflexivity. Qed.

(** ** Outcomes and loops *)

Lemma bind_Return {A B} (m : outcome A) (k : A -> outcome B) (b : B) :
  bind m k = Return b -> exists a, m = Return a /\ k a = Return b.
Proof. destruct m; cbn; [eauto | discriminate]. Qed.

Ltac bind_inv H :=
  let a := fresh "a" in
  let E := fresh "E" in
  apply bind_Return in H; destruct H as (a & E & H).

Ltac outcome_inv :=
  repeat match goal with
    | H : bind _ _ = Return _ |- _ => bind_inv H
    | H : Return _ = Return _ |- _ => injection H as H; subst
    | H : Raise _ = Return _ |- _ => discriminate H
    | H : (let '(_, _) := ?p in _) = Return _ |- _ => destruct p
    end.

(** ** C2: [_from_xml] never returns *)

Lemma arguments_lack_model nested xml_dict arguments :
  from_xml_arguments nested xml_dict = Return arguments ->
  OpenMLFlow_call arguments = Raise (TypeError (MissingArguments ["model"])).
Proof.
  unfold from_xml_arguments. intros H.
  cbn [for_fold] in H.
  outcome_inv.
  reflexivity.
Qed.

(** C2.  Whatever the document, [OpenMLFlow._from_xml] raises: either the
    document cannot be read (then the error does not depend on the class
    that is called at the end), or the keyword arguments are complete and the
    call of the class fails for the parameter [model], which [_from_xml]
    never supplies. *)
Theorem from_xml_always_raises : forall xml_dict : pyval,
  exists e : exn,
    _from_xml xml_dict = Raise e /\
    (e = TypeError (MissingArguments ["model"]) \/
     forall cls, _from_xml_of cls xml_dict = Raise e).
Proof.
  intros xml_dict. unfold _from_xml, _from_xml_of. cbn [from_xml_rec].
  destruct (from_xml_arguments _ xml_dict) as [arguments | e] eqn:E; cbn [bind].
  - exists (TypeError (MissingArguments ["model"])). split.
    + eapply arguments_lack_model; eassumption.
    + left; reflexivity.
  - exists e. split; [reflexivity | right; intros cls; reflexivity].
Qed.

(** *** The frames given to [_from_xml] are enough *)

Lemma nesting_lookup k d v o :
  lookup k d = Some v -> (nesting v < nesting (VDict o d))%nat.
Proof.
  unfold lookup. cbn [nesting].
  induction d as [| [k' v'] rest IH]; cbn [lookup_with fold_right fst snd].
  - discriminate.
  - destruct (py_eq k k').
    + intros [= ->]. lia.
    + intros H. specialize (IH H). lia.
Qed.

Lemma nesting_getitem obj s v :
  getitem obj (VStr s) = Return v -> (nesting v < nesting obj)%nat.
Proof.
  destruct obj as [| | | | o d | |]; cbn [getitem hashable]; try discriminate.
  destruct (lookup (VStr s) d) eqn:E; [| discriminate].
  intros [= ->]. eapply nesting_lookup; eassumption.
Qed.

Lemma nesting_chars s x : In x (chars s) -> nesting x = O.
Proof.
  unfold chars. rewrite in_map_iff. intros (c & <- & _). reflexivity.
Qed.

Lemma nesting_py_iter c xs x :
  py_iter c = Return xs -> In x xs -> (nesting x <= nesting c)%nat.
Proof.
  destruct c as [| | s | ys | o d | |]; cbn [py_iter]; try discriminate;
    intros [= <-] Hin.
  - rewrite (nesting_chars _ _ Hin). lia.
  - cbn [nesting]. induction ys as [| y ys IH]; [destruct Hin |].
    cbn [fold_right]. destruct Hin as [-> | Hin]; [lia | specialize (IH Hin); lia].
  - cbn [nesting]. induction d as [| [k v] rest IH]; [destruct Hin |].
    cbn [map fst snd fold_right] in *. destruct Hin as [-> | Hin]; [lia | specialize (IH Hin); lia].
Qed.

Lemma for_fold_ext {A S} (xs : list A) (s : S) (f g : S -> A -> outcome S) :
  (forall x, In x xs -> forall s, f s x = g s x) ->
  for_fold xs s f = for_fold xs s g.
Proof.
  revert s. induction xs as [| x rest IH]; intros s H; cbn [for_fold]; [reflexivity |].
  rewrite (H x (or_introl eq_refl)).
  destruct (g s x); cbn [bind]; [| reflexivity].
  apply IH. intros y Hy. apply H. right; exact Hy.
Qed.

Ltac step_both :=
  match goal with
  | |- bind ?m _ = bind ?m _ => destruct m eqn:?; cbn [bind]; [ | reflexivity ]
  | |- (let '(_, _) := ?p in _) = _ => destruct p
  end.

Lemma from_xml_arguments_ext f g xml_dict :
  (forall c, (nesting c + 2 <= nesting xml_dict)%nat -> f c = g c) ->
  from_xml_arguments f xml_dict = from_xml_arguments g xml_dict.
Proof.
  intros H. unfold from_xml_arguments.
  destruct (getitem xml_dict (VStr "oml:flow")) as [dic |] eqn:Hdic;
    cbn [bind]; [| reflexivity].
  apply nesting_getitem in Hdic.
  repeat step_both.
  match goal with
  | |- bind ?m1 _ = bind ?m2 _ => assert (Hm : m1 = m2)
  end.
  { match goal with |- (if ?b then _ else _) = _ => destruct b; [| reflexivity] end.
    destruct (getitem dic (VStr "oml:component")) as [c |] eqn:Hc;
      cbn [bind]; [| reflexivity].
    apply nesting_getitem in Hc.
    destruct (isinstance_dict c); cbn [bind py_iter].
    - apply for_fold_ext. intros x [<- | []] s.
      rewrite H; [reflexivity | lia].
    - destruct (py_iter c) as [each |] eqn:Heach; cbn [bind]; [| reflexivity].
      apply for_fold_ext. intros x Hx s.
      pose proof (nesting_py_iter _ _ _ Heach Hx).
      rewrite H; [reflexivity | lia]. }
  rewrite Hm. reflexivity.
Qed.

Lemma from_xml_rec_enough : forall n m cls xml_dict,
  (nesting xml_dict < n)%nat -> (nesting xml_dict < m)%nat ->
  from_xml_rec n cls xml_dict = from_xml_rec m cls xml_dict.
Proof.
  induction n as [| n IH]; intros m cls xml_dict Hn Hm; [lia |].
  destruct m as [| m]; [lia |].
  cbn [from_xml_rec].
  rewrite (from_xml_arguments_ext _ (from_xml_rec m OpenMLFlow_call)); [reflexivity |].
  intros c Hc. apply IH; lia.
Qed.


(** More frames than the document is deep change nothing: the result of
    [_from_xml] is the result of the source on any stack that is deep
    enough. *)
Corollary from_xml_of_any_limit : forall n cls xml_dict,
  (nesting xml_dict < n)%nat ->
  from_xml_rec n cls xml_dict = _from_xml_of cls xml_dict.
Proof.
  intros n cls xml_dict Hn. unfold _from_xml_of.
  apply from_xml_rec_enough; lia.
Qed.

(** ** C1: the round trip stops in [_from_xml] *)

(** C1 (the code does not do what the claim says).  [tree_flow] is built by
    the constructor from consistent keys and has no registry-assigned field;
    it serializes to [tree_document]; reading that document back raises
    instead of returning a flow equal to [tree_flow]. *)
Theorem roundtrip_of_tree_flow_raises :
  __init__ (VStr "tree") (VStr "a tree") (VObj 2) (VDict true [])
    (VDict true [(VStr "depth", VStr "3")])
    (VDict true [(VStr "depth", meta_info (VStr "int") VNone)])
    (VStr "sklearn_0.18") VNone (VStr "English") (VStr "sklearn")
    VNone VNone VNone VNone VNone VNone VNone
  = Return tree_flow
  /\ _to_dict tree_flow = Return tree_document
  /\ _from_xml tree_document = Raise (TypeError (MissingArguments ["model"])).
Proof. repeat split; reflexivity. Qed.

(** The same for every flow that can be serialized at all. *)
Lemma roundtrip_never_returns : forall (F : OpenMLFlow) (d : pyval),
  _to_dict F = Return d -> exists e, _from_xml d = Raise e.
Proof.
  intros F d _. unfold _from_xml, _from_xml_of. cbn [from_xml_rec].
  destruct (from_xml_arguments _ d) as [arguments | e] eqn:E; cbn [bind].
  - exists (TypeError (MissingArguments ["model"])).
    eapply arguments_lack_model; eassumption.
  - exists e; reflexivity.
Qed.

(** With a class whose constructor is given the missing [model], the
    document of [tree_flow] is read back to a flow that [==] judges equal to
    [tree_flow], in both directions: the defect is the call of the class. *)
Example roundtrip_with_model_supplied :
  exists F',
    _from_xml_of (fun arguments => OpenMLFlow_call (set_arg arguments "model" VNone))
      tree_document = Return F'
    /\ py_eq (VFlow tree_flow) (VFlow F') = true
    /\ py_eq (VFlow F') (VFlow tree_flow) = true.
Proof. eexists. repeat split; reflexivity. Qed.

(** ** C9: single element or list *)

(** C9 (the code does not do what the claim says).  Neither the document
    with one [oml:parameter] element nor the one with two is turned into a
    flow: both calls raise for the missing [model]. *)
Theorem multiplicity_documents_raise :
  _from_xml one_parameter_document = Raise (TypeError (MissingArguments ["model"]))
  /\ _from_xml two_parameter_document = Raise (TypeError (MissingArguments ["model"])).
Proof. split; reflexivity. Qed.

(** What lines 271-317 do before the failing call: the keyword arguments
    hold a mapping with one entry for the single element and with two
    entries for the list. *)
Example one_parameter_arguments : forall nested,
  exists arguments,
    from_xml_arguments nested one_parameter_document = Return arguments
    /\ get_arg arguments "parameters" = Some (VDict true [(VStr "depth", VStr "3")])
    /\ get_arg arguments "tags" = Some (VList []).
Proof. intros nested. eexists. repeat split; reflexivity. Qed.

Example two_parameter_arguments : forall nested,
  exists arguments,
    from_xml_arguments nested two_parameter_document = Return arguments
    /\ get_arg arguments "parameters"
       = Some (VDict true [(VStr "depth", VStr "3"); (VStr "leaves", VStr "8")]).
Proof. intros nested. eexists. repeat split; reflexivity. Qed.

(** A null [oml:tag] gives no tags; a single tag that arrives as text is
    iterated character by character. *)
Example null_tag_arguments : forall nested,
  exists arguments,
    from_xml_arguments nested (document_with [(VStr "oml:tag", VNone)])
    = Return arguments
    /\ get_arg arguments "tags" = Some (VList []).
Proof. intros nested. eexists. repeat split; reflexivity. Qed.

Example text_tag_arguments : forall nested,
  exists arguments,
    from_xml_arguments nested (document_with [(VStr "oml:tag", VStr "ab")])
    = Return arguments
    /\ get_arg arguments "tags" = Some (VList [VStr "a"; VStr "b"]).
Proof. intros nested. eexists. repeat split; reflexivity. Qed.

(** A component, single or in a list, is read by the nested call, which
    raises; no mapping of components is ever built from a non-empty
    document field. *)
Example one_component_document_raises :
  _from_xml
    (document_with
       [(VStr "oml:component",
         VDict true [(VStr "oml:identifier", VStr "C");
                     (VStr "oml:flow",
                      VDict true [(VStr "oml:name", VStr "tree");
                                  (VStr "oml:external_version", VStr "1")])])])
  = Raise (TypeError (MissingArguments ["model"])).
Proof. reflexivity. Qed.

(** ** C4: [_check_flow_exists] validates before it calls *)

Lemma is_nonempty_str_spec v : is_nonempty_str v = true <-> nonempty_string v.
Proof.
  unfold nonempty_string. split.
  - destruct v as [| | s | | | |]; cbn; try discriminate.
    intros H. exists s. split; [reflexivity |].
    intros ->. discriminate H.
  - intros (s & -> & Hs). cbn. destruct s; [contradiction | reflexivity].
Qed.

Lemma is_nonempty_str_false v : ~ nonempty_string v -> is_nonempty_str v = false.
Proof.
  intros H. destruct (is_nonempty_str v) eqn:E; [| reflexivity].
  apply is_nonempty_str_spec in E. contradiction.
Qed.

(** C4.  When [name] or [version] is not a non-empty string, the call
    raises a [ValueError] and the list of transport calls is left as it was:
    the transport has not been called. *)
Theorem check_flow_exists_validates_first :
  forall transport parse (name version : pyval) (log : list api_call),
    ~ nonempty_string name \/ ~ nonempty_string version ->
    exists m,
      _check_flow_exists transport parse name version log
      = (Raise (ValueError m), log).
Proof.
  intros transport parse name version log H.
  unfold _check_flow_exists.
  destruct (is_nonempty_str name) eqn:Hname; cbn [negb].
  - destruct H as [H | H]; [apply is_nonempty_str_false in H; congruence |].
    rewrite (is_nonempty_str_false _ H). cbn [negb].
    eexists; reflexivity.
  - eexists; reflexivity.
Qed.

Lemma check_flow_exists_validates_first_witness :
  exists m,
    _check_flow_exists (stub_transport "17") stub_parse (VStr "") (VStr "1.0") []
    = (Raise (ValueError m), []).
Proof.
  apply check_flow_exists_validates_first.
  left. intros (s & E & Hs). injection E as <-. apply Hs. reflexivity.
Defined.

(** A call that gets past the validation makes exactly one transport call,
    the existence query. *)
Lemma check_flow_exists_calls_once :
  forall transport parse name version log r log',
    _check_flow_exists transport parse name version log = (r, log') ->
    log' = log \/
    log' = (log ++ [mk_api_call ("flow/exists/" ++ str_of name ++ "/" ++ str_of version)
                      None])%list.
Proof.
  intros transport parse name version log r log'.
  unfold _check_flow_exists.
  destruct (is_nonempty_str name); cbn [negb]; [| intros [= _ <-]; left; reflexivity].
  destruct (is_nonempty_str version); cbn [negb]; [| intros [= _ <-]; left; reflexivity].
  unfold bindR, perform, raise, lift, ret.
  destruct (transport log _) as [[return_code xml_response] | e];
    [| intros [= _ <-]; right; reflexivity].
  destruct (negb (return_code =? 200)); [intros [= _ <-]; right; reflexivity |].
  destruct (bind (parse xml_response) _); intros [= _ <-]; right; reflexivity.
Qed.

(** ** C3: [_ensure_flow_exists] *)

(** Whenever the existence check answers with the sentinel, the call does
    not return: [publish] hands back the flow, and a flow cannot be unpacked
    into [return_code, response_xml]. *)
Lemma ensure_flow_exists_sentinel_never_returns :
  forall transport parse unparse sklearn_version self log c x flow_id log1,
    _check_flow_exists transport parse (_get_name self)
      (VStr ("sklearn_" ++ sklearn_version)) log = (Return (c, x, flow_id), log1) ->
    py_int flow_id = Return (-1) ->
    exists e log2,
      _ensure_flow_exists transport parse unparse sklearn_version self log
      = (Raise e, log2).
Proof.
  intros transport parse unparse sklearn_version self log c x flow_id log1 Hcheck Hint.
  unfold _ensure_flow_exists, bindR at 1. rewrite Hcheck.
  unfold bindR at 1, lift at 1. rewrite Hint.
  change (-1 =? -1) with true. cbv iota.
  unfold bindR at 1.
  destruct (publish transport parse unparse self log1) as [[published | e] log2].
  - unfold bindR at 1, lift at 1. cbn [unpack2 py_iter bind].
    eexists; eexists; reflexivity.
  - eexists; eexists; reflexivity.
Qed.

(** Any other id is returned as an integer, and the calls made are those
    of the existence check alone. *)
Lemma ensure_flow_exists_existing_id :
  forall transport parse unparse sklearn_version self log c x flow_id log1 n,
    _check_flow_exists transport parse (_get_name self)
      (VStr ("sklearn_" ++ sklearn_version)) log = (Return (c, x, flow_id), log1) ->
    py_int flow_id = Return n ->
    n <> -1 ->
    _ensure_flow_exists transport parse unparse sklearn_version self log
    = (Return n, log1).
Proof.
  intros transport parse unparse sklearn_version self log c x flow_id log1 n
    Hcheck Hint Hn.
  unfold _ensure_flow_exists, bindR at 1. rewrite Hcheck.
  unfold bindR at 1, lift at 1. rewrite Hint.
  destruct (n =? -1) eqn:E; [apply Z.eqb_eq in E; contradiction |].
  reflexivity.
Qed.

(** C3 (the code does not do what the claim says).  With a transport that
    answers the existence check with [-1], the two calls are made, the
    existence query and the upload of [publish], and then the call raises a
    [TypeError] instead of returning the new id [99]. *)
Theorem ensure_flow_exists_sentinel_raises :
  _ensure_flow_exists (stub_transport "-1") stub_parse stub_unparse "0.18"
    boost_flow []
  = (Raise (TypeError (NotIterable (VFlow (Attr.set_flow_id boost_flow (VInt 99))))),
     [exists_call; upload_call]).
Proof. reflexivity. Qed.

(** With the answer [17] there is the existence query only, and [17] is
    returned. *)
Example ensure_flow_exists_17 :
  _ensure_flow_exists (stub_transport "17") stub_parse stub_unparse "0.18"
    boost_flow []
  = (Return 17, [exists_call]).
Proof. reflexivity. Qed.

(** [publish] itself works on this transport: it records the id. *)
Example publish_boost_flow :
  publish (stub_transport "-1") stub_parse stub_unparse boost_flow []
  = (Return (Attr.set_flow_id boost_flow (VInt 99)), [upload_call]).
Proof. reflexivity. Qed.

(** ** Keys *)

Lemma py_eq_hashable k x : hashable k = true -> (py_eq k x = true <-> k = x).
Proof.
  destruct k; cbn [hashable]; try discriminate; intros _;
    destruct x; cbn [py_eq]; split; try discriminate; try reflexivity.
  - intros H. apply Z.eqb_eq in H. congruence.
  - intros [= ->]. apply Z.eqb_refl.
  - intros H. apply String.eqb_eq in H. congruence.
  - intros [= ->]. apply String.eqb_refl.
  - intros H. apply Nat.eqb_eq in H. congruence.
  - intros [= ->]. apply Nat.eqb_refl.
Qed.

Lemma py_eq_hashable_refl k : hashable k = true -> py_eq k k = true.
Proof. intros H. apply py_eq_hashable; auto. Qed.

Lemma py_eq_hashable_neq k x : hashable k = true -> k <> x -> py_eq k x = false.
Proof.
  intros Hk Hne. destruct (py_eq k x) eqn:E; [| reflexivity].
  apply py_eq_hashable in E; [contradiction | exact Hk].
Qed.

Lemma existsb_py_eq k l : hashable k = true -> (existsb (py_eq k) l = true <-> In k l).
Proof.
  intros Hk. rewrite existsb_exists. split.
  - intros (x & Hx & E). apply (py_eq_hashable _ _ Hk) in E. subst. exact Hx.
  - intros H. exists k. split; [exact H | apply py_eq_hashable; auto].
Qed.

Lemma hashable_keys_In (ks : list pyval) k :
  forallb hashable ks = true -> In k ks -> hashable k = true.
Proof. intros H Hin. rewrite forallb_forall in H. auto. Qed.

Lemma difference_In a b k :
  forallb hashable a = true ->
  (In k (difference a b) <-> In k a /\ ~ In k b).
Proof.
  intros Ha. rewrite forallb_forall in Ha.
  unfold difference. rewrite filter_In. split.
  - intros [Hin Hf]. split; [exact Hin |].
    intros Hb.
    apply (existsb_py_eq _ _ (Ha _ Hin)) in Hb. rewrite Hb in Hf. discriminate.
  - intros [Hin Hb]. split; [exact Hin |].
    destruct (existsb (py_eq k) b) eqn:E; [| reflexivity].
    apply (existsb_py_eq _ _ (Ha _ Hin)) in E. contradiction.
Qed.

Lemma In_dec_hashable k l : hashable k = true -> In k l \/ ~ In k l.
Proof.
  intros Hk. destruct (existsb (py_eq k) l) eqn:E.
  - left. apply existsb_py_eq; assumption.
  - right. intros H. apply (existsb_py_eq _ _ Hk) in H. congruence.
Qed.

(** ** The constructor *)

Section Constructor.
Variables name description model external_version tags language dependencies
  binary_url binary_format binary_md5 uploader upload_date flow_id version : pyval.

Lemma init_of_OrderedDicts (components parameters parameters_meta_info : items) :
  __init__ name description model (VDict true components)
    (VDict true parameters) (VDict true parameters_meta_info)
    external_version tags language dependencies
    binary_url binary_format binary_md5 uploader upload_date flow_id version
  = match difference (keys parameters) (keys parameters_meta_info),
          difference (keys parameters_meta_info) (keys parameters) with
    | (_ :: _) as ks, _ => Raise (ValueError (OnlyInParameters ks))
    | [], (_ :: _) as ks => Raise (ValueError (OnlyInParametersMetaInfo ks))
    | [], [] =>
        Return (mkFlow name description model components parameters
                  parameters_meta_info external_version
                  (if negb (is_None tags) then tags else VList [])
                  language dependencies binary_url binary_format binary_md5
                  uploader upload_date flow_id version)
    end.
Proof.
  unfold __init__. cbn [for_fold isinstance_OrderedDict negb bind odict_items].
  destruct (difference (keys parameters) (keys parameters_meta_info));
    cbn [length Nat.ltb Nat.leb]; [| reflexivity].
  destruct (difference (keys parameters_meta_info) (keys parameters)); reflexivity.
Qed.

(** X1.  Called with three [OrderedDict]s whose keys are hashable, the constructor
    returns a flow exactly when [parameters] and [parameters_meta_info] have
    the same keys.  If some key is only in [parameters], it raises the
    [ValueError] of line 99, which names exactly the keys of [parameters]
    that [parameters_meta_info] lacks; if there is none but some key is only
    in [parameters_meta_info], it raises the [ValueError] of line 104, which
    names exactly those keys. *)
Theorem init_checks_key_sets :
  forall components parameters parameters_meta_info : items,
    forallb hashable (keys parameters) = true ->
    forallb hashable (keys parameters_meta_info) = true ->
    let result :=
      __init__ name description model (VDict true components)
        (VDict true parameters) (VDict true parameters_meta_info)
        external_version tags language dependencies
        binary_url binary_format binary_md5 uploader upload_date flow_id version in
    ((exists flow, result = Return flow) <->
     (forall k, In k (keys parameters) <-> In k (keys parameters_meta_info)))
    /\ ((exists k, only_in parameters parameters_meta_info k) ->
        exists ks,
          result = Raise (ValueError (OnlyInParameters ks))
          /\ forall k, In k ks <-> only_in parameters parameters_meta_info k)
    /\ ((forall k, ~ only_in parameters parameters_meta_info k) ->
        (exists k, only_in parameters_meta_info parameters k) ->
        exists ks,
          result = Raise (ValueError (OnlyInParametersMetaInfo ks))
          /\ forall k, In k ks <-> only_in parameters_meta_info parameters k).
Proof.
  intros components parameters parameters_meta_info Hp Hm result.
  subst result. rewrite init_of_OrderedDicts.
  pose proof (fun k => difference_In (keys parameters) (keys parameters_meta_info) k Hp) as Dp.
  pose proof (fun k => difference_In (keys parameters_meta_info) (keys parameters) k Hm) as Dm.
  fold (only_in parameters parameters_meta_info) in Dp.
  fold (only_in parameters_meta_info parameters) in Dm.
  destruct (difference (keys parameters) (keys parameters_meta_info)) as [| k1 ks1].
  - destruct (difference (keys parameters_meta_info) (keys parameters)) as [| k2 ks2].
    + split; [| split].
      * split; [| intros _; eexists; reflexivity].
        intros _ k. split; intros Hin.
        -- pose proof (hashable_keys_In _ _ Hp Hin) as Hk.
           destruct (In_dec_hashable k (keys parameters_meta_info) Hk) as [Y | N];
             [exact Y |].
           destruct (proj2 (Dp k) (conj Hin N)).
        -- pose proof (hashable_keys_In _ _ Hm Hin) as Hk.
           destruct (In_dec_hashable k (keys parameters) Hk) as [Y | N];
             [exact Y |].
           destruct (proj2 (Dm k) (conj Hin N)).
      * intros (k & Hk). destruct (proj2 (Dp k) Hk).
      * intros _ (k & Hk). destruct (proj2 (Dm k) Hk).
    + split; [| split].
      * split; [intros (flow & [=]) |].
        intros H. destruct (proj1 (Dm k2) (or_introl eq_refl)) as [Y N].
        apply H in Y. contradiction.
      * intros (k & Hk). destruct (proj2 (Dp k) Hk).
      * intros _ _. eexists. split; [reflexivity | exact Dm].
  - split; [| split].
    + split; [intros (flow & [=]) |].
      intros H. destruct (proj1 (Dp k1) (or_introl eq_refl)) as [Y N].
      apply H in Y. contradiction.
    + intros _. eexists. split; [reflexivity | exact Dp].
    + intros H. destruct (H k1). apply Dp. left; reflexivity.
Qed.

Lemma init_returns (components parameters parameters_meta_info : pyval) flow :
  __init__ name description model components parameters parameters_meta_info
    external_version tags language dependencies
    binary_url binary_format binary_md5 uploader upload_date flow_id version
  = Return flow ->
  exists c p m,
    components = VDict true c /\ parameters = VDict true p
    /\ parameters_meta_info = VDict true m
    /\ flow = mkFlow name description model c p m external_version
               (if negb (is_None tags) then tags else VList [])
               language dependencies binary_url binary_format binary_md5
               uploader upload_date flow_id version
    /\ difference (keys p) (keys m) = [] /\ difference (keys m) (keys p) = [].
Proof.
  destruct components as [| | | | [] c | |]; try (cbn; discriminate).
  destruct parameters as [| | | | [] p | |]; try (cbn; discriminate).
  destruct parameters_meta_info as [| | | | [] m | |]; try (cbn; discriminate).
  rewrite init_of_OrderedDicts.
  destruct (difference (keys p) (keys m)) eqn:Dp; [| discriminate].
  destruct (difference (keys m) (keys p)) eqn:Dm; [| discriminate].
  intros [= <-]. exists c, p, m. repeat split; solve [reflexivity | assumption].
Qed.

(** X2.  [components], [parameters] and [parameters_meta_info] are checked in this
    order and before the keys are compared: the first of them that is not an
    [OrderedDict] (a plain [dict] is none) is named in a [TypeError].  A flow
    that is returned holds the three mappings it was given. *)
Theorem init_wants_OrderedDicts :
  forall components parameters parameters_meta_info : pyval,
    let result :=
      __init__ name description model components parameters parameters_meta_info
        external_version tags language dependencies
        binary_url binary_format binary_md5 uploader upload_date flow_id version in
    (isinstance_OrderedDict components = false ->
     result = Raise (TypeError (MustBeOrderedDict "components" components)))
    /\ (isinstance_OrderedDict components = true ->
        isinstance_OrderedDict parameters = false ->
        result = Raise (TypeError (MustBeOrderedDict "parameters" parameters)))
    /\ (isinstance_OrderedDict components = true ->
        isinstance_OrderedDict parameters = true ->
        isinstance_OrderedDict parameters_meta_info = false ->
        result = Raise (TypeError (MustBeOrderedDict "parameters_meta_info"
                                     parameters_meta_info)))
    /\ (forall flow, result = Return flow ->
        components = VDict true (Attr.components flow)
        /\ parameters = VDict true (Attr.parameters flow)
        /\ parameters_meta_info = VDict true (Attr.parameters_meta_info flow)).
Proof.
  intros components parameters parameters_meta_info result. subst result.
  split; [| split; [| split]].
  - intros E. unfold __init__. cbn [for_fold]. rewrite E. reflexivity.
  - intros E1 E2. unfold __init__. cbn [for_fold]. rewrite E1, E2. reflexivity.
  - intros E1 E2 E3. unfold __init__. cbn [for_fold]. rewrite E1, E2, E3. reflexivity.
  - intros flow H.
    destruct (init_returns _ _ _ _ H) as (c & p & m & -> & -> & -> & -> & _).
    repeat split; reflexivity.
Qed.
End Constructor.

Lemma init_checks_key_sets_witness :
  exists ks,
    __init__ (VStr "tree") (VStr "a tree") (VObj 2) (VDict true [])
      (VDict true [(VStr "depth", VStr "3")])
      (VDict true [(VStr "leaves", meta_info VNone VNone)])
      (VStr "sklearn_0.18") VNone (VStr "English") (VStr "sklearn")
      VNone VNone VNone VNone VNone VNone VNone
    = Raise (ValueError (OnlyInParameters ks))
    /\ forall k, In k ks <->
                 only_in [(VStr "depth", VStr "3")]
                         [(VStr "leaves", meta_info VNone VNone)] k.
Proof.
  refine (proj1 (proj2 (init_checks_key_sets
            (VStr "tree") (VStr "a tree") (VObj 2) (VStr "sklearn_0.18") VNone
            (VStr "English") (VStr "sklearn") VNone VNone VNone VNone VNone VNone VNone
            [] [(VStr "depth", VStr "3")] [(VStr "leaves", meta_info VNone VNone)]
            eq_refl eq_refl)) _).
  exists (VStr "depth"). split; [left; reflexivity |].
  intros [E | []]. discriminate E.
Defined.

Lemma init_wants_OrderedDicts_witness :
  __init__ (VStr "tree") (VStr "a tree") (VObj 2) (VDict true [])
    (VDict false [(VStr "depth", VStr "3")])
    (VDict true [(VStr "depth", meta_info VNone VNone)])
    (VStr "sklearn_0.18") VNone (VStr "English") (VStr "sklearn")
    VNone VNone VNone VNone VNone VNone VNone
  = Raise (TypeError (MustBeOrderedDict "parameters"
                        (VDict false [(VStr "depth", VStr "3")]))).
Proof.
  refine (proj1 (proj2 (init_wants_OrderedDicts
            (VStr "tree") (VStr "a tree") (VObj 2) (VStr "sklearn_0.18") VNone
            (VStr "English") (VStr "sklearn") VNone VNone VNone VNone VNone VNone VNone
            (VDict true []) (VDict false [(VStr "depth", VStr "3")])
            (VDict true [(VStr "depth", meta_info VNone VNone)]))) eq_refl eq_refl).
Defined.

(** ** Equality *)

Lemma eq_unfold self other :
  __eq__ self (VFlow other)
  = Some (parameters_equal self other && components_equal self other
          && equal self other && equal_name self other).
Proof. destruct self; reflexivity. Qed.

Lemma py_eq_flow self v :
  py_eq (VFlow self) v = match __eq__ self v with Some r => r | None => false end.
Proof. reflexivity. Qed.

(** *** Mappings *)

Lemma distinct_NoDup ks :
  forallb hashable ks = true -> distinct ks = true -> NoDup ks.
Proof.
  induction ks as [| k rest IH]; cbn [forallb distinct]; [constructor |].
  intros Hh Hd. apply andb_true_iff in Hh as [Hk Hh].
  apply andb_true_iff in Hd as [Hn Hd].
  constructor; [| auto].
  intros Hin. apply (existsb_py_eq _ _ Hk) in Hin. rewrite Hin in Hn. discriminate.
Qed.

Lemma wf_items_hashable d : wf_items d = true -> forallb hashable (keys d) = true.
Proof. unfold wf_items. intros H. apply andb_true_iff in H. tauto. Qed.

Lemma wf_items_NoDup d : wf_items d = true -> NoDup (keys d).
Proof.
  unfold wf_items. intros H. apply andb_true_iff in H as [H1 H2].
  apply distinct_NoDup; assumption.
Qed.

Lemma In_keys (d : items) k v : In (k, v) d -> In k (keys d).
Proof. intros H. unfold keys. change k with (fst (k, v)). apply in_map. exact H. Qed.

Lemma keys_In (d : items) k : In k (keys d) -> exists v, In (k, v) d.
Proof.
  unfold keys. rewrite in_map_iff. intros ([k' v] & E & H). cbn in E. subst.
  exists v. exact H.
Qed.

(** In a mapping, [d[k]] is the value stored with [k]. *)
Lemma getitem_of_item d k v :
  wf_items d = true -> In (k, v) d -> lookup k d = Some v.
Proof.
  intros Hwf. pose proof (wf_items_hashable _ Hwf) as Hh.
  pose proof (wf_items_NoDup _ Hwf) as Hn. clear Hwf.
  unfold lookup. induction d as [| [k' v'] rest IH]; intros Hin; [destruct Hin |].
  cbn [keys map fst forallb] in Hh, Hn. apply andb_true_iff in Hh as [Hk' Hh].
  inversion Hn as [| ? ? Hnotin Hn']; subst.
  cbn [lookup_with]. destruct Hin as [[= -> ->] | Hin].
  - rewrite (py_eq_hashable_refl _ Hk'). reflexivity.
  - pose proof (In_keys _ _ _ Hin) as Hkin.
    assert (Hne : k <> k') by (intros ->; contradiction).
    rewrite (py_eq_hashable_neq k k'); [auto | | exact Hne].
    eapply hashable_keys_In; eassumption.
Qed.

Lemma lookup_In k d v : lookup k d = Some v -> exists k', In (k', v) d /\ py_eq k k' = true.
Proof.
  unfold lookup. induction d as [| [k' v'] rest IH]; cbn [lookup_with]; [discriminate |].
  destruct (py_eq k k') eqn:E.
  - intros [= ->]. exists k'. split; [left; reflexivity | exact E].
  - intros H. destruct (IH H) as (k'' & Hin & Heq). exists k''. split; [right |]; assumption.
Qed.

Lemma lookup_None k d : hashable k = true -> (lookup k d = None <-> ~ In k (keys d)).
Proof.
  intros Hk. unfold lookup.
  induction d as [| [k' v'] rest IH]; cbn [lookup_with keys map fst].
  - split; [intros _ [] | reflexivity].
  - destruct (py_eq k k') eqn:E.
    + apply (py_eq_hashable _ _ Hk) in E. subst. split; [discriminate |].
      intros H. destruct H. left; reflexivity.
    + rewrite IH. split.
      * intros H [-> | Hin]; [| contradiction].
        rewrite (py_eq_hashable_refl _ Hk) in E. discriminate.
      * intros H Hin. apply H. right; exact Hin.
Qed.

Lemma mem_In k d : hashable k = true -> (mem_with py_eq k d = true <-> In k (keys d)).
Proof.
  intros Hk. unfold mem_with. fold (lookup k d).
  destruct (lookup k d) eqn:E.
  - split; [intros _ | reflexivity].
    destruct (In_dec_hashable k (keys d) Hk) as [Y | N]; [exact Y |].
    apply (lookup_None _ _ Hk) in N. congruence.
  - split; [discriminate |]. intros Hin. apply (lookup_None _ _ Hk) in E. contradiction.
Qed.

Lemma zip_values_all_Forall2 a b :
  length a = length b ->
  (zip_values_all_with py_eq a b = true <->
   Forall2 (fun v w => py_eq v w = true) (values a) (values b)).
Proof.
  revert b. induction a as [| [k v] a IH]; intros [| [k' w] b]; cbn [length]; try discriminate.
  - intros _. split; [constructor | reflexivity].
  - intros [= Hl]. cbn [zip_values_all_with values map snd].
    rewrite andb_true_iff, (IH b Hl). split.
    + intros [H1 H2]. constructor; assumption.
    + intros H. inversion H; subst. split; assumption.
Qed.

Lemma keys_length (d : items) : length (keys d) = length d.
Proof. apply length_map. Qed.

Lemma values_length (d : items) : length (values d) = length d.
Proof. apply length_map. Qed.

Lemma keys_eq_spec a b :
  wf_items a = true -> wf_items b = true ->
  (keys_eq_with py_eq a b = true <->
   length a = length b /\ forall k, In k (keys a) <-> In k (keys b)).
Proof.
  intros Ha Hb. unfold keys_eq_with.
  pose proof (wf_items_hashable _ Ha) as Hha.
  rewrite andb_true_iff, Nat.eqb_eq, forallb_forall. split.
  - intros [Hl Hall]. split; [exact Hl |].
    assert (Hincl : incl (keys a) (keys b)).
    { intros k Hk. destruct (keys_In _ _ Hk) as (v & Hv).
      specialize (Hall _ Hv). cbn [fst] in Hall.
      apply mem_In in Hall; [exact Hall |]. eapply hashable_keys_In; eassumption. }
    intros k. split; [apply Hincl |].
    apply NoDup_length_incl; [apply wf_items_NoDup; exact Ha | | exact Hincl].
    rewrite !keys_length. lia.
  - intros [Hl Hiff]. split; [exact Hl |].
    intros [k v] Hin. cbn [fst]. pose proof (In_keys _ _ _ Hin) as Hk.
    apply mem_In; [eapply hashable_keys_In; eassumption |].
    apply Hiff. exact Hk.
Qed.

(** *** Reflexivity *)

Lemma list_eq_refl xs :
  Forall (fun x => wf x = true -> py_eq x x = true) xs ->
  forallb wf xs = true -> list_eq_with py_eq xs xs = true.
Proof.
  induction 1 as [| x xs Hx _ IH]; cbn [forallb list_eq_with]; [reflexivity |].
  intros H. apply andb_true_iff in H as [H1 H2]. rewrite Hx, IH; auto.
Qed.

Lemma values_refl (d : items) :
  Forall (fun kv => (wf (fst kv) = true -> py_eq (fst kv) (fst kv) = true)
                    /\ (wf (snd kv) = true -> py_eq (snd kv) (snd kv) = true)) d ->
  forallb (fun kv => wf (fst kv) && wf (snd kv)) d = true ->
  Forall (fun kv => py_eq (snd kv) (snd kv) = true) d.
Proof.
  induction 1 as [| kv d [_ Hv] _ IH]; cbn [forallb]; [constructor |].
  intros H. apply andb_true_iff in H as [H1 H2].
  apply andb_true_iff in H1 as [_ H1]. constructor; auto.
Qed.

Lemma zip_values_all_refl (d : items) :
  Forall (fun kv => py_eq (snd kv) (snd kv) = true) d ->
  zip_values_all_with py_eq d d = true.
Proof.
  induction 1 as [| [k v] d Hv _ IH]; cbn [zip_values_all_with]; [reflexivity |].
  cbn [snd] in Hv. rewrite Hv, IH. reflexivity.
Qed.

Lemma zip_keys_all_refl (d : items) :
  forallb hashable (keys d) = true -> zip_keys_all_with py_eq d d = true.
Proof.
  induction d as [| [k v] d IH]; cbn [zip_keys_all_with keys map fst forallb];
    [reflexivity |].
  intros H. apply andb_true_iff in H as [Hk H].
  rewrite (py_eq_hashable_refl _ Hk), IH; auto.
Qed.

Lemma keys_eq_refl d : wf_items d = true -> keys_eq_with py_eq d d = true.
Proof. intros H. apply keys_eq_spec; auto. split; [reflexivity | tauto]. Qed.

Lemma dict_eq_refl d :
  wf_items d = true ->
  Forall (fun kv => py_eq (snd kv) (snd kv) = true) d ->
  dict_eq_with py_eq d d = true.
Proof.
  intros Hwf Hv. unfold dict_eq_with.
  rewrite Nat.eqb_refl. cbn [andb]. apply forallb_forall.
  intros [k v] Hin. cbn [fst snd].
  fold (lookup k d). rewrite (getitem_of_item _ _ _ Hwf Hin).
  rewrite Forall_forall in Hv. exact (Hv _ Hin).
Qed.

Lemma odict_eq_refl d :
  wf_items d = true ->
  Forall (fun kv => py_eq (snd kv) (snd kv) = true) d ->
  odict_eq_with py_eq d d = true.
Proof.
  intros Hwf Hv. unfold odict_eq_with.
  rewrite dict_eq_refl, zip_keys_all_refl; auto using wf_items_hashable.
Qed.

Lemma py_eq_refl_wf : forall v, wf v = true -> py_eq v v = true.
Proof.
  apply (pyval_flow_ind
           (fun v => wf v = true -> py_eq v v = true)
           (fun f => wf_flow f = true -> __eq__ f (VFlow f) = Some true)).
  - reflexivity.
  - intros z _. apply Z.eqb_refl.
  - intros s _. apply String.eqb_refl.
  - intros xs IH H. cbn [py_eq]. apply list_eq_refl; assumption.
  - intros o d IH H. cbn [wf] in H. apply andb_true_iff in H as [Hi Hw].
    pose proof (values_refl _ IH Hw) as Hv.
    cbn [py_eq]. destruct (o && o).
    + apply odict_eq_refl; assumption.
    + apply dict_eq_refl; assumption.
  - intros id _. apply Nat.eqb_refl.
  - intros f IH H. cbn [wf] in H. rewrite py_eq_flow, IH; auto.
  - intros name description model components parameters parameters_meta_info
      external_version tags language dependencies
      binary_url binary_format binary_md5 uploader upload_date flow_id version
      Hname Hdescription Hexternal_version Htags Hlanguage Hdependencies
      Hcomponents Hparameters Hmeta H.
    cbn [wf_flow Attr.name Attr.description Attr.external_version Attr.tags
         Attr.language Attr.dependencies Attr.components Attr.parameters
         Attr.parameters_meta_info] in H.
    repeat (apply andb_true_iff in H; destruct H as [H ?]).
    rewrite eq_unfold.
    unfold parameters_equal, components_equal, equal, equal_name, _get_name.
    cbn [Attr.name Attr.description Attr.external_version Attr.tags
         Attr.language Attr.dependencies Attr.components Attr.parameters
         Attr.parameters_meta_info].
    repeat match goal with
           | H : _ && _ = true |- _ => apply andb_true_iff in H; destruct H
           end.
    rewrite Hname, Hdescription, Hexternal_version, Htags, Hlanguage, Hdependencies
      by assumption.
    rewrite !keys_eq_refl by assumption.
    rewrite !zip_values_all_refl by (apply values_refl; assumption).
    rewrite odict_eq_refl; [reflexivity | assumption |].
    apply values_refl; assumption.
Qed.

Lemma eq_refl_wf f : wf_flow f = true -> __eq__ f (VFlow f) = Some true.
Proof. intros H. pose proof (py_eq_refl_wf (VFlow f) H) as E.
  rewrite py_eq_flow in E. rewrite eq_unfold in *. congruence.
Qed.

Lemma eq_other_attributes f g g' :
  same_compared_attributes g g' -> __eq__ f (VFlow g) = __eq__ f (VFlow g').
Proof.
  intros (G1 & G2 & G3 & G4 & G5 & G6 & G7 & G8 & G9).
  rewrite !eq_unfold.
  unfold parameters_equal, components_equal, equal, equal_name, _get_name.
  rewrite G1, G2, G3, G4, G5, G6, G7, G8, G9.
  reflexivity.
Qed.

Lemma eq_self_attributes f f' g :
  same_compared_attributes f f' -> __eq__ f (VFlow g) = __eq__ f' (VFlow g).
Proof.
  intros (F1 & F2 & F3 & F4 & F5 & F6 & F7 & F8 & F9).
  rewrite !eq_unfold.
  unfold parameters_equal, components_equal, equal, equal_name, _get_name.
  rewrite F1, F2, F3, F4, F5, F6, F7, F8, F9.
  reflexivity.
Qed.

(** X3.  The result of [__eq__] depends on nothing but [name], [description],
    [components], [parameters], [parameters_meta_info], [external_version],
    [tags], [language] and [dependencies]: replacing either flow by one that
    agrees with it on these nine attributes (and differs in [model],
    [flow_id], [uploader], [version], [upload_date] or the binary fields)
    changes neither [__eq__] nor [==]. *)
Theorem eq_ignores_model_and_server_fields :
  forall f f' g g' : OpenMLFlow,
    same_compared_attributes f f' -> same_compared_attributes g g' ->
    __eq__ f (VFlow g) = __eq__ f' (VFlow g')
    /\ py_eq (VFlow f) (VFlow g) = py_eq (VFlow f') (VFlow g').
Proof.
  intros f f' g g' Hf Hg.
  assert (E : __eq__ f (VFlow g) = __eq__ f' (VFlow g')).
  { rewrite (eq_self_attributes f f' g Hf). apply eq_other_attributes. exact Hg. }
  split; [exact E |]. rewrite !py_eq_flow, E. reflexivity.
Qed.

Lemma eq_ignores_model_and_server_fields_witness :
  __eq__ boost_flow (VFlow tree_flow)
  = __eq__ (Attr.set_flow_id boost_flow (VInt 42))
           (VFlow (Attr.set_flow_id tree_flow (VInt 7)))
  /\ py_eq (VFlow boost_flow) (VFlow tree_flow)
     = py_eq (VFlow (Attr.set_flow_id boost_flow (VInt 42)))
             (VFlow (Attr.set_flow_id tree_flow (VInt 7))).
Proof.
  apply eq_ignores_model_and_server_fields; repeat split; reflexivity.
Defined.

(** X4.  A flow whose compared attributes are well formed (every [dict] in them
    has hashable, pairwise different keys) is equal, in both directions, to
    every flow that agrees with it on the compared attributes, whatever the
    model and the fields set by the server; in particular it is equal to
    itself. *)
Theorem eq_holds_on_compared_attributes :
  forall f g : OpenMLFlow,
    wf_flow f = true ->
    same_compared_attributes f g ->
    __eq__ f (VFlow g) = Some true /\ __eq__ g (VFlow f) = Some true.
Proof.
  intros f g Hwf Hs. split.
  - rewrite <- (eq_other_attributes f f g Hs). apply eq_refl_wf. exact Hwf.
  - rewrite <- (eq_self_attributes f g f Hs). apply eq_refl_wf. exact Hwf.
Qed.

Lemma eq_holds_on_compared_attributes_witness :
  __eq__ boost_flow (VFlow (Attr.set_flow_id boost_flow (VInt 42))) = Some true
  /\ __eq__ (Attr.set_flow_id boost_flow (VInt 42)) (VFlow boost_flow) = Some true.
Proof.
  apply eq_holds_on_compared_attributes; [reflexivity | repeat split; reflexivity].
Defined.

Lemma py_eq_str_r k s : py_eq k (VStr s) = true -> k = VStr s.
Proof.
  destruct k as [| | t | | | | f]; cbn [py_eq]; try discriminate.
  - intros H. apply String.eqb_eq in H. congruence.
  - destruct f; cbn. discriminate.
Qed.

(** X5.  The comparison of [parameters] is not a comparison by key: two flows that
    agree on everything else, with the same parameter names and the same
    value under every name, are unequal when the names were inserted in
    different orders ([ab_flow] and [ba_flow]), because the values are
    zipped in iteration order. *)
Theorem parameters_equal_is_order_sensitive : ~ parameters_compared_by_key.
Proof.
  intros H. specialize (H ab_flow ba_flow).
  assert (E : parameters_equal ab_flow ba_flow = true); [| discriminate E].
  apply H; try reflexivity.
  - intros k. cbn. tauto.
  - intros k v w. unfold lookup. cbn [ab_flow ba_flow Attr.parameters lookup_with].
    destruct (py_eq k (VStr "a")) eqn:Ea; destruct (py_eq k (VStr "b")) eqn:Eb.
    + apply py_eq_str_r in Ea, Eb. congruence.
    + intros [= <-] [= <-]. reflexivity.
    + intros [= <-] [= <-]. reflexivity.
    + discriminate.
Qed.

Lemma keys_and_values_spec a b :
  wf_items a = true -> wf_items b = true ->
  (keys_eq_with py_eq a b && zip_values_all_with py_eq a b = true <->
   (forall k, In k (keys a) <-> In k (keys b))
   /\ Forall2 (fun v w => py_eq v w = true) (values a) (values b)).
Proof.
  intros Ha Hb. rewrite andb_true_iff, (keys_eq_spec a b Ha Hb). split.
  - intros [[Hl Hk] Hz]. split; [exact Hk |].
    apply zip_values_all_Forall2; assumption.
  - intros [Hk Hv].
    assert (Hl : length a = length b).
    { apply Forall2_length in Hv. rewrite !values_length in Hv. exact Hv. }
    repeat split; try apply Hk; try exact Hl.
    apply zip_values_all_Forall2; assumption.
Qed.

(** X6.  For two parameter mappings, [parameters_equal] holds exactly when the key
    sets are the same and the values are equal position by position in
    iteration order. *)
Theorem parameters_equal_spec :
  forall f g : OpenMLFlow,
    wf_items (Attr.parameters f) = true ->
    wf_items (Attr.parameters g) = true ->
    (parameters_equal f g = true <->
     (forall k, In k (keys (Attr.parameters f)) <-> In k (keys (Attr.parameters g)))
     /\ Forall2 (fun v w => py_eq v w = true)
                (values (Attr.parameters f)) (values (Attr.parameters g))).
Proof. intros f g Hf Hg. apply keys_and_values_spec; assumption. Qed.

Lemma parameters_equal_spec_witness :
  parameters_equal ab_flow ab_flow = true <->
  (forall k, In k (keys (Attr.parameters ab_flow)) <-> In k (keys (Attr.parameters ab_flow)))
  /\ Forall2 (fun v w => py_eq v w = true)
             (values (Attr.parameters ab_flow)) (values (Attr.parameters ab_flow)).
Proof. apply parameters_equal_spec; reflexivity. Defined.

(** X7.  The same for [components_equal]: same identifiers, and sub-flows equal
    position by position in iteration order. *)
Theorem components_equal_spec :
  forall f g : OpenMLFlow,
    wf_items (Attr.components f) = true ->
    wf_items (Attr.components g) = true ->
    (components_equal f g = true <->
     (forall k, In k (keys (Attr.components f)) <-> In k (keys (Attr.components g)))
     /\ Forall2 (fun v w => py_eq v w = true)
                (values (Attr.components f)) (values (Attr.components g))).
Proof. intros f g Hf Hg. apply keys_and_values_spec; assumption. Qed.

Lemma components_equal_spec_witness :
  components_equal boost_flow boost_flow = true <->
  (forall k, In k (keys (Attr.components boost_flow))
             <-> In k (keys (Attr.components boost_flow)))
  /\ Forall2 (fun v w => py_eq v w = true)
             (values (Attr.components boost_flow)) (values (Attr.components boost_flow)).
Proof. apply components_equal_spec; reflexivity. Defined.

Lemma equal_is_dict_comparison self other :
  equal self other = dict_eq_with py_eq (compared_dict self) (compared_dict other).
Proof.
  unfold equal, compared_dict, __dict__, generated_by_the_server, del_item.
  cbn.
  repeat rewrite andb_true_r. repeat rewrite andb_assoc. reflexivity.
Qed.

(** X8.  What lines 328-354 leave in [this_dict] are the six attributes
    [description], [parameters_meta_info], [external_version], [tags],
    [language] and [dependencies]; the [dict] comparison of what is left on
    the two sides compares these six, value by value, and [__eq__] is the
    conjunction of it with the comparisons of the parameters, of the
    components and of the names. *)
Theorem eq_compares_six_attributes :
  forall self other : OpenMLFlow,
    keys (compared_dict self)
    = [VStr "description"; VStr "parameters_meta_info"; VStr "external_version";
       VStr "tags"; VStr "language"; VStr "dependencies"]
    /\ dict_eq_with py_eq (compared_dict self) (compared_dict other)
       = (py_eq (Attr.description self) (Attr.description other)
          && py_eq (VDict true (Attr.parameters_meta_info self))
                   (VDict true (Attr.parameters_meta_info other))
          && py_eq (Attr.external_version self) (Attr.external_version other)
          && py_eq (Attr.tags self) (Attr.tags other)
          && py_eq (Attr.language self) (Attr.language other)
          && py_eq (Attr.dependencies self) (Attr.dependencies other))
    /\ __eq__ self (VFlow other)
       = Some (parameters_equal self other && components_equal self other
               && dict_eq_with py_eq (compared_dict self) (compared_dict other)
               && py_eq (_get_name self) (_get_name other)).
Proof.
  intros self other. split; [reflexivity |].
  rewrite eq_unfold, <- equal_is_dict_comparison. split; reflexivity.
Qed.

(** *** Symmetry *)

Lemma py_eq_hashable_sym k k' :
  hashable k = true -> hashable k' = true -> py_eq k k' = py_eq k' k.
Proof.
  intros Hk Hk'. apply eq_iff_eq_true.
  rewrite (py_eq_hashable k k' Hk), (py_eq_hashable k' k Hk'). split; congruence.
Qed.

Lemma eq_not_a_flow g w :
  (forall f, w <> VFlow f) -> __eq__ g w = None.
Proof.
  intros H. destruct g. destruct w; try reflexivity. destruct (H f). reflexivity.
Qed.

Lemma item_functional d k x y :
  wf_items d = true -> In (k, x) d -> In (k, y) d -> x = y.
Proof.
  intros Hwf Hx Hy.
  pose proof (getitem_of_item _ _ _ Hwf Hx) as Ex.
  pose proof (getitem_of_item _ _ _ Hwf Hy) as Ey. congruence.
Qed.

Lemma dict_eq_spec a b :
  wf_items a = true -> wf_items b = true ->
  (dict_eq_with py_eq a b = true <->
   length a = length b
   /\ forall k v, In (k, v) a -> exists v', In (k, v') b /\ py_eq v v' = true).
Proof.
  intros Ha Hb. unfold dict_eq_with.
  rewrite andb_true_iff, Nat.eqb_eq, forallb_forall. split.
  - intros [Hl Hall]. split; [exact Hl |]. intros k v Hin.
    specialize (Hall _ Hin). cbn [fst snd] in Hall. fold (lookup k b) in Hall.
    destruct (lookup k b) as [v' |] eqn:E; [| discriminate].
    destruct (lookup_In _ _ _ E) as (k' & Hin' & Hk).
    apply py_eq_hashable in Hk.
    + subst k'. exists v'. split; assumption.
    + eapply hashable_keys_In; [apply wf_items_hashable; exact Ha |].
      eapply In_keys; eassumption.
  - intros [Hl Hall]. split; [exact Hl |]. intros [k v] Hin. cbn [fst snd].
    destruct (Hall _ _ Hin) as (v' & Hin' & Hv).
    fold (lookup k b). rewrite (getitem_of_item _ _ _ Hb Hin'). exact Hv.
Qed.

Lemma related_items_sym (R : pyval -> pyval -> Prop) a b :
  wf_items a = true -> wf_items b = true -> length a = length b ->
  (forall k v, In (k, v) a -> exists v', In (k, v') b /\ R v v') ->
  forall k v', In (k, v') b -> exists v, In (k, v) a /\ R v v'.
Proof.
  intros Ha Hb Hl H k v' Hin'.
  assert (Hincl : incl (keys a) (keys b)).
  { intros x Hx. destruct (keys_In _ _ Hx) as (v & Hv).
    destruct (H _ _ Hv) as (w & Hw & _). eapply In_keys; eassumption. }
  assert (Hback : incl (keys b) (keys a)).
  { apply NoDup_length_incl; [apply wf_items_NoDup; exact Ha | | exact Hincl].
    rewrite !keys_length. lia. }
  destruct (keys_In _ _ (Hback _ (In_keys _ _ _ Hin'))) as (v & Hv).
  exists v. split; [exact Hv |].
  destruct (H _ _ Hv) as (w & Hw & HR).
  rewrite (item_functional _ _ _ _ Hb Hin' Hw). exact HR.
Qed.

Lemma values_wf (d : items) kv :
  forallb (fun kv => wf (fst kv) && wf (snd kv)) d = true -> In kv d ->
  wf (fst kv) = true /\ wf (snd kv) = true.
Proof.
  intros H Hin. rewrite forallb_forall in H. specialize (H _ Hin).
  apply andb_true_iff in H. exact H.
Qed.

Lemma value_sym (a b : items) k v k' v' :
  Forall (fun kv =>
            (forall w, wf (fst kv) = true -> wf w = true ->
                       py_eq (fst kv) w = py_eq w (fst kv))
            /\ (forall w, wf (snd kv) = true -> wf w = true ->
                          py_eq (snd kv) w = py_eq w (snd kv))) a ->
  forallb (fun kv => wf (fst kv) && wf (snd kv)) a = true ->
  forallb (fun kv => wf (fst kv) && wf (snd kv)) b = true ->
  In (k, v) a -> In (k', v') b -> py_eq v v' = py_eq v' v.
Proof.
  intros Hsym Hwa Hwb Hin Hin'. rewrite Forall_forall in Hsym.
  destruct (Hsym _ Hin) as [_ H]. cbn [snd] in H. apply H.
  - apply (values_wf _ _ Hwa Hin).
  - apply (values_wf _ _ Hwb Hin').
Qed.

Lemma dict_eq_sym (a b : items) :
  Forall (fun kv =>
            (forall w, wf (fst kv) = true -> wf w = true ->
                       py_eq (fst kv) w = py_eq w (fst kv))
            /\ (forall w, wf (snd kv) = true -> wf w = true ->
                          py_eq (snd kv) w = py_eq w (snd kv))) a ->
  forallb (fun kv => wf (fst kv) && wf (snd kv)) a = true ->
  forallb (fun kv => wf (fst kv) && wf (snd kv)) b = true ->
  wf_items a = true -> wf_items b = true ->
  dict_eq_with py_eq a b = dict_eq_with py_eq b a.
Proof.
  intros Hsym Hwa Hwb Ha Hb. apply eq_iff_eq_true.
  rewrite (dict_eq_spec a b Ha Hb), (dict_eq_spec b a Hb Ha). split.
  - intros [Hl H]. split; [symmetry; exact Hl |].
    intros k v' Hin'.
    destruct (related_items_sym _ a b Ha Hb Hl H k v' Hin') as (v & Hv & HR).
    exists v. split; [exact Hv |].
    rewrite <- (value_sym a b _ _ _ _ Hsym Hwa Hwb Hv Hin'). exact HR.
  - intros [Hl H]. split; [symmetry; exact Hl |].
    intros k v Hin.
    destruct (related_items_sym _ b a Hb Ha Hl H k v Hin) as (v' & Hv' & HR).
    exists v'. split; [exact Hv' |].
    rewrite (value_sym a b _ _ _ _ Hsym Hwa Hwb Hin Hv'). exact HR.
Qed.

Lemma zip_keys_all_sym (a b : items) :
  wf_items a = true -> wf_items b = true ->
  zip_keys_all_with py_eq a b = zip_keys_all_with py_eq b a.
Proof.
  intros Ha Hb. apply wf_items_hashable in Ha, Hb.
  revert b Hb. induction a as [| [k v] a' IH]; intros [| [k' v'] b'] Hb; try reflexivity.
  cbn [keys map fst forallb] in Ha, Hb.
  apply andb_true_iff in Ha as [Hk Ha]. apply andb_true_iff in Hb as [Hk' Hb].
  cbn [zip_keys_all_with]. rewrite (py_eq_hashable_sym k k' Hk Hk'), (IH Ha b' Hb).
  reflexivity.
Qed.

Lemma zip_values_all_sym (a b : items) :
  Forall (fun kv =>
            (forall w, wf (fst kv) = true -> wf w = true ->
                       py_eq (fst kv) w = py_eq w (fst kv))
            /\ (forall w, wf (snd kv) = true -> wf w = true ->
                          py_eq (snd kv) w = py_eq w (snd kv))) a ->
  forallb (fun kv => wf (fst kv) && wf (snd kv)) a = true ->
  forallb (fun kv => wf (fst kv) && wf (snd kv)) b = true ->
  zip_values_all_with py_eq a b = zip_values_all_with py_eq b a.
Proof.
  intros Hsym. revert b.
  induction Hsym as [| [k v] a' [_ Hv] _ IH]; intros [| [k' v'] b'] Hwa Hwb;
    try reflexivity.
  cbn [zip_values_all_with]. cbn [snd] in Hv.
  cbn [forallb fst snd] in Hwa, Hwb.
  apply andb_true_iff in Hwa as [Hw1 Hwa']. apply andb_true_iff in Hw1 as [_ Hw1].
  apply andb_true_iff in Hwb as [Hw2 Hwb']. apply andb_true_iff in Hw2 as [_ Hw2].
  rewrite (Hv v' Hw1 Hw2), (IH b' Hwa' Hwb'). reflexivity.
Qed.

Lemma keys_eq_sym (a b : items) :
  wf_items a = true -> wf_items b = true ->
  keys_eq_with py_eq a b = keys_eq_with py_eq b a.
Proof.
  intros Ha Hb. apply eq_iff_eq_true.
  rewrite (keys_eq_spec a b Ha Hb), (keys_eq_spec b a Hb Ha).
  split; intros [Hl H]; (split; [symmetry; exact Hl | intros k; symmetry; apply H]).
Qed.

Lemma list_eq_sym xs ys :
  Forall (fun x => forall w, wf x = true -> wf w = true -> py_eq x w = py_eq w x) xs ->
  forallb wf xs = true -> forallb wf ys = true ->
  list_eq_with py_eq xs ys = list_eq_with py_eq ys xs.
Proof.
  intros H. revert ys.
  induction H as [| x xs Hx _ IH]; intros [| y ys] Hxs Hys; try reflexivity.
  cbn [forallb] in Hxs, Hys.
  apply andb_true_iff in Hxs as [Hwx Hxs]. apply andb_true_iff in Hys as [Hwy Hys].
  cbn [list_eq_with]. rewrite (Hx y Hwx Hwy), (IH ys Hxs Hys). reflexivity.
Qed.

Lemma py_eq_sym_wf :
  forall v w, wf v = true -> wf w = true -> py_eq v w = py_eq w v.
Proof.
  apply (pyval_flow_ind
           (fun v => forall w, wf v = true -> wf w = true -> py_eq v w = py_eq w v)
           (fun f => forall g, wf_flow f = true -> wf_flow g = true ->
                               __eq__ f (VFlow g) = __eq__ g (VFlow f))).
  - intros [| | | | | | g] _ _; try reflexivity.
    rewrite py_eq_flow, eq_not_a_flow; [reflexivity | discriminate].
  - intros z [| z' | | | | | g] _ _; try reflexivity.
    + apply Z.eqb_sym.
    + rewrite py_eq_flow, eq_not_a_flow; [reflexivity | discriminate].
  - intros s [| | s' | | | | g] _ _; try reflexivity.
    + apply String.eqb_sym.
    + rewrite py_eq_flow, eq_not_a_flow; [reflexivity | discriminate].
  - intros xs IH [| | | ys | | | g] Hv Hw; try reflexivity.
    + cbn [py_eq]. cbn [wf] in Hv, Hw. apply list_eq_sym; assumption.
    + rewrite py_eq_flow, eq_not_a_flow; [reflexivity | discriminate].
  - intros o a IH [| | | | o' b | | g] Hv Hw; try reflexivity.
    + cbn [wf] in Hv, Hw.
      apply andb_true_iff in Hv as [Ha Hwa]. apply andb_true_iff in Hw as [Hb Hwb].
      cbn [py_eq]. rewrite (andb_comm o' o). unfold odict_eq_with.
      rewrite (dict_eq_sym a b IH Hwa Hwb Ha Hb), (zip_keys_all_sym a b Ha Hb).
      reflexivity.
    + rewrite py_eq_flow, eq_not_a_flow; [reflexivity | discriminate].
  - intros i [| | | | | j | g] _ _; try reflexivity.
    + apply Nat.eqb_sym.
    + rewrite py_eq_flow, eq_not_a_flow; [reflexivity | discriminate].
  - intros f IH w Hv Hw. cbn [wf] in Hv.
    destruct w as [| | | | | | g];
      try (rewrite py_eq_flow, eq_not_a_flow; [reflexivity | discriminate]).
    cbn [wf] in Hw. rewrite !py_eq_flow, (IH g Hv Hw). reflexivity.
  - intros name description model components parameters parameters_meta_info
      external_version tags language dependencies
      binary_url binary_format binary_md5 uploader upload_date flow_id version
      Hname Hdescription Hexternal_version Htags Hlanguage Hdependencies
      Hcomponents Hparameters Hmeta g H G.
    rewrite !eq_unfold.
    unfold parameters_equal, components_equal, equal, equal_name, _get_name.
    destruct g as [name' description' model' components' parameters'
                   parameters_meta_info' external_version' tags' language'
                   dependencies' binary_url' binary_format' binary_md5'
                   uploader' upload_date' flow_id' version'].
    cbn [wf_flow Attr.name Attr.description Attr.external_version Attr.tags
         Attr.language Attr.dependencies Attr.components Attr.parameters
         Attr.parameters_meta_info] in H, G |- *.
    repeat match goal with
           | H : _ && _ = true |- _ => apply andb_true_iff in H; destruct H
           end.
    unfold odict_eq_with.
    rewrite (Hname name'), (Hdescription description'),
      (Hexternal_version external_version'), (Htags tags'),
      (Hlanguage language'), (Hdependencies dependencies')
      by assumption.
    rewrite (keys_eq_sym parameters parameters'),
      (keys_eq_sym components components') by assumption.
    rewrite (zip_values_all_sym parameters parameters'),
      (zip_values_all_sym components components') by assumption.
    rewrite (dict_eq_sym parameters_meta_info parameters_meta_info'),
      (zip_keys_all_sym parameters_meta_info parameters_meta_info')
      by assumption.
    reflexivity.
Qed.

(** X9.  On flows whose compared attributes are well formed, [__eq__] is
    symmetric. *)
Theorem eq_symmetric :
  forall f g : OpenMLFlow,
    wf_flow f = true -> wf_flow g = true ->
    __eq__ f (VFlow g) = __eq__ g (VFlow f).
Proof.
  intros f g Hf Hg.
  pose proof (py_eq_sym_wf (VFlow f) (VFlow g) Hf Hg) as E.
  rewrite !py_eq_flow, !eq_unfold in E. rewrite !eq_unfold. congruence.
Qed.

Lemma eq_symmetric_witness :
  __eq__ boost_flow (VFlow tree_flow) = __eq__ tree_flow (VFlow boost_flow).
Proof. apply eq_symmetric; reflexivity. Defined.

(** ** Serialization *)

Lemma keys_app (d e : items) : keys (d ++ e)%list = (keys d ++ keys e)%list.
Proof. apply map_app. Qed.

Lemma set_item_fresh d k v :
  existsb (py_eq k) (keys d) = false -> set_item d k v = (d ++ [(k, v)])%list.
Proof.
  induction d as [| [k' v'] rest IH]; cbn [set_item keys map fst existsb app];
    [reflexivity |].
  intros H. apply orb_false_iff in H as [H1 H2]. rewrite H1.
  unfold keys in IH. rewrite IH; auto.
Qed.

Lemma set_item_if_not_None_fresh d k v :
  existsb (py_eq (VStr k)) (keys d) = false ->
  set_item_if_not_None d (VStr k) v = (d ++ optional_item k v)%list.
Proof.
  intros H. unfold set_item_if_not_None, optional_item.
  destruct (is_None v); cbn [negb].
  - symmetry. apply app_nil_r.
  - apply set_item_fresh. exact H.
Qed.

(** A run of assignments [d[k] = v] and [if v is not None: d[k] = v] with
    pairwise different keys, none of them in [d] yet, appends the entries in
    the order of the assignments. *)
Lemma assignments_append (steps : list (string * pyval * bool)) (d : items) :
  NoDup (map (fun i => fst (fst i)) steps) ->
  (forall i, In i steps -> existsb (py_eq (VStr (fst (fst i)))) (keys d) = false) ->
  fold_left (fun (d : items) (i : string * pyval * bool) =>
               if snd i then set_item_if_not_None d (VStr (fst (fst i))) (snd (fst i))
               else set_item d (VStr (fst (fst i))) (snd (fst i))) steps d
  = (d ++ flat_map (fun i : string * pyval * bool =>
                      if snd i then optional_item (fst (fst i)) (snd (fst i))
                             else [(VStr (fst (fst i)), snd (fst i))]) steps)%list.
Proof.
  revert d. induction steps as [| [[k v] optional] rest IH]; intros d Hnd Hfresh;
    cbn [fold_left flat_map fst snd]; [symmetry; apply app_nil_r |].
  cbn [map fst snd] in Hnd. inversion Hnd as [| ? ? Hk Hnd']; subst.
  pose proof (Hfresh _ (or_introl eq_refl)) as Hd. cbn [fst snd] in Hd.
  assert (E : (if optional then set_item_if_not_None d (VStr k) v
               else set_item d (VStr k) v)
              = (d ++ (if optional then optional_item k v else [(VStr k, v)]))%list).
  { destruct optional;
      [apply set_item_if_not_None_fresh | apply set_item_fresh]; exact Hd. }
  rewrite E, IH, <- app_assoc; [reflexivity | exact Hnd' |].
  intros i Hi. rewrite keys_app, existsb_app, (Hfresh i (or_intror Hi)).
  cbn [orb].
  assert (Hne : fst (fst i) <> k).
  { intros <-. apply Hk. apply in_map_iff. exists i. split; [reflexivity | exact Hi]. }
  assert (Hstr : py_eq (VStr (fst (fst i))) (VStr k) = false)
    by (cbn [py_eq]; apply String.eqb_neq; exact Hne).
  destruct optional; unfold optional_item; [destruct (is_None v) |];
    cbn [keys map fst existsb]; rewrite ?Hstr; reflexivity.
Qed.

Lemma to_dict_unfold self :
  _to_dict self =
  (flow_parameters <- flow_parameters_of self ;;
   components <- components_of _to_dict (Attr.components self) [] ;;
   Return (flow_document self flow_parameters components)).
Proof.
  destruct self. cbn [_to_dict].
  destruct (flow_parameters_of _) as [blocks |]; cbn [bind]; [| reflexivity].
  destruct (components_of _ _ _) as [comps |]; cbn [bind]; [| reflexivity].
  unfold flow_document, flow_entries, _get_name.
  cbn [Attr.flow_id Attr.uploader Attr.name Attr.version Attr.external_version
       Attr.description Attr.upload_date Attr.language Attr.dependencies Attr.tags
       Attr.binary_url Attr.binary_format Attr.binary_md5].
  do 3 f_equal.
  pose proof (assignments_append
    [("@xmlns:oml", VStr "http://openml.org/openml", false);
     ("oml:id", flow_id, true);
     ("oml:uploader", uploader, true);
     ("oml:name", name, false);
     ("oml:version", version, true);
     ("oml:external_version", external_version, false);
     ("oml:description", description, false);
     ("oml:upload_date", upload_date, true);
     ("oml:language", language, true);
     ("oml:dependencies", dependencies, true);
     ("oml:parameter", VList blocks, false);
     ("oml:component", VList comps, false);
     ("oml:tag", tags, false);
     ("oml:binary_url", binary_url, true);
     ("oml:binary_format", binary_format, true);
     ("oml:binary_md5", binary_md5, true)] []) as E.
  cbn [fold_left flat_map fst snd app map] in E.
  rewrite E; [rewrite app_nil_r; reflexivity | | reflexivity].
  repeat (constructor; [cbn [In]; intuition discriminate |]). constructor.
Qed.

Lemma get_of_getitem obj s v :
  getitem obj (VStr s) = Return v -> get obj (VStr s) = Return v.
Proof.
  destruct obj as [| | t | ys | o d | |]; cbn [getitem get hashable]; try discriminate.
  destruct (lookup (VStr s) d); [auto | discriminate].
Qed.

Lemma check_as_passes {A} (x : pyval) (e : exn) (k : outcome A) :
  (if negb (is_None x) && negb (isinstance_str x) then Raise e else k)
  = (if passes_check x then k else Raise e).
Proof. unfold passes_check. destruct (is_None x), (isinstance_str x); reflexivity. Qed.

Lemma param_dict_of_spec self key pd :
  param_dict_of self key = Return pd ->
  exists meta data_type value description,
    getitem (VDict true (Attr.parameters_meta_info self)) key = Return meta
    /\ getitem meta (VStr "data_type") = Return data_type
    /\ getitem meta (VStr "description") = Return description
    /\ getitem (VDict true (Attr.parameters self)) key = Return value
    /\ VDict true pd = parameter_block key data_type value description
    /\ passes_check key = true /\ passes_check data_type = true
    /\ passes_check value = true /\ passes_check description = true.
Proof.
  unfold param_dict_of. intros H.
  bind_inv H. rename a into meta, E into Hmeta.
  bind_inv H. rename a into data_type, E into Hdt.
  bind_inv H. rename a into pd1, E into Hpd1.
  bind_inv H. rename a into value, E into Hvalue.
  bind_inv H. rename a into meta', E into Hmeta'.
  bind_inv H. rename a into description, E into Hds.
  bind_inv H. rename a into pd2, E into Hpd2.
  bind_inv H. rename E into Hcheck. injection H as <-.
  assert (meta' = meta) by congruence. subst meta'.
  exists meta, data_type, value, description.
  rewrite (get_of_getitem _ _ _ Hdt) in Hpd1.
  rewrite (get_of_getitem _ _ _ Hds) in Hpd2.
  cbn [bind set_item] in Hpd1, Hpd2.
  unfold parameter_block, optional_item.
  destruct (is_None data_type) eqn:Ndt; cbn [negb] in Hpd1; injection Hpd1 as <-;
    cbn [set_item py_eq String.eqb Ascii.eqb Bool.eqb] in Hpd2;
    destruct (is_None description) eqn:Nds; cbn [negb] in Hpd2; injection Hpd2 as <-;
    cbn [set_item py_eq String.eqb Ascii.eqb Bool.eqb] in Hcheck;
    cbn [for_fold bind] in Hcheck;
    rewrite ?check_as_passes in Hcheck;
    cbn [is_None isinstance_str negb andb] in Hcheck;
    repeat match type of Hcheck with
      | context [passes_check ?x] =>
          let P := fresh "P" in
          destruct (passes_check x) eqn:P; [| discriminate Hcheck]
      end;
    cbn [app]; repeat split; try assumption; try reflexivity;
    unfold passes_check; rewrite ?Ndt, ?Nds; reflexivity.
Qed.

Lemma param_dict_of_eval self key meta data_type value description :
  getitem (VDict true (Attr.parameters_meta_info self)) key = Return meta ->
  getitem meta (VStr "data_type") = Return data_type ->
  getitem meta (VStr "description") = Return description ->
  getitem (VDict true (Attr.parameters self)) key = Return value ->
  match find (fun x => negb (passes_check x)) [key; data_type; value; description] with
  | Some x => param_dict_of self key = Raise (ValueError (ParameterValueNotSerializable x))
  | None => exists pd, param_dict_of self key = Return pd
                       /\ VDict true pd = parameter_block key data_type value description
  end.
Proof.
  intros Hmeta Hdt Hds Hvalue. unfold param_dict_of.
  rewrite Hmeta, Hvalue. cbn [bind]. rewrite Hdt, Hds. cbn [bind].
  rewrite (get_of_getitem _ _ _ Hdt), (get_of_getitem _ _ _ Hds). cbn [bind set_item].
  unfold parameter_block, optional_item. cbn [find].
  destruct (is_None data_type) eqn:Ndt; cbn [negb bind];
    cbn [set_item py_eq String.eqb Ascii.eqb Bool.eqb];
    destruct (is_None description) eqn:Nds; cbn [negb bind];
    cbn [set_item py_eq String.eqb Ascii.eqb Bool.eqb];
    cbn [for_fold bind]; rewrite ?check_as_passes;
    cbn [is_None isinstance_str negb andb];
    assert (Pdt : is_None data_type = true -> passes_check data_type = true)
      by (unfold passes_check; intros ->; reflexivity);
    assert (Pds : is_None description = true -> passes_check description = true)
      by (unfold passes_check; intros ->; reflexivity);
    rewrite ?(Pdt Ndt), ?(Pds Nds); cbn [negb];
    destruct (passes_check key); cbn [negb bind]; try reflexivity;
    destruct (passes_check data_type); cbn [negb bind]; try reflexivity;
    destruct (passes_check value); cbn [negb bind]; try reflexivity;
    destruct (passes_check description); cbn [negb bind]; try reflexivity;
    eexists; split; reflexivity.
Qed.

Lemma for_fold_Raise {A S} (xs : list A) (s : S) (body : S -> A -> outcome S) e :
  for_fold xs s body = Raise e ->
  exists x s', In x xs /\ body s' x = Raise e.
Proof.
  revert s. induction xs as [| x rest IH]; intros s; cbn [for_fold]; [discriminate |].
  destruct (body s x) as [s' |] eqn:E; cbn [bind].
  - intros H. destruct (IH _ H) as (y & t & Hy & Ht). exists y, t. split; [right |]; assumption.
  - intros [= <-]. exists x, s. split; [left; reflexivity | exact E].
Qed.

Lemma flow_parameters_returns self ks acc blocks :
  for_fold ks acc
    (fun flow_parameters key =>
       param_dict <- param_dict_of self key ;;
       Return (flow_parameters ++ [VDict true param_dict])%list) = Return blocks ->
  exists new,
    blocks = (acc ++ new)%list
    /\ Forall2 (fun key block => exists pd, param_dict_of self key = Return pd
                                            /\ block = VDict true pd) ks new.
Proof.
  revert acc. induction ks as [| key rest IH]; intros acc; cbn [for_fold].
  - intros [= <-]. exists []. split; [symmetry; apply app_nil_r | constructor].
  - intros H. bind_inv H. bind_inv E. injection E as <-.
    destruct (IH _ H) as (new & -> & Hnew).
    exists (VDict true a0 :: new). split; [rewrite <- app_assoc; reflexivity |].
    constructor; [eexists; split; [eassumption | reflexivity] | exact Hnew].
Qed.

Lemma flow_parameters_total self ks acc :
  (forall key, In key ks -> exists pd, param_dict_of self key = Return pd) ->
  exists blocks,
    for_fold ks acc
      (fun flow_parameters key =>
         param_dict <- param_dict_of self key ;;
         Return (flow_parameters ++ [VDict true param_dict])%list) = Return blocks.
Proof.
  revert acc. induction ks as [| key rest IH]; intros acc H; cbn [for_fold].
  - eexists; reflexivity.
  - destruct (H key (or_introl eq_refl)) as (pd & ->). cbn [bind].
    apply IH. intros k Hk. apply H. right; exact Hk.
Qed.

Lemma to_dict_shape self d :
  _to_dict self = Return d -> exists flow, d = VDict true [(VStr "oml:flow", flow)].
Proof.
  rewrite to_dict_unfold. intros H. bind_inv H. bind_inv H. injection H as <-.
  unfold flow_document. eexists; reflexivity.
Qed.

Lemma component_check (component_dict : items) :
  forallb isinstance_str (keys component_dict) = true ->
  for_fold (keys component_dict) tt
    (fun _ key_ =>
       if negb (is_None key_) && negb (isinstance_str key_)
       then Raise (ValueError (ParameterNameNotSerializable key_))
       else Return tt) = Return tt.
Proof.
  induction (keys component_dict) as [| k rest IH]; cbn [for_fold forallb]; [reflexivity |].
  intros H. apply andb_true_iff in H as [Hk H]. rewrite Hk, andb_false_r. cbn [bind].
  apply IH. exact H.
Qed.

Lemma components_of_returns cs acc comps :
  components_of _to_dict cs acc = Return comps ->
  exists new,
    comps = (acc ++ new)%list
    /\ Forall2 (fun kv comp =>
                  exists c child,
                    snd kv = VFlow c
                    /\ _to_dict c = Return (VDict true [(VStr "oml:flow", child)])
                    /\ comp = component_block (fst kv) child) cs new.
Proof.
  revert acc. induction cs as [| [key child] rest IH]; intros acc; cbn [components_of].
  - intros [= <-]. exists []. split; [symmetry; apply app_nil_r | constructor].
  - intros H. bind_inv H. rename a into child_dict, E into Hchild.
    bind_inv H. rename a into child_flow, E into Hflow.
    bind_inv H. destruct (IH _ H) as (new & -> & Hnew).
    destruct child as [| | | | | | c]; try discriminate Hchild.
    destruct (to_dict_shape _ _ Hchild) as (flow & ->).
    cbn in Hflow. injection Hflow as <-.
    exists (component_block key flow :: new). split.
    + rewrite <- app_assoc. reflexivity.
    + constructor; [| exact Hnew]. exists c, flow. repeat split. exact Hchild.
Qed.

Lemma components_of_total cs acc :
  Forall (fun kv => exists c d, snd kv = VFlow c /\ _to_dict c = Return d) cs ->
  exists comps, components_of _to_dict cs acc = Return comps.
Proof.
  intros H. revert acc. induction H as [| [key child] rest (c & d & Hc & Hd) _ IH];
    intros acc; cbn [components_of]; [eexists; reflexivity |].
  cbn [snd] in Hc. subst child. rewrite Hd. cbn [bind].
  destruct (to_dict_shape _ _ Hd) as (flow & ->).
  cbn [getitem hashable lookup lookup_with py_eq String.eqb Ascii.eqb Bool.eqb bind].
  unfold lookup. cbn [lookup_with py_eq String.eqb Ascii.eqb Bool.eqb bind].
  cbn [set_item py_eq String.eqb Ascii.eqb Bool.eqb].
  rewrite component_check by reflexivity. cbn [bind]. apply IH.
Qed.

Lemma Forall2_keys {B} (R : pyval -> B -> Prop) (R' : pyval * pyval -> B -> Prop)
      (d : items) (ys : list B) :
  Forall2 R (keys d) ys ->
  (forall kv y, In kv d -> R (fst kv) y -> R' kv y) ->
  Forall2 R' d ys.
Proof.
  revert ys. induction d as [| kv rest IH]; intros ys H HR; cbn [keys map] in H;
    inversion H; subst; constructor.
  - apply HR; [left; reflexivity | assumption].
  - apply IH; [assumption |]. intros kv' b Hin. apply HR. right; exact Hin.
Qed.

Lemma getitem_item d k v :
  wf_items d = true -> In (k, v) d -> getitem (VDict true d) k = Return v.
Proof.
  intros Hwf Hin. cbn [getitem].
  rewrite (hashable_keys_In _ _ (wf_items_hashable _ Hwf) (In_keys _ _ _ Hin)).
  rewrite (getitem_of_item _ _ _ Hwf Hin). reflexivity.
Qed.

(** X10.  When [_to_dict] returns, the document has the single entry [oml:flow],
    whose entries come in the fixed order of [flow_document]; the entries for
    [flow_id], [uploader], [version], [upload_date], [language],
    [dependencies] and the three binary fields are there exactly when the
    attribute is not [None], and [oml:parameter], [oml:component] and
    [oml:tag] are always there. *)
Theorem to_dict_follows_schema_order :
  forall (self : OpenMLFlow) (d : pyval),
    _to_dict self = Return d ->
    exists flow_parameters components,
      flow_parameters_of self = Return flow_parameters
      /\ components_of _to_dict (Attr.components self) [] = Return components
      /\ d = flow_document self flow_parameters components.
Proof.
  intros self d H. rewrite to_dict_unfold in H.
  bind_inv H. bind_inv H. injection H as <-.
  eexists; eexists. repeat split; eassumption.
Qed.

Lemma to_dict_follows_schema_order_witness :
  exists flow_parameters components,
    flow_parameters_of tree_flow = Return flow_parameters
    /\ components_of _to_dict (Attr.components tree_flow) [] = Return components
    /\ tree_document = flow_document tree_flow flow_parameters components.
Proof. apply to_dict_follows_schema_order. reflexivity. Defined.

Lemma flow_parameters_blocks self flow_parameters :
  flow_parameters_of self = Return flow_parameters ->
  wf_items (Attr.parameters self) = true ->
  Forall2
    (fun kv block =>
       exists meta data_type description,
         getitem (VDict true (Attr.parameters_meta_info self)) (fst kv) = Return meta
         /\ getitem meta (VStr "data_type") = Return data_type
         /\ getitem meta (VStr "description") = Return description
         /\ block = parameter_block (fst kv) data_type (snd kv) description)
    (Attr.parameters self) flow_parameters.
Proof.
  intros Hblocks Hwf. unfold flow_parameters_of in Hblocks.
  destruct (flow_parameters_returns _ _ _ _ Hblocks) as (new & -> & Hnew).
  cbn [app]. eapply Forall2_keys; [exact Hnew |].
  intros [k v] block Hin (pd & Hpd & ->). cbn [fst snd] in Hpd |- *.
  destruct (param_dict_of_spec _ _ _ Hpd)
    as (meta & data_type & value & description & Hm & Hdt & Hds & Hv & Hb & _).
  rewrite (getitem_item _ _ _ Hwf Hin) in Hv. injection Hv as <-.
  exists meta, data_type, description. repeat split; assumption.
Qed.

(** X11.  When [_to_dict] returns, [oml:parameter] holds one block per parameter, in
    the iteration order of [parameters]; the block of a parameter holds its
    name, then [oml:data_type] if the meta-information has one, then the
    value as [oml:default_value], then [oml:description] if there is one. *)
Theorem to_dict_parameter_blocks :
  forall (self : OpenMLFlow) (d : pyval),
    _to_dict self = Return d ->
    wf_items (Attr.parameters self) = true ->
    exists flow_parameters components,
      d = flow_document self flow_parameters components
      /\ Forall2
           (fun kv block =>
              exists meta data_type description,
                getitem (VDict true (Attr.parameters_meta_info self)) (fst kv)
                = Return meta
                /\ getitem meta (VStr "data_type") = Return data_type
                /\ getitem meta (VStr "description") = Return description
                /\ block = parameter_block (fst kv) data_type (snd kv) description)
           (Attr.parameters self) flow_parameters.
Proof.
  intros self d H Hwf. rewrite to_dict_unfold in H.
  bind_inv H. rename a into blocks, E into Hblocks.
  bind_inv H. rename a into comps. injection H as <-.
  exists blocks, comps. split; [reflexivity |].
  apply flow_parameters_blocks; assumption.
Qed.

Lemma to_dict_parameter_blocks_witness :
  exists flow_parameters components,
    tree_document = flow_document tree_flow flow_parameters components
    /\ Forall2
         (fun kv block =>
            exists meta data_type description,
              getitem (VDict true (Attr.parameters_meta_info tree_flow)) (fst kv)
              = Return meta
              /\ getitem meta (VStr "data_type") = Return data_type
              /\ getitem meta (VStr "description") = Return description
              /\ block = parameter_block (fst kv) data_type (snd kv) description)
         (Attr.parameters tree_flow) flow_parameters.
Proof. apply to_dict_parameter_blocks; reflexivity. Defined.

(** X12.  When [_to_dict] returns, [oml:component] holds one block per component,
    in iteration order: the identifier, and under [oml:flow] the content of
    the document the sub-flow serializes to. *)
Theorem to_dict_component_blocks :
  forall (self : OpenMLFlow) (d : pyval),
    _to_dict self = Return d ->
    exists flow_parameters components,
      d = flow_document self flow_parameters components
      /\ Forall2
           (fun kv block =>
              exists c child,
                snd kv = VFlow c
                /\ _to_dict c = Return (VDict true [(VStr "oml:flow", child)])
                /\ block = component_block (fst kv) child)
           (Attr.components self) components.
Proof.
  intros self d H. rewrite to_dict_unfold in H.
  bind_inv H. rename a into blocks.
  bind_inv H. rename a into comps, E0 into Hcomps. injection H as <-.
  exists blocks, comps. split; [reflexivity |].
  destruct (components_of_returns _ _ _ Hcomps) as (new & -> & Hnew). exact Hnew.
Qed.

Lemma to_dict_component_blocks_witness :
  exists d flow_parameters components,
    _to_dict boost_flow = Return d
    /\ d = flow_document boost_flow flow_parameters components
    /\ Forall2
         (fun kv block =>
            exists c child,
              snd kv = VFlow c
              /\ _to_dict c = Return (VDict true [(VStr "oml:flow", child)])
              /\ block = component_block (fst kv) child)
         (Attr.components boost_flow) components.
Proof.
  eexists.
  destruct (to_dict_component_blocks boost_flow _ eq_refl) as (b & c & E & H).
  exists b, c. repeat split; assumption.
Defined.

(** X13.  [_to_dict] returns exactly when every parameter has meta-information with
    the entries [data_type] and [description], the name, the value and
    these two are strings or [None], and every component is a flow that
    serializes.  Nothing is asked of a component identifier: the check of
    lines 209-215 looks at the two literal keys of [component_dict]. *)
Theorem to_dict_succeeds_iff :
  forall self : OpenMLFlow,
    wf_items (Attr.parameters self) = true ->
    ((exists d, _to_dict self = Return d) <->
     (forall k v, In (k, v) (Attr.parameters self) -> parameter_serializable self k v)
     /\ Forall (fun kv => exists c d, snd kv = VFlow c /\ _to_dict c = Return d)
               (Attr.components self)).
Proof.
  intros self Hwf. split.
  - intros (d & H). rewrite to_dict_unfold in H.
    bind_inv H. rename a into blocks, E into Hblocks.
    bind_inv H. rename a into comps, E into Hcomps. split.
    + intros k v Hin. unfold flow_parameters_of in Hblocks.
      destruct (flow_parameters_returns _ _ _ _ Hblocks) as (new & _ & Hnew).
      assert (Hk : exists pd, param_dict_of self k = Return pd).
      { pose proof (In_keys _ _ _ Hin) as Hkin. clear - Hnew Hkin.
        induction Hnew as [| key b ks bs (pd & Hpd & _) _ IH]; [destruct Hkin |].
        destruct Hkin as [-> | Hkin]; [eauto | auto]. }
      destruct Hk as (pd & Hpd).
      destruct (param_dict_of_spec _ _ _ Hpd)
        as (meta & data_type & value & description & Hm & Hdt & Hds & Hv & _ & P).
      rewrite (getitem_item _ _ _ Hwf Hin) in Hv. injection Hv as <-.
      exists meta, data_type, description. tauto.
    + destruct (components_of_returns _ _ _ Hcomps) as (new & _ & Hnew).
      clear - Hnew. induction Hnew as [| kv b ks bs (c & child & Hc & Hd & _) _ IH];
        constructor; eauto.
  - intros [Hp Hc]. rewrite to_dict_unfold. unfold flow_parameters_of.
    destruct (flow_parameters_total self (keys (Attr.parameters self)) []) as (blocks & ->).
    { intros key Hkey. destruct (keys_In _ _ Hkey) as (v & Hin).
      destruct (Hp _ _ Hin) as (meta & dt & ds & Hm & Hdt & Hds & P1 & P2 & P3 & P4).
      pose proof (param_dict_of_eval self key meta dt v ds Hm Hdt Hds
                    (getitem_item _ _ _ Hwf Hin)) as E.
      cbn [find] in E. rewrite P1, P2, P3, P4 in E. cbn [negb] in E.
      destruct E as (pd & E & _). eauto. }
    cbn [bind].
    destruct (components_of_total _ [] Hc) as (comps & ->). cbn [bind].
    eexists; reflexivity.
Qed.

Lemma to_dict_succeeds_iff_witness :
  (exists d, _to_dict none_flow = Return d) <->
  (forall k v, In (k, v) (Attr.parameters none_flow) -> parameter_serializable none_flow k v)
  /\ Forall (fun kv => exists c d, snd kv = VFlow c /\ _to_dict c = Return d)
            (Attr.components none_flow).
Proof. apply to_dict_succeeds_iff. reflexivity. Defined.

(** X14.  If every parameter has complete meta-information and some parameter name
    or value is neither a string nor [None], [_to_dict] raises the
    [ValueError] of line 194 for a value that is neither: a bad parameter
    name is reported as a parameter value too, because it is the value
    stored under [oml:name] in [param_dict]. *)
Theorem to_dict_rejects_other_values :
  forall self : OpenMLFlow,
    wf_items (Attr.parameters self) = true ->
    meta_info_complete self ->
    (exists k v, In (k, v) (Attr.parameters self)
                 /\ (passes_check k = false \/ passes_check v = false)) ->
    exists x,
      _to_dict self = Raise (ValueError (ParameterValueNotSerializable x))
      /\ passes_check x = false.
Proof.
  intros self Hwf Hmeta (k & v & Hin & Hbad).
  rewrite to_dict_unfold. unfold flow_parameters_of.
  destruct (for_fold _ _ _) as [blocks | e] eqn:Hloop; cbn [bind].
  - exfalso.
    destruct (flow_parameters_returns _ _ _ _ Hloop) as (new & _ & Hnew).
    assert (Hk : exists pd, param_dict_of self k = Return pd).
    { pose proof (In_keys _ _ _ Hin) as Hkin. clear - Hnew Hkin.
      induction Hnew as [| key b ks bs (pd & Hpd & _) _ IH]; [destruct Hkin |].
      destruct Hkin as [-> | Hkin]; [eauto | auto]. }
    destruct Hk as (pd & Hpd).
    destruct (param_dict_of_spec _ _ _ Hpd)
      as (meta & data_type & value & description & _ & _ & _ & Hv & _ & P1 & _ & P3 & _).
    rewrite (getitem_item _ _ _ Hwf Hin) in Hv. injection Hv as <-.
    destruct Hbad; congruence.
  - destruct (for_fold_Raise _ _ _ _ Hloop) as (key & acc & Hkey & Hbody).
    destruct (Hmeta key Hkey) as (meta & dt & ds & Hm & Hdt & Hds).
    destruct (keys_In _ _ Hkey) as (value & Hvalue).
    pose proof (param_dict_of_eval self key meta dt value ds Hm Hdt Hds
                  (getitem_item _ _ _ Hwf Hvalue)) as E.
    destruct (find _ _) as [x |] eqn:Hfind.
    + rewrite E in Hbody. cbn [bind] in Hbody. injection Hbody as <-.
      apply find_some in Hfind as [_ Hx]. exists x. split; [reflexivity |].
      destruct (passes_check x); [discriminate Hx | reflexivity].
    + destruct E as (pd & E & _). rewrite E in Hbody. discriminate Hbody.
Qed.

Lemma to_dict_rejects_other_values_witness :
  exists x,
    _to_dict int_flow = Raise (ValueError (ParameterValueNotSerializable x))
    /\ passes_check x = false.
Proof.
  apply to_dict_rejects_other_values.
  - reflexivity.
  - intros key [<- | []]. eexists; eexists; eexists. repeat split; reflexivity.
  - exists (VStr "depth"), (VInt 3). split; [left; reflexivity | right; reflexivity].
Defined.

(** ** Registry operations *)

Lemma after_first_newline_app header body :
  ~ In newline (list_ascii_of_string header) ->
  after_first_newline (header ++ String newline body) = Some body.
Proof.
  induction header as [| c header IH]; cbn [append after_first_newline list_ascii_of_string].
  - intros _. rewrite Ascii.eqb_refl. reflexivity.
  - intros H. destruct (Ascii.eqb c newline) eqn:E.
    + apply Ascii.eqb_eq in E. subst. destruct H. left; reflexivity.
    + apply IH. intros Hin. apply H. right; exact Hin.
Qed.

Lemma after_first_newline_None s :
  ~ In newline (list_ascii_of_string s) -> after_first_newline s = None.
Proof.
  induction s as [| c s IH]; cbn [after_first_newline list_ascii_of_string]; [reflexivity |].
  intros H. destruct (Ascii.eqb c newline) eqn:E.
  - apply Ascii.eqb_eq in E. subst. destruct H. left; reflexivity.
  - apply IH. intros Hin. apply H. right; exact Hin.
Qed.

(** X15.  [_to_xml] returns what [xmltodict.unparse] produced without its first
    line: the text after the first newline, or the whole text when there is
    no newline in it. *)
Theorem to_xml_drops_first_line :
  forall unparse (self : OpenMLFlow) (d : pyval) (xml : string),
    _to_dict self = Return d ->
    unparse d = Return xml ->
    (forall header body,
        xml = header ++ String newline body ->
        ~ In newline (list_ascii_of_string header) ->
        _to_xml unparse self = Return body)
    /\ (~ In newline (list_ascii_of_string xml) ->
        _to_xml unparse self = Return xml).
Proof.
  intros unparse self d xml Hd Hxml. unfold _to_xml. rewrite Hd. cbn [bind].
  rewrite Hxml. cbn [bind]. unfold split_newline_last. split.
  - intros header body -> Hh. rewrite (after_first_newline_app _ _ Hh). reflexivity.
  - intros Hx. rewrite (after_first_newline_None _ Hx). reflexivity.
Qed.

Lemma to_xml_drops_first_line_witness :
  _to_xml stub_unparse tree_flow = Return "<oml:flow/>".
Proof.
  refine (proj1 (to_xml_drops_first_line stub_unparse tree_flow tree_document
                   ("<?xml?>" ++ String newline "<oml:flow/>") eq_refl eq_refl)
            "<?xml?>" "<oml:flow/>" eq_refl _).
  cbn. unfold newline. intros H.
  repeat (destruct H as [H | H]; [discriminate H |]). exact H.
Defined.

(** X16.  If the flow serializes and the answer of the transport can be read,
    [publish] makes exactly one call, to [flow/] with the XML description
    as the file element [description], and returns the flow with [flow_id]
    set to the integer parsed from [oml:upload_flow]/[oml:id].  The return
    code of the call is not looked at. *)
Theorem publish_uploads_once :
  forall transport parse unparse (self : OpenMLFlow) (log : list api_call)
         (xml_description : string) (return_code : Z) (return_value : string)
         (response upload_flow id : pyval) (flow_id : Z),
    _to_xml unparse self = Return xml_description ->
    transport log (mk_api_call "flow/" (Some [("description", xml_description)]))
    = Return (return_code, return_value) ->
    parse return_value = Return response ->
    getitem response (VStr "oml:upload_flow") = Return upload_flow ->
    getitem upload_flow (VStr "oml:id") = Return id ->
    py_int id = Return flow_id ->
    publish transport parse unparse self log
    = (Return (Attr.set_flow_id self (VInt flow_id)),
       (log ++ [mk_api_call "flow/" (Some [("description", xml_description)])])%list).
Proof.
  intros transport parse unparse self log xml_description return_code return_value
    response upload_flow id flow_id Hxml Hcall Hparse Hupload Hid Hint.
  unfold publish, bindR, lift, perform, ret.
  rewrite Hxml, Hcall, Hparse. cbn [bind]. rewrite Hupload. cbn [bind].
  rewrite Hid. cbn [bind]. rewrite Hint. reflexivity.
Qed.

Lemma publish_uploads_once_witness :
  publish (stub_transport "-1") stub_parse stub_unparse boost_flow []
  = (Return (Attr.set_flow_id boost_flow (VInt 99)),
     ([] ++ [mk_api_call "flow/" (Some [("description", "<oml:flow/>")])])%list).
Proof.
  eapply (publish_uploads_once (stub_transport "-1") stub_parse stub_unparse
            boost_flow [] "<oml:flow/>" 200 "upload 99");
    reflexivity.
Defined.

(** X17.  If [_to_dict] raises, [publish] raises the same error and the transport
    has not been called. *)
Theorem publish_stops_before_the_upload :
  forall transport parse unparse (self : OpenMLFlow) (log : list api_call) (e : exn),
    _to_dict self = Raise e ->
    publish transport parse unparse self log = (Raise e, log).
Proof.
  intros transport parse unparse self log e H.
  unfold publish, bindR, lift, _to_xml. rewrite H. reflexivity.
Qed.

Lemma publish_stops_before_the_upload_witness :
  exists x,
    publish (stub_transport "-1") stub_parse stub_unparse int_flow []
    = (Raise (ValueError (ParameterValueNotSerializable x)), []).
Proof.
  eexists. apply publish_stops_before_the_upload. reflexivity.
Defined.

Lemma same_compared_attributes_set_flow_id self v :
  same_compared_attributes self (Attr.set_flow_id self v).
Proof. destruct self. repeat split. Qed.

(** X18.  The flow [publish] returns differs from the one it was called on in
    [flow_id] alone, an attribute [__eq__] ignores: for a well-formed flow
    the two are equal in both directions. *)
Theorem published_flow_equals_original :
  forall transport parse unparse (self published : OpenMLFlow)
         (log log' : list api_call),
    wf_flow self = true ->
    publish transport parse unparse self log = (Return published, log') ->
    same_compared_attributes self published
    /\ Attr.model published = Attr.model self
    /\ __eq__ self (VFlow published) = Some true
    /\ __eq__ published (VFlow self) = Some true.
Proof.
  intros transport parse unparse self published log log' Hwf H.
  assert (E : exists v, published = Attr.set_flow_id self v).
  { unfold publish, bindR, lift, perform, ret in H.
    destruct (_to_xml unparse self); [| discriminate H].
    destruct (transport log _) as [[c r] |]; [| discriminate H].
    destruct (bind (parse r) _); [| discriminate H].
    injection H as <- _. eexists; reflexivity. }
  destruct E as (v & ->).
  pose proof (same_compared_attributes_set_flow_id self v) as Hs.
  repeat split; try apply Hs.
  - destruct self; reflexivity.
  - rewrite <- (eq_other_attributes self self _ Hs). apply eq_refl_wf. exact Hwf.
  - rewrite <- (eq_self_attributes self _ self Hs). apply eq_refl_wf. exact Hwf.
Qed.

Lemma published_flow_equals_original_witness :
  same_compared_attributes boost_flow (Attr.set_flow_id boost_flow (VInt 99))
  /\ Attr.model (Attr.set_flow_id boost_flow (VInt 99)) = Attr.model boost_flow
  /\ __eq__ boost_flow (VFlow (Attr.set_flow_id boost_flow (VInt 99))) = Some true
  /\ __eq__ (Attr.set_flow_id boost_flow (VInt 99)) (VFlow boost_flow) = Some true.
Proof.
  apply (published_flow_equals_original (stub_transport "-1") stub_parse stub_unparse
           boost_flow _ [] [upload_call]); reflexivity.
Defined.

(** X19.  With non-empty [name] and [version], [_check_flow_exists] makes the one
    call [flow/exists/name/version].  A return code other than 200 gives the
    [ValueError] of line 480 with the text of the answer; with 200 the
    result is the triple of the code, the answer and the value found under
    [oml:flow_exists]/[oml:id], which is not converted. *)
Theorem check_flow_exists_outcomes :
  forall transport parse (name version : string) (log : list api_call)
         (return_code : Z) (xml_response : string),
    name <> EmptyString -> version <> EmptyString ->
    transport log (mk_api_call ("flow/exists/" ++ name ++ "/" ++ version) None)
    = Return (return_code, xml_response) ->
    let call := mk_api_call ("flow/exists/" ++ name ++ "/" ++ version) None in
    let result := _check_flow_exists transport parse (VStr name) (VStr version) log in
    (return_code <> 200 ->
     result = (Raise (ValueError (ApiCallFailed xml_response)), (log ++ [call])%list))
    /\ (return_code = 200 ->
        forall xml_dict flow_exists flow_id,
          parse xml_response = Return xml_dict ->
          getitem xml_dict (VStr "oml:flow_exists") = Return flow_exists ->
          getitem flow_exists (VStr "oml:id") = Return flow_id ->
          result = (Return (200, xml_response, flow_id), (log ++ [call])%list)).
Proof.
  intros transport parse name version log return_code xml_response Hn Hv Hcall
    call result.
  subst call result. unfold _check_flow_exists.
  assert (En : is_nonempty_str (VStr name) = true) by (destruct name; [contradiction | reflexivity]).
  assert (Ev : is_nonempty_str (VStr version) = true) by (destruct version; [contradiction | reflexivity]).
  rewrite En, Ev. cbn [negb str_of].
  unfold bindR, perform, raise, lift, ret. rewrite Hcall. split.
  - intros Hc. apply Z.eqb_neq in Hc. rewrite Hc. reflexivity.
  - intros -> xml_dict flow_exists flow_id Hp Hf Hi. cbn [Z.eqb Pos.eqb negb].
    rewrite Hp. cbn [bind]. rewrite Hf. cbn [bind]. rewrite Hi. reflexivity.
Qed.

Lemma check_flow_exists_outcomes_witness :
  _check_flow_exists (stub_transport "17") stub_parse (VStr "boost") (VStr "sklearn_0.18") []
  = (Return (200, "exists 17", VStr "17"),
     ([] ++ [mk_api_call ("flow/exists/" ++ "boost" ++ "/" ++ "sklearn_0.18") None])%list).
Proof.
  eapply (proj2 (check_flow_exists_outcomes (stub_transport "17") stub_parse
                   "boost" "sklearn_0.18" [] 200 "exists 17" _ _ eq_refl) eq_refl);
    reflexivity.
  Unshelve. all: discriminate.
Defined.

(** X20.  After a successful existence check whose id reads as the integer [n]:
    if [n] is not [-1], [_ensure_flow_exists] returns [n] and makes no
    further call; if [n] is [-1] it calls [publish] and then raises, with
    the [TypeError] of unpacking the published flow when [publish]
    returned, and with the error of [publish] otherwise. *)
Theorem ensure_flow_exists_outcomes :
  forall transport parse unparse sklearn_version (self : OpenMLFlow)
         (log log1 : list api_call) (c : Z) (x : string) (flow_id : pyval) (n : Z),
    _check_flow_exists transport parse (_get_name self)
      (VStr ("sklearn_" ++ sklearn_version)) log = (Return (c, x, flow_id), log1) ->
    py_int flow_id = Return n ->
    let result := _ensure_flow_exists transport parse unparse sklearn_version self log in
    (n <> -1 -> result = (Return n, log1))
    /\ (n = -1 ->
        (forall published log2,
            publish transport parse unparse self log1 = (Return published, log2) ->
            result = (Raise (TypeError (NotIterable (VFlow published))), log2))
        /\ (forall e log2,
               publish transport parse unparse self log1 = (Raise e, log2) ->
               result = (Raise e, log2))).
Proof.
  intros transport parse unparse sklearn_version self log log1 c x flow_id n
    Hcheck Hint result.
  subst result.
  split; [intros Hn | intros ->; split; [intros published log2 Hp | intros e log2 Hp]];
    unfold _ensure_flow_exists, bindR at 1; rewrite Hcheck;
    unfold bindR at 1, lift at 1; rewrite Hint.
  - destruct (n =? -1) eqn:E; [apply Z.eqb_eq in E; contradiction |].
    reflexivity.
  - change (-1 =? -1) with true. cbv iota. unfold bindR at 1. rewrite Hp. reflexivity.
  - change (-1 =? -1) with true. cbv iota. unfold bindR at 1. rewrite Hp. reflexivity.
Qed.

Lemma ensure_flow_exists_outcomes_witness :
  _ensure_flow_exists (stub_transport "17") stub_parse stub_unparse "0.18" boost_flow []
  = (Return 17, [exists_call]).
Proof.
  refine (proj1 (ensure_flow_exists_outcomes (stub_transport "17") stub_parse
                   stub_unparse "0.18" boost_flow [] [exists_call] 200 "exists 17"
                   (VStr "17") 17 eq_refl eq_refl) _).
  discriminate.
Defined.

(** ** Deserialization *)

Lemma lookup_set_item_str a b d v :
  lookup (VStr a) (set_item d (VStr b) v)
  = if String.eqb a b then Some v else lookup (VStr a) d.
Proof.
  unfold lookup. induction d as [| [k' v'] rest IH]; cbn [set_item lookup_with].
  - cbn [py_eq]. destruct (String.eqb a b); reflexivity.
  - destruct (py_eq (VStr b) k') eqn:Eb; cbn [lookup_with].
    + apply py_eq_hashable in Eb; [| reflexivity]. subst k'. cbn [py_eq].
      destruct (String.eqb a b); reflexivity.
    + destruct (py_eq (VStr a) k') eqn:Ea.
      * apply py_eq_hashable in Ea; [| reflexivity]. subst k'. cbn [py_eq] in Eb.
        rewrite String.eqb_sym, Eb. reflexivity.
      * exact IH.
Qed.

Lemma getitem_set_item_str o a b d v :
  getitem (VDict o (set_item d (VStr b) v)) (VStr a)
  = if String.eqb a b then Return v else getitem (VDict o d) (VStr a).
Proof.
  cbn [getitem hashable]. rewrite lookup_set_item_str.
  destruct (String.eqb a b); reflexivity.
Qed.

Lemma get_set_item_str o a b d v :
  get (VDict o (set_item d (VStr b) v)) (VStr a)
  = if String.eqb a b then Return v else get (VDict o d) (VStr a).
Proof.
  cbn [get hashable]. rewrite lookup_set_item_str.
  destruct (String.eqb a b); reflexivity.
Qed.

Lemma contains_set_item_str o a b d v :
  contains (VDict o (set_item d (VStr b) v)) (VStr a)
  = if String.eqb a b then Return true else contains (VDict o d) (VStr a).
Proof.
  cbn [contains hashable]. unfold mem_with. fold (lookup (VStr a) (set_item d (VStr b) v)).
  rewrite lookup_set_item_str. destruct (String.eqb a b); reflexivity.
Qed.

Lemma get_arg_set_arg arguments k v k' :
  get_arg (set_arg arguments k v) k'
  = if String.eqb k' k then Some v else get_arg arguments k'.
Proof.
  induction arguments as [| [a x] rest IH]; cbn [set_arg get_arg].
  - destruct (String.eqb k' k); reflexivity.
  - destruct (String.eqb k a) eqn:Ek; cbn [get_arg].
    + apply String.eqb_eq in Ek. subst a. destruct (String.eqb k' k); reflexivity.
    + destruct (String.eqb k' a) eqn:Ea.
      * apply String.eqb_eq in Ea. subst a. rewrite String.eqb_sym, Ek. reflexivity.
      * exact IH.
Qed.

(** X21.  A document from which [oml:flow], or in it [oml:name] or
    [oml:external_version], cannot be read makes [_from_xml] raise the error
    of that access (a [KeyError] with the missing key for a mapping), on
    whatever class it is called. *)
Theorem from_xml_reports_missing_fields :
  forall cls (xml_dict : pyval) (e : exn),
    (getitem xml_dict (VStr "oml:flow") = Raise e ->
     _from_xml_of cls xml_dict = Raise e)
    /\ (forall dic,
           getitem xml_dict (VStr "oml:flow") = Return dic ->
           getitem dic (VStr "oml:name") = Raise e ->
           _from_xml_of cls xml_dict = Raise e)
    /\ (forall dic name,
           getitem xml_dict (VStr "oml:flow") = Return dic ->
           getitem dic (VStr "oml:name") = Return name ->
           getitem dic (VStr "oml:external_version") = Raise e ->
           _from_xml_of cls xml_dict = Raise e).
Proof.
  intros cls xml_dict e. unfold _from_xml_of. cbn [from_xml_rec].
  unfold from_xml_arguments. repeat split.
  - intros ->. reflexivity.
  - intros dic -> H. cbn [bind for_fold append]. rewrite H. reflexivity.
  - intros dic name -> H1 H2. cbn [bind for_fold append]. rewrite H1. cbn [bind].
    rewrite H2. reflexivity.
Qed.

Lemma from_xml_reports_missing_fields_witness :
  _from_xml_of OpenMLFlow_call (VDict true [(VStr "oml:flow", VDict true [])])
  = Raise (KeyError (VStr "oml:name")).
Proof.
  refine (proj1 (proj2 (from_xml_reports_missing_fields OpenMLFlow_call
            (VDict true [(VStr "oml:flow", VDict true [])])
            (KeyError (VStr "oml:name")))) (VDict true []) eq_refl eq_refl).
Defined.

Lemma getitem_lookup o d s v :
  lookup (VStr s) d = Some v -> getitem (VDict o d) (VStr s) = Return v.
Proof. intros H. cbn [getitem hashable]. rewrite H. reflexivity. Qed.

Lemma contains_lookup o d s v :
  lookup (VStr s) d = Some v -> contains (VDict o d) (VStr s) = Return true.
Proof.
  intros H. cbn [contains hashable]. unfold mem_with. fold (lookup (VStr s) d).
  rewrite H. reflexivity.
Qed.

(** X22.  In the keyword arguments computed by lines 246-317, an [oml:parameter],
    [oml:component] or [oml:tag] entry that is a single mapping is read as
    the one-element list holding it: replacing it by that list changes
    nothing. *)
Theorem from_xml_single_element_as_list :
  forall nested (xml_dict xml_dict' : pyval) (o : bool) (d : items)
         (key : string) (p : pyval),
    In key ["oml:parameter"; "oml:component"; "oml:tag"] ->
    getitem xml_dict (VStr "oml:flow") = Return (VDict o d) ->
    lookup (VStr key) d = Some p ->
    isinstance_dict p = true ->
    getitem xml_dict' (VStr "oml:flow")
    = Return (VDict o (set_item d (VStr key) (VList [p]))) ->
    from_xml_arguments nested xml_dict = from_xml_arguments nested xml_dict'.
Proof.
  intros nested xml_dict xml_dict' o d key p Hkey Hdic Hp Hdict Hdic'.
  destruct p as [| | | | o' d' | |]; try discriminate Hdict. clear Hdict.
  unfold from_xml_arguments. rewrite Hdic, Hdic'. cbn [bind for_fold append].
  rewrite !getitem_set_item_str, !get_set_item_str, !contains_set_item_str.
  pose proof (getitem_lookup o _ _ _ Hp) as Hget.
  pose proof (contains_lookup o _ _ _ Hp) as Hin.
  destruct Hkey as [<- | [<- | [<- | []]]];
    cbn [String.eqb Ascii.eqb Bool.eqb];
    rewrite ?Hget, ?Hin; cbn [bind isinstance_dict is_None negb];
    reflexivity.
Qed.

Lemma from_xml_single_element_as_list_witness :
  from_xml_arguments _from_xml one_parameter_document
  = from_xml_arguments _from_xml
      (document_with [(VStr "oml:parameter", VList [parameter_element "depth" "3"])]).
Proof.
  apply (from_xml_single_element_as_list _from_xml one_parameter_document
           (document_with [(VStr "oml:parameter", VList [parameter_element "depth" "3"])])
           true
           [(VStr "oml:name", VStr "tree"); (VStr "oml:external_version", VStr "sklearn_0.18");
            (VStr "oml:parameter", parameter_element "depth" "3")]
           "oml:parameter" (parameter_element "depth" "3"));
    [left; reflexivity | reflexivity ..].
Defined.

Lemma for_fold_append {A} (xs acc : list A) :
  for_fold xs acc (fun tags tag => Return (tags ++ [tag])%list) = Return (acc ++ xs)%list.
Proof.
  revert acc. induction xs as [| x rest IH]; intros acc; cbn [for_fold bind].
  - rewrite app_nil_r. reflexivity.
  - rewrite IH, <- app_assoc. reflexivity.
Qed.

(** X23.  When lines 246-317 succeed, the keyword argument [tags] is a list: empty
    when [oml:tag] is missing or [None], the elements of [oml:tag] when it
    is a list, the one mapping when it is a mapping, and the characters of
    the text when it is a string. *)
Theorem from_xml_reads_tags :
  forall nested (xml_dict : pyval) (o : bool) (d : items) (arguments : kwargs),
    getitem xml_dict (VStr "oml:flow") = Return (VDict o d) ->
    from_xml_arguments nested xml_dict = Return arguments ->
    get_arg arguments "tags"
    = Some (VList match lookup (VStr "oml:tag") d with
                  | Some (VList xs) => xs
                  | Some (VStr s) => chars s
                  | Some (VDict o' d') => [VDict o' d']
                  | _ => []
                  end).
Proof.
  intros nested xml_dict o d arguments Hdic H.
  unfold from_xml_arguments in H. rewrite Hdic in H. cbn [bind] in H.
  outcome_inv.
  rewrite get_arg_set_arg. cbn [String.eqb Ascii.eqb Bool.eqb].
  repeat match goal with
         | H : context [VStr "oml:tag"] |- _ =>
             cbn [contains getitem hashable] in H; unfold mem_with in H;
             fold (lookup (VStr "oml:tag") d) in H; revert H
         end.
  destruct (lookup (VStr "oml:tag") d) as [t |]; cbn [bind].
  - intros [= <-]. cbn [bind]. intros [= <-].
    destruct t as [| | s | xs | o' d' | |];
      cbn [is_None negb isinstance_dict bind py_iter];
      try (intros [= <-]; reflexivity); try discriminate;
      rewrite for_fold_append; intros [= <-]; reflexivity.
  - intros [= <-] [= <-] [= <-]. reflexivity.
Qed.

Lemma from_xml_reads_tags_witness :
  exists arguments,
    from_xml_arguments _from_xml (document_with [(VStr "oml:tag", VStr "ab")])
    = Return arguments
    /\ get_arg arguments "tags" = Some (VList (chars "ab")).
Proof.
  eexists. split; [reflexivity |].
  exact (from_xml_reads_tags _from_xml
           (document_with [(VStr "oml:tag", VStr "ab")]) true
           [(VStr "oml:name", VStr "tree"); (VStr "oml:external_version", VStr "sklearn_0.18");
            (VStr "oml:tag", VStr "ab")]
           _ eq_refl eq_refl).
Defined.

(** ** Reading a serialized flow back *)

Lemma lookup_cons_str a b v rest :
  lookup (VStr a) ((VStr b, v) :: rest)
  = if String.eqb a b then Some v else lookup (VStr a) rest.
Proof. reflexivity. Qed.

Lemma lookup_optional_app a b v rest :
  lookup (VStr a) (optional_item b v ++ rest)%list
  = if String.eqb a b && negb (is_None v) then Some v else lookup (VStr a) rest.
Proof.
  unfold optional_item. destruct (is_None v); cbn [app negb].
  - rewrite andb_false_r. reflexivity.
  - rewrite andb_true_r. reflexivity.
Qed.

Lemma lookup_optional_last a b v :
  lookup (VStr a) (optional_item b v)
  = if String.eqb a b && negb (is_None v) then Some v else None.
Proof.
  unfold optional_item. destruct (is_None v); cbn [negb].
  - rewrite andb_false_r. reflexivity.
  - rewrite andb_true_r. cbn. destruct (String.eqb a b); reflexivity.
Qed.

Lemma is_None_eq v : is_None v = true -> v = VNone.
Proof. destruct v; cbn; congruence. Qed.

Lemma optional_value v :
  match (if negb (is_None v) then Some v else None) with
  | Some x => Return x
  | None => Return VNone
  end = Return v.
Proof.
  destruct (is_None v) eqn:E; cbn [negb]; [| reflexivity].
  rewrite (is_None_eq _ E). reflexivity.
Qed.

Ltac lookup_document :=
  repeat first [rewrite lookup_cons_str | rewrite lookup_optional_app
               | rewrite lookup_optional_last];
  cbn [String.eqb Ascii.eqb Bool.eqb andb].

Lemma parameter_block_fields key data_type value description :
  getitem (parameter_block key data_type value description) (VStr "oml:name")
  = Return key
  /\ getitem (parameter_block key data_type value description) (VStr "oml:default_value")
     = Return value
  /\ get (parameter_block key data_type value description) (VStr "oml:description")
     = Return description
  /\ get (parameter_block key data_type value description) (VStr "oml:data_type")
     = Return data_type.
Proof.
  unfold parameter_block. cbn [getitem get hashable].
  repeat split; lookup_document; try reflexivity; apply optional_value.
Qed.

Lemma set_item_new d k v :
  hashable k = true -> ~ In k (keys d) -> set_item d k v = (d ++ [(k, v)])%list.
Proof.
  intros Hk Hn. apply set_item_fresh.
  destruct (existsb (py_eq k) (keys d)) eqn:E; [| reflexivity].
  apply (existsb_py_eq _ _ Hk) in E. contradiction.
Qed.

Lemma read_parameters self (rows : items) (blocks : list pyval) (accp accm : items) :
  Forall2
    (fun kv block =>
       exists meta data_type description,
         getitem (VDict true (Attr.parameters_meta_info self)) (fst kv) = Return meta
         /\ getitem meta (VStr "data_type") = Return data_type
         /\ getitem meta (VStr "description") = Return description
         /\ block = parameter_block (fst kv) data_type (snd kv) description)
    rows blocks ->
  forallb hashable (keys rows) = true ->
  NoDup (keys rows) ->
  (forall k, In k (keys rows) -> ~ In k (keys accp) /\ ~ In k (keys accm)) ->
  for_fold blocks (accp, accm)
    (fun '(parameters, parameters_meta_info) oml_parameter =>
       parameter_name <- getitem oml_parameter (VStr "oml:name") ;;
       default_value <- getitem oml_parameter (VStr "oml:default_value") ;;
       parameters <- setitem parameters parameter_name default_value ;;
       d <- get oml_parameter (VStr "oml:description") ;;
       t <- get oml_parameter (VStr "oml:data_type") ;;
       parameters_meta_info <-
         setitem parameters_meta_info parameter_name
           (VDict true (set_item (set_item [] (VStr "description") d)
                                 (VStr "data_type") t)) ;;
       Return (parameters, parameters_meta_info))
  = Return
      ((accp ++ rows)%list,
       (accm ++ map (fun kv =>
                       (fst kv,
                        VDict true
                          [(VStr "description", meta_field self (fst kv) "description");
                           (VStr "data_type", meta_field self (fst kv) "data_type")]))
                    rows)%list).
Proof.
  intros H. revert accp accm.
  induction H as [| [k v] block rows blocks (meta & dt & ds & Hm & Hdt & Hds & ->) _ IH];
    intros accp accm Hh Hnd Hfresh; cbn [for_fold map].
  - rewrite !app_nil_r. reflexivity.
  - cbn [fst snd] in *. cbn [keys map fst forallb] in Hh, Hnd.
    apply andb_true_iff in Hh as [Hk Hh]. inversion Hnd as [| ? ? Hnotin Hnd']; subst.
    destruct (parameter_block_fields k dt v ds) as (F1 & F2 & F3 & F4).
    rewrite F1. cbn [bind]. rewrite F2. cbn [bind].
    destruct (Hfresh k (or_introl eq_refl)) as [Hp Hmi].
    unfold setitem. rewrite Hk. cbn [bind]. rewrite F3. cbn [bind]. rewrite F4.
    cbn [bind set_item py_eq String.eqb Ascii.eqb Bool.eqb].
    rewrite (set_item_new accp k v Hk Hp), (set_item_new accm k _ Hk Hmi).
    rewrite IH; [| exact Hh | exact Hnd' |].
    + rewrite <- !app_assoc. cbn [app fst].
      assert (E1 : meta_field self k "description" = ds)
        by (unfold meta_field; rewrite Hm, Hds; reflexivity).
      assert (E2 : meta_field self k "data_type" = dt)
        by (unfold meta_field; rewrite Hm, Hdt; reflexivity).
      rewrite E1, E2. reflexivity.
    + intros k' Hk'. destruct (Hfresh k' (or_intror Hk')) as [Hp' Hm'].
      rewrite !keys_app. cbn [keys map fst].
      split; intros Hin; apply in_app_or in Hin as [Hin | [<- | []]]; contradiction.
Qed.

Lemma flow_entries_fields self flow_parameters components :
  let entries := flow_entries self flow_parameters components in
  let optional v := if negb (is_None v) then Some v else None in
  lookup (VStr "oml:name") entries = Some (Attr.name self)
  /\ lookup (VStr "oml:external_version") entries = Some (Attr.external_version self)
  /\ lookup (VStr "oml:uploader") entries = optional (Attr.uploader self)
  /\ lookup (VStr "oml:description") entries = Some (Attr.description self)
  /\ lookup (VStr "oml:upload_date") entries = optional (Attr.upload_date self)
  /\ lookup (VStr "oml:language") entries = optional (Attr.language self)
  /\ lookup (VStr "oml:dependencies") entries = optional (Attr.dependencies self)
  /\ lookup (VStr "oml:version") entries = optional (Attr.version self)
  /\ lookup (VStr "oml:binary_url") entries = optional (Attr.binary_url self)
  /\ lookup (VStr "oml:binary_format") entries = optional (Attr.binary_format self)
  /\ lookup (VStr "oml:binary_md5") entries = optional (Attr.binary_md5 self)
  /\ lookup (VStr "oml:id") entries = optional (Attr.flow_id self)
  /\ lookup (VStr "oml:parameter") entries = Some (VList flow_parameters)
  /\ lookup (VStr "oml:component") entries = Some (VList components)
  /\ lookup (VStr "oml:tag") entries = Some (Attr.tags self).
Proof.
  cbv zeta. unfold flow_entries.
  repeat split; lookup_document; reflexivity.
Qed.

Lemma read_back_of_document :
  forall nested (self : OpenMLFlow) (d : pyval),
    _to_dict self = Return d ->
    wf_items (Attr.parameters self) = true ->
    Attr.components self = [] ->
    (Attr.flow_id self = VNone \/ exists z, Attr.flow_id self = VInt z) ->
    (exists tags, Attr.tags self = VList tags) ->
    from_xml_arguments nested d = Return (read_back_arguments self).
Proof.
  intros nested self d H Hwf Hcomps Hid (ts & Htags).
  rewrite to_dict_unfold in H.
  bind_inv H. rename a into blocks, E into Hblocks.
  bind_inv H. rename a into comps, E into Hcomps'.
  rewrite Hcomps in Hcomps'. cbn [components_of] in Hcomps'. injection Hcomps' as <-.
  injection H as <-.
  pose proof (flow_parameters_blocks self blocks Hblocks Hwf) as Hrows.
  destruct (flow_entries_fields self blocks [])
    as (L1 & L2 & L3 & L4 & L5 & L6 & L7 & L8 & L9 & L10 & L11 & L12 & L13 & L14 & L15).
  unfold from_xml_arguments, flow_document.
  set (entries := flow_entries self blocks []) in *.
  replace (getitem (VDict true [(VStr "oml:flow", VDict true entries)]) (VStr "oml:flow"))
    with (Return (VDict true entries)) by reflexivity.
  cbn [bind for_fold append get contains getitem hashable]. unfold mem_with.
  repeat match goal with
         | |- context [lookup_with py_eq (VStr ?s) entries] =>
             change (lookup_with py_eq (VStr s) entries) with (lookup (VStr s) entries)
         end.
  rewrite L1, L2, L3, L4, L5, L6, L7, L8, L9, L10, L11, L12, L13, L14, L15.
  rewrite !optional_value. cbn [bind].
  unfold read_back_arguments, read_back_meta_info. rewrite Hcomps, Htags.
  cbn [isinstance_dict is_None negb bind py_iter for_fold].
  rewrite (read_parameters self _ _ [] [] Hrows (wf_items_hashable _ Hwf)
             (wf_items_NoDup _ Hwf)) by (intros k _; split; intros []).
  rewrite for_fold_append. cbn [bind app].
  destruct Hid as [E | (z & E)]; rewrite E; cbn [is_None negb bind py_int];
    cbn [set_arg String.eqb Ascii.eqb Bool.eqb]; reflexivity.
Qed.

(** X24.  For a flow without components whose [flow_id] is [None] or an integer and
    whose [tags] are a list, lines 246-317 read the document of [_to_dict]
    back into the attributes of the flow: every keyword argument is the
    attribute of that name, [parameters] come back with their order and
    values, and [parameters_meta_info] comes back as one [OrderedDict] per
    parameter holding [description] and [data_type].  Only [model] is not
    among the arguments. *)
Theorem arguments_of_serialized_flow :
  forall nested (self : OpenMLFlow) (d : pyval),
    _to_dict self = Return d ->
    wf_items (Attr.parameters self) = true ->
    Attr.components self = [] ->
    (Attr.flow_id self = VNone \/ exists z, Attr.flow_id self = VInt z) ->
    (exists tags, Attr.tags self = VList tags) ->
    from_xml_arguments nested d = Return (read_back_arguments self)
    /\ get_arg (read_back_arguments self) "model" = None.
Proof.
  intros nested self d H Hwf Hcomps Hid Htags. split; [| reflexivity].
  apply read_back_of_document; assumption.
Qed.

Lemma arguments_of_serialized_flow_witness :
  from_xml_arguments _from_xml tree_document = Return (read_back_arguments tree_flow)
  /\ get_arg (read_back_arguments tree_flow) "model" = None.
Proof.
  apply (arguments_of_serialized_flow _from_xml tree_flow tree_document);
    [reflexivity | reflexivity | reflexivity | left; reflexivity
    | exists []; reflexivity].
Defined.

(** ** The round trip through a class that supplies [model] *)

Lemma call_with_model (name external_version uploader description upload_date
                       language dependencies version binary_url binary_format
                       binary_md5 flow_id parameters parameters_meta_info
                       components tags model : pyval) :
  OpenMLFlow_call
    (set_arg
       [("name", name); ("external_version", external_version);
        ("uploader", uploader); ("description", description);
        ("upload_date", upload_date); ("language", language);
        ("dependencies", dependencies); ("version", version);
        ("binary_url", binary_url); ("binary_format", binary_format);
        ("binary_md5", binary_md5); ("flow_id", flow_id);
        ("parameters", parameters); ("parameters_meta_info", parameters_meta_info);
        ("components", components); ("tags", tags)]
       "model" model)
  = __init__ name description model components parameters parameters_meta_info
      external_version tags language dependencies
      binary_url binary_format binary_md5 uploader upload_date flow_id version.
Proof. reflexivity. Qed.

Lemma difference_incl a b :
  forallb hashable a = true -> incl a b -> difference a b = [].
Proof.
  unfold difference. induction a as [| k a IH]; cbn [forallb filter]; [reflexivity |].
  intros H Hincl. apply andb_true_iff in H as [Hk H].
  assert (E : existsb (py_eq k) b = true)
    by (apply existsb_py_eq; [exact Hk | apply Hincl; left; reflexivity]).
  rewrite E. cbn [negb]. apply IH; [exact H |].
  intros x Hx. apply Hincl. right; exact Hx.
Qed.

Lemma keys_read_back_meta_info self :
  keys (read_back_meta_info self) = keys (Attr.parameters self).
Proof.
  unfold read_back_meta_info, keys. rewrite map_map. apply map_ext. reflexivity.
Qed.

Lemma zip_keys_all_same_keys (a b : items) :
  keys a = keys b -> forallb hashable (keys a) = true ->
  zip_keys_all_with py_eq a b = true.
Proof.
  revert b. induction a as [| [k v] a IH]; intros [| [k' v'] b]; try reflexivity.
  cbn [keys map fst forallb zip_keys_all_with]. intros [= <- E] H.
  apply andb_true_iff in H as [Hk H].
  rewrite (py_eq_hashable_refl _ Hk). apply IH; assumption.
Qed.

Lemma wf_hashable k : hashable k = true -> wf k = true.
Proof. destruct k; cbn; try discriminate; reflexivity. Qed.

(** What is read back for a parameter whose meta-information is the [dict]
    with the two entries. *)
Lemma meta_fields_of self k :
  wf_items (Attr.parameters_meta_info self) = true ->
  forallb (fun kv => wf (fst kv) && wf (snd kv)) (Attr.parameters_meta_info self) = true ->
  Forall (fun kv => exists data_type description, snd kv = meta_info data_type description)
         (Attr.parameters_meta_info self) ->
  In k (keys (Attr.parameters_meta_info self)) ->
  exists data_type description,
    In (k, meta_info data_type description) (Attr.parameters_meta_info self)
    /\ meta_field self k "data_type" = data_type
    /\ meta_field self k "description" = description
    /\ wf data_type = true /\ wf description = true.
Proof.
  intros Hwf Hvals Hshape Hk.
  destruct (keys_In _ _ Hk) as (meta & Hin).
  rewrite Forall_forall in Hshape. destruct (Hshape _ Hin) as (dt & ds & E).
  cbn [snd] in E. subst meta. exists dt, ds.
  pose proof (values_wf _ _ Hvals Hin) as [_ Hw]. cbn [snd] in Hw.
  assert (Hw' : wf dt = true /\ wf ds = true).
  { unfold meta_info in Hw. cbn [wf forallb fst snd] in Hw.
    destruct (wf dt), (wf ds); try (split; reflexivity);
      rewrite ?andb_false_r in Hw; cbn in Hw; discriminate Hw. }
  unfold meta_field. rewrite (getitem_item _ _ _ Hwf Hin).
  repeat split; try reflexivity; tauto.
Qed.

Lemma In_read_back_meta_info self k v :
  In (k, v) (Attr.parameters self) ->
  In (k, VDict true [(VStr "description", meta_field self k "description");
                     (VStr "data_type", meta_field self k "data_type")])
     (read_back_meta_info self).
Proof.
  intros H. unfold read_back_meta_info. apply in_map_iff. exists (k, v).
  split; [reflexivity | exact H].
Qed.

Lemma wf_items_same_keys (a b : items) :
  keys a = keys b -> wf_items a = true -> wf_items b = true.
Proof. unfold wf_items. intros <-. auto. Qed.

Lemma meta_info_read_back_equal self :
  wf_items (Attr.parameters_meta_info self) = true ->
  forallb (fun kv => wf (fst kv) && wf (snd kv)) (Attr.parameters_meta_info self) = true ->
  keys (Attr.parameters_meta_info self) = keys (Attr.parameters self) ->
  Forall (fun kv => exists data_type description, snd kv = meta_info data_type description)
         (Attr.parameters_meta_info self) ->
  odict_eq_with py_eq (Attr.parameters_meta_info self) (read_back_meta_info self) = true.
Proof.
  intros Hwf Hvals Hkeys Hshape.
  assert (Hkeys' : keys (Attr.parameters_meta_info self) = keys (read_back_meta_info self))
    by (rewrite keys_read_back_meta_info; exact Hkeys).
  pose proof (wf_items_same_keys _ _ Hkeys' Hwf) as Hwf'.
  unfold odict_eq_with.
  rewrite (zip_keys_all_same_keys _ _ Hkeys' (wf_items_hashable _ Hwf)), andb_true_r.
  apply dict_eq_spec; [exact Hwf | exact Hwf' |]. split.
  - rewrite <- !keys_length, Hkeys'. reflexivity.
  - intros k meta Hin. pose proof (In_keys _ _ _ Hin) as Hk.
    destruct (meta_fields_of self k Hwf Hvals Hshape Hk)
      as (dt & ds & Hin' & Edt & Eds & Wdt & Wds).
    rewrite (item_functional _ _ _ _ Hwf Hin Hin').
    rewrite Hkeys in Hk. destruct (keys_In _ _ Hk) as (v & Hv).
    eexists. split; [exact (In_read_back_meta_info self k v Hv) |].
    rewrite Edt, Eds. unfold meta_info. cbn.
    rewrite (py_eq_refl_wf _ Wdt), (py_eq_refl_wf _ Wds). reflexivity.
Qed.

Lemma wf_read_back_meta_info self :
  wf_items (Attr.parameters_meta_info self) = true ->
  forallb (fun kv => wf (fst kv) && wf (snd kv)) (Attr.parameters_meta_info self) = true ->
  keys (Attr.parameters_meta_info self) = keys (Attr.parameters self) ->
  Forall (fun kv => exists data_type description, snd kv = meta_info data_type description)
         (Attr.parameters_meta_info self) ->
  wf_items (read_back_meta_info self) = true
  /\ forallb (fun kv => wf (fst kv) && wf (snd kv)) (read_back_meta_info self) = true.
Proof.
  intros Hwf Hvals Hkeys Hshape. split.
  - apply (wf_items_same_keys (Attr.parameters_meta_info self)); [| exact Hwf].
    rewrite keys_read_back_meta_info. exact Hkeys.
  - apply forallb_forall. intros [k v] Hin.
    unfold read_back_meta_info in Hin. apply in_map_iff in Hin as ([k' v'] & [= <- <-] & Hin).
    cbn [fst snd]. pose proof (In_keys _ _ _ Hin) as Hk. rewrite <- Hkeys in Hk.
    destruct (meta_fields_of self k' Hwf Hvals Hshape Hk)
      as (dt & ds & _ & Edt & Eds & Wdt & Wds).
    rewrite (wf_hashable k') by (eapply hashable_keys_In;
                                 [apply wf_items_hashable; exact Hwf | exact Hk]).
    rewrite Edt, Eds. cbn. rewrite Wdt, Wds. reflexivity.
Qed.

Lemma wf_flow_parts self :
  wf_flow self = true <->
  wf (Attr.name self) = true /\ wf (Attr.description self) = true
  /\ wf (Attr.external_version self) = true /\ wf (Attr.tags self) = true
  /\ wf (Attr.language self) = true /\ wf (Attr.dependencies self) = true
  /\ (wf_items (Attr.components self) = true
      /\ forallb (fun kv => wf (fst kv) && wf (snd kv)) (Attr.components self) = true)
  /\ (wf_items (Attr.parameters self) = true
      /\ forallb (fun kv => wf (fst kv) && wf (snd kv)) (Attr.parameters self) = true)
  /\ (wf_items (Attr.parameters_meta_info self) = true
      /\ forallb (fun kv => wf (fst kv) && wf (snd kv))
                 (Attr.parameters_meta_info self) = true).
Proof.
  destruct self.
  cbn [wf_flow Attr.name Attr.description Attr.external_version Attr.tags
       Attr.language Attr.dependencies Attr.components Attr.parameters
       Attr.parameters_meta_info].
  rewrite !andb_true_iff. tauto.
Qed.

(** X25.  When [_from_xml] is called on a class whose constructor supplies [model]
    (a subclass, say), the document of a well-formed flow without components
    is read back to a flow that [==] judges equal to the original, in both
    directions, provided that [flow_id] is [None] or an integer, [tags] is a
    list, and [parameters_meta_info] lists the parameters in the order of
    [parameters], each with a plain [dict] of [data_type] and [description]. *)
Theorem from_xml_inverts_to_dict_given_model :
  forall (self : OpenMLFlow) (d model : pyval),
    _to_dict self = Return d ->
    wf_flow self = true ->
    Attr.components self = [] ->
    (Attr.flow_id self = VNone \/ exists z, Attr.flow_id self = VInt z) ->
    (exists tags, Attr.tags self = VList tags) ->
    keys (Attr.parameters_meta_info self) = keys (Attr.parameters self) ->
    Forall (fun kv => exists data_type description,
                        snd kv = meta_info data_type description)
           (Attr.parameters_meta_info self) ->
    exists flow,
      _from_xml_of (fun arguments => OpenMLFlow_call (set_arg arguments "model" model)) d
      = Return flow
      /\ Attr.model flow = model
      /\ __eq__ self (VFlow flow) = Some true
      /\ __eq__ flow (VFlow self) = Some true.
Proof.
  intros self d model H Hwf Hcomps Hid Htags Hkeys Hshape.
  destruct (proj1 (wf_flow_parts self) Hwf)
    as (Wname & Wdescription & Wversion & Wtags & Wlanguage & Wdependencies
        & [Wc Vc] & [Wp Vp] & [Wm Vm]).
  unfold _from_xml_of. cbn [from_xml_rec].
  rewrite (read_back_of_document _ self d H Wp Hcomps Hid Htags). cbn [bind].
  unfold read_back_arguments. rewrite call_with_model, Hcomps.
  rewrite init_of_OrderedDicts, keys_read_back_meta_info.
  rewrite (difference_incl _ _ (wf_items_hashable _ Wp) (incl_refl _)).
  destruct Htags as (ts & Htags).
  replace (if negb (is_None (Attr.tags self)) then Attr.tags self else VList [])
    with (Attr.tags self) by (rewrite Htags; reflexivity).
  eexists. split; [reflexivity |]. split; [reflexivity |].
  destruct (wf_read_back_meta_info self Wm Vm Hkeys Hshape) as [Wr Vr].
  match goal with
  | |- __eq__ self (VFlow ?f) = _ /\ _ =>
      assert (E : __eq__ self (VFlow f) = Some true)
  end.
  { rewrite eq_unfold.
    unfold parameters_equal, components_equal, equal, equal_name, _get_name.
    cbn [Attr.name Attr.description Attr.external_version Attr.tags
         Attr.language Attr.dependencies Attr.components Attr.parameters
         Attr.parameters_meta_info].
    rewrite (meta_info_read_back_equal self Wm Vm Hkeys Hshape).
    rewrite Hcomps.
    rewrite !py_eq_refl_wf by assumption.
    rewrite keys_eq_refl by assumption.
    rewrite zip_values_all_refl; [reflexivity |].
    clear - Vp. induction (Attr.parameters self) as [| [k v] rest IH]; constructor.
    - cbn [forallb fst snd] in Vp. apply andb_true_iff in Vp as [Hkv _].
      apply andb_true_iff in Hkv as [_ Hv]. apply py_eq_refl_wf. exact Hv.
    - apply IH. cbn [forallb] in Vp. apply andb_true_iff in Vp. tauto. }
  split; [exact E |].
  match goal with
  | |- __eq__ ?f (VFlow self) = _ =>
      assert (Wf : wf_flow f = true)
  end.
  { apply wf_flow_parts.
    cbn [Attr.name Attr.description Attr.external_version Attr.tags
         Attr.language Attr.dependencies Attr.components Attr.parameters
         Attr.parameters_meta_info].
    repeat split; try assumption; reflexivity. }
  match goal with
  | |- __eq__ ?f (VFlow self) = _ =>
      pose proof (py_eq_sym_wf (VFlow f) (VFlow self) Wf Hwf) as S
  end.
  rewrite !py_eq_flow, !eq_unfold in S. rewrite eq_unfold in E |- *.
  congruence.
Qed.

Lemma from_xml_inverts_to_dict_given_model_witness :
  exists flow,
    _from_xml_of (fun arguments => OpenMLFlow_call (set_arg arguments "model" (VObj 5)))
      tree_document = Return flow
    /\ Attr.model flow = VObj 5
    /\ __eq__ tree_flow (VFlow flow) = Some true
    /\ __eq__ flow (VFlow tree_flow) = Some true.
Proof.
  apply (from_xml_inverts_to_dict_given_model tree_flow tree_document (VObj 5));
    try reflexivity.
  - left; reflexivity.
  - exists []; reflexivity.
  - repeat constructor. exists (VStr "int"), VNone. reflexivity.
Defined.

(** ** Documents with components *)

Lemma nested_from_xml_raises limit xml_dict :
  exists e, from_xml_rec limit OpenMLFlow_call xml_dict = Raise e.
Proof.
  destruct limit as [| limit]; cbn [from_xml_rec]; [eexists; reflexivity |].
  destruct (from_xml_arguments _ xml_dict) as [arguments | e] eqn:E; cbn [bind].
  - rewrite (arguments_lack_model _ _ _ E). eexists; reflexivity.
  - eexists; reflexivity.
Qed.

Lemma arguments_need_no_component nested (self : OpenMLFlow) blocks comps arguments :
  (forall c, exists e, nested c = Raise e) ->
  from_xml_arguments nested (flow_document self blocks comps) = Return arguments ->
  comps = [].
Proof.
  intros Hnested H.
  destruct (flow_entries_fields self blocks comps)
    as (_ & _ & _ & _ & _ & _ & _ & _ & _ & _ & _ & _ & _ & L14 & _).
  unfold from_xml_arguments, flow_document in H.
  set (entries := flow_entries self blocks comps) in *.
  replace (getitem (VDict true [(VStr "oml:flow", VDict true entries)]) (VStr "oml:flow"))
    with (Return (VDict true entries)) in H by reflexivity.
  cbn [bind] in H. outcome_inv.
  match goal with
  | H5 : contains _ (VStr "oml:component") = Return _,
    H6 : context [nested] |- _ =>
      cbn [contains hashable] in H5; unfold mem_with in H5;
      fold (lookup (VStr "oml:component") entries) in H5; rewrite L14 in H5;
      injection H5 as <-;
      cbn [getitem hashable] in H6; rewrite L14 in H6;
      cbn [bind isinstance_dict py_iter] in H6;
      destruct comps as [| c rest]; [reflexivity |];
      cbn [for_fold] in H6; destruct (Hnested c) as (e & Hc); rewrite Hc in H6;
      discriminate H6
  end.
Qed.

(** X26.  The document of a flow with at least one component cannot be read back
    on any class: the components are read by [OpenMLFlow._from_xml] itself
    (line 303), which raises, so the class the method was called on is
    never reached and the error is the same for every class. *)
Theorem from_xml_raises_on_components :
  forall (self : OpenMLFlow) (d : pyval),
    _to_dict self = Return d ->
    Attr.components self <> [] ->
    exists e, forall cls, _from_xml_of cls d = Raise e.
Proof.
  intros self d H Hcomps. rewrite to_dict_unfold in H.
  bind_inv H. rename a into blocks.
  bind_inv H. rename a into comps, E0 into Hc. injection H as <-.
  assert (Hne : comps <> []).
  { destruct (components_of_returns _ _ _ Hc) as (new & -> & Hnew). cbn [app].
    intros ->. inversion Hnew as [Hnil |]. apply Hcomps. symmetry. exact Hnil. }
  unfold _from_xml_of. cbn [from_xml_rec].
  destruct (from_xml_arguments _ (flow_document self blocks comps))
    as [arguments | e] eqn:Hargs.
  - exfalso. apply Hne.
    eapply arguments_need_no_component; [| exact Hargs].
    intros c. apply nested_from_xml_raises.
  - exists e. intros cls. reflexivity.
Qed.

Lemma from_xml_raises_on_components_witness :
  exists d e,
    _to_dict boost_flow = Return d
    /\ forall cls, _from_xml_of cls d = Raise e.
Proof.
  eexists.
  destruct (from_xml_raises_on_components boost_flow _ eq_refl) as (e & He);
    [discriminate |].
  exists e. split; [reflexivity | exact He].
Defined.

(** ** [create_flow_from_model] *)




